(** * docker_pull.py: a shallow embedding of the registry-to-archive puller

    The development follows [src/docker_pull.py] method by method.  Python
    strings are [string], the instance fields of [DockerImagePuller] are the
    record [Puller], and every method that touches the network, the file
    system or the console is a computation in the monad [M] over an explicit
    [World].  Codecs and services the script takes from libraries (SHA-256,
    the JSON codec, gzip, tar, the registry itself) are the fields of the
    class [Externals]. *)

From Stdlib Require Import String Ascii List ZArith Bool Arith Lia.
From Stdlib Require Import DecimalString.
Import ListNotations.
Local Open Scope list_scope.
Local Open Scope string_scope.
Set Warnings "-register-all".

(** ** Python string primitives *)

Module PyStr.

(** [c in s] for a one-character needle. *)
Fixpoint contains (c : ascii) (s : string) : bool :=
  match s with
  | EmptyString => false
  | String a s' => if Ascii.eqb a c then true else contains c s'
  end.

(** [s.split(c)] for a one-character separator: never the empty list. *)
Fixpoint split (c : ascii) (s : string) : list string :=
  match s with
  | EmptyString => [""]
  | String a s' =>
      if Ascii.eqb a c then "" :: split c s'
      else match split c s' with
           | h :: t => String a h :: t
           | [] => [String a ""]
           end
  end.

(** [sep.join(parts)]. *)
Fixpoint join (sep : string) (parts : list string) : string :=
  match parts with
  | [] => ""
  | [x] => x
  | x :: rest => x ++ sep ++ join sep rest
  end.

(** [s.replace(a, b)] for one-character [a] and [b]. *)
Fixpoint replace (a b : ascii) (s : string) : string :=
  match s with
  | EmptyString => ""
  | String c s' => String (if Ascii.eqb c a then b else c) (replace a b s')
  end.

(** [s[n:]]. *)
Fixpoint drop (n : nat) (s : string) : string :=
  match n, s with
  | O, _ => s
  | S n', String _ s' => drop n' s'
  | S _, EmptyString => ""
  end.

(** [s[:n]]. *)
Fixpoint take (n : nat) (s : string) : string :=
  match n, s with
  | S n', String c s' => String c (take n' s')
  | _, _ => ""
  end.

(** [s[a:b]] for [a <= b]. *)
Definition slice (a b : nat) (s : string) : string := take (b - a) (drop a s).

(** ASCII lower-casing, as used by the case-insensitive header mapping. *)
Definition lower_ascii (c : ascii) : ascii :=
  let n := nat_of_ascii c in
  if Nat.leb 65 n && Nat.leb n 90 then ascii_of_nat (n + 32) else c.

Fixpoint lower (s : string) : string :=
  match s with
  | EmptyString => ""
  | String c s' => String (lower_ascii c) (lower s')
  end.

(** [s.startswith(c)] and [s.endswith(c)] for one character. *)
Definition starts_with (c : ascii) (s : string) : bool :=
  match s with
  | String a _ => Ascii.eqb a c
  | EmptyString => false
  end.

Fixpoint ends_with (c : ascii) (s : string) : bool :=
  match s with
  | EmptyString => false
  | String a EmptyString => Ascii.eqb a c
  | String _ s' => ends_with c s'
  end.

(** [str(n)] for an integer. *)
Definition of_Z (z : Z) : string := NilZero.string_of_int (Z.to_int z).

(** [parts[:-1]]. *)
Definition init {A} (l : list A) : list A := removelast l.

(** [parts[-1]] of a list known to be non-empty ([split] never returns
    the empty list); [d] is never returned there. *)
Definition last_of {A} (l : list A) (d : A) : A := last l d.

End PyStr.

(** ** Exceptions and results *)

(** The exception classes the script can meet.  Only three handlers
    discriminate on the class: [except IndexError], [except
    requests.exceptions.HTTPError] and the top-level [except Exception]. *)
Inductive exn : Type :=
| ValueError | KeyError | IndexError | TypeError | AttributeError
| JSONDecodeError | HTTPError | RequestException | OSError.

(** A call returns, raises an [Exception], or raises [SystemExit(code)]
    (which is not an [Exception]). *)
Inductive result (A : Type) : Type :=
| Ok (a : A)
| Raise (e : exn)
| SysExit (code : Z).
Arguments Ok {A} a.
Arguments Raise {A} e.
Arguments SysExit {A} code.

(** ** The puller object *)

Record Puller : Type := mkPuller {
  image_reference : string;
  registry : string;
  repo : string;
  tag : string;
  img : string;
  auth_url : string;
  reg_service : string;
  image_dir : string
}.

(** [DockerImagePuller.__init__]. *)
Definition init_puller (image_reference : string) : Puller :=
  {| image_reference := image_reference;
     registry := "registry-1.docker.io";
     repo := "library";
     tag := "latest";
     img := "";
     auth_url := "https://auth.docker.io/token";
     reg_service := "registry.docker.io";
     image_dir := "" |}.

Definition set_img_tag (i t : string) (p : Puller) : Puller :=
  {| image_reference := image_reference p; registry := registry p;
     repo := repo p; tag := t; img := i; auth_url := auth_url p;
     reg_service := reg_service p; image_dir := image_dir p |}.

Definition set_img (i : string) (p : Puller) : Puller := set_img_tag i (tag p) p.

Definition set_registry (r : string) (p : Puller) : Puller :=
  {| image_reference := image_reference p; registry := r;
     repo := repo p; tag := tag p; img := img p; auth_url := auth_url p;
     reg_service := reg_service p; image_dir := image_dir p |}.

Definition set_repo (r : string) (p : Puller) : Puller :=
  {| image_reference := image_reference p; registry := registry p;
     repo := r; tag := tag p; img := img p; auth_url := auth_url p;
     reg_service := reg_service p; image_dir := image_dir p |}.

Definition set_auth (u s : string) (p : Puller) : Puller :=
  {| image_reference := image_reference p; registry := registry p;
     repo := repo p; tag := tag p; img := img p; auth_url := u;
     reg_service := s; image_dir := image_dir p |}.

Definition set_image_dir (d : string) (p : Puller) : Puller :=
  {| image_reference := image_reference p; registry := registry p;
     repo := repo p; tag := tag p; img := img p; auth_url := auth_url p;
     reg_service := reg_service p; image_dir := d |}.

(** [a, b = s.split(c)]: the unpacking raises [ValueError] unless the split
    has exactly two fields; nothing is assigned in that case. *)
Definition unpack2 (l : list string) : result (string * string) :=
  match l with
  | [a; b] => Ok (a, b)
  | _ => Raise ValueError
  end.

(** [DockerImagePuller.parse_image_reference] (lines 28-47). *)
Definition parse_image_reference (self : Puller) : result Puller :=
  let parts := PyStr.split "/" (image_reference self) in
  let last_part := PyStr.last_of parts "" in
  let named :=
    if PyStr.contains "@" last_part then
      match unpack2 (PyStr.split "@" last_part) with
      | Ok (i, t) => Ok (set_img_tag i t self)
      | Raise e => Raise e
      | SysExit c => SysExit c
      end
    else if PyStr.contains ":" last_part then
      match unpack2 (PyStr.split ":" last_part) with
      | Ok (i, t) => Ok (set_img_tag i t self)
      | Raise e => Raise e
      | SysExit c => SysExit c
      end
    else Ok (set_img last_part self) in
  match named with
  | Ok self1 =>
      let first := hd "" parts in
      if Nat.ltb 1 (List.length parts)
         && (PyStr.contains "." first || PyStr.contains ":" first)
      then Ok (set_repo (PyStr.join "/" (PyStr.init (tl parts)))
                 (set_registry first self1))
      else match PyStr.init parts with
           | [] => Ok self1
           | _ :: _ => Ok (set_repo (PyStr.join "/" (PyStr.init parts)) self1)
           end
  | Raise e => Raise e
  | SysExit c => SysExit c
  end.

Definition parse_tuple (ref : string) : result (string * string * string * string) :=
  match parse_image_reference (init_puller ref) with
  | Ok p => Ok (registry p, repo p, img p, tag p)
  | Raise e => Raise e
  | SysExit c => SysExit c
  end.

(** ** JSON values and Python dictionaries *)

(** What [json.loads] produces.  A [dict] keeps insertion order, so an
    object is an association list; floats are kept by their [repr]. *)
Inductive json : Type :=
| JNull
| JBool (b : bool)
| JInt (z : Z)
| JFloat (r : string)
| JStr (s : string)
| JList (l : list json)
| JObj (o : list (string * json)).

Module Dict.

Definition t : Type := list (string * json).

(** [d.get(k)]: the first binding of [k]. *)
Fixpoint get (k : string) (d : t) : option json :=
  match d with
  | [] => None
  | (k', v) :: r => if String.eqb k' k then Some v else get k r
  end.

(** [d.pop(k, None)]: [k] is no longer a key. *)
Fixpoint pop (k : string) (d : t) : t :=
  match d with
  | [] => []
  | (k', v) :: r => if String.eqb k' k then pop k r else (k', v) :: pop k r
  end.

(** [d[k] = v]: overwrite in place, or append a new key. *)
Fixpoint set (k : string) (v : json) (d : t) : t :=
  match d with
  | [] => [(k, v)]
  | (k', v') :: r =>
      if String.eqb k' k then (k, v) :: r else (k', v') :: set k v r
  end.

End Dict.

(** ** The outside world *)

Inductive node : Type :=
| Dir
| File (content : string).

Record Request : Type := mkRequest {
  url : string;
  req_headers : list (string * string);
  stream : bool
}.

Record Response : Type := mkResponse {
  status_code : Z;
  headers : list (string * string);
  content : string
}.

(** Library code the script calls and does not define. *)
Class Externals : Type := {
  (** [hashlib.sha256(s.encode('utf-8')).hexdigest()] *)
  sha256_hex : string -> string;
  (** [json.loads]; [None] when the text is not JSON *)
  json_loads : string -> option json;
  (** [json.dumps] *)
  json_dumps : json -> string;
  (** [str(v)] of a decoded JSON value that is not a string *)
  py_repr : json -> string;
  (** [repr] of a [bytes] object, as [print] shows it *)
  bytes_repr : string -> string;
  (** [int(s)]; [None] when it raises [ValueError] *)
  py_int : string -> option Z;
  (** gzip decompression; [None] for a corrupt stream *)
  gunzip : string -> option string;
  (** the tar encoding of a directory tree *)
  tar_pack : list (string * node) -> string;
  (** [str(e)] of an exception *)
  exn_str : exn -> string
}.

(** The file system, the registry and token service (a response may depend
    on every request sent so far; [None] is a transport failure), the log of
    requests sent, and the two console streams.  The file system maps the
    path strings the script builds to directories and files: paths are not
    normalised, and an operation fails only for the reasons the script can
    meet on its own staging tree (an entry that exists already, a missing
    parent directory, a file where a directory is expected or the reverse). *)
Record World : Type := mkWorld {
  fs : list (string * node);
  remote : list Request -> Request -> option Response;
  net : list Request;
  stdout : list string;
  stderr : list string
}.

Definition with_fs (f : list (string * node)) (w : World) : World :=
  {| fs := f; remote := remote w; net := net w;
     stdout := stdout w; stderr := stderr w |}.

Definition with_net (n : list Request) (w : World) : World :=
  {| fs := fs w; remote := remote w; net := n;
     stdout := stdout w; stderr := stderr w |}.

Definition with_stdout (o : list string) (w : World) : World :=
  {| fs := fs w; remote := remote w; net := net w;
     stdout := o; stderr := stderr w |}.

Definition with_stderr (o : list string) (w : World) : World :=
  {| fs := fs w; remote := remote w; net := net w;
     stdout := stdout w; stderr := o |}.

(** ** The monad of effectful calls *)

Definition M (A : Type) : Type := World -> result A * World.

Definition ret {A} (a : A) : M A := fun w => (Ok a, w).

Definition bind {A B} (m : M A) (k : A -> M B) : M B :=
  fun w =>
    match m w with
    | (Ok a, w') => k a w'
    | (Raise e, w') => (Raise e, w')
    | (SysExit c, w') => (SysExit c, w')
    end.

Definition raise {A} (e : exn) : M A := fun w => (Raise e, w).

(** [exit(code)] *)
Definition sys_exit {A} (code : Z) : M A := fun w => (SysExit code, w).

(** [try: m except E: h], where [handler e] is [Some h] when [E] covers the
    class of [e].  [SystemExit] is never caught. *)
Definition try_except {A} (m : M A) (handler : exn -> option (M A)) : M A :=
  fun w =>
    match m w with
    | (Raise e, w') =>
        match handler e with
        | Some h => h w'
        | None => (Raise e, w')
        end
    | r => r
    end.

Definition lift {A} (r : result A) : M A := fun w => (r, w).

Declare Scope py_scope.
Delimit Scope py_scope with py.
Notation "x <- m ;; k" := (bind m (fun x => k))
  (at level 61, m at next level, right associativity) : py_scope.
Notation "m ;; k" := (bind m (fun _ => k))
  (at level 61, right associativity) : py_scope.
Local Open Scope py_scope.

(** *** Console *)

Definition print (s : string) : M unit :=
  fun w => (Ok tt, with_stdout (stdout w ++ [s])%list w).

Definition eprint (s : string) : M unit :=
  fun w => (Ok tt, with_stderr (stderr w ++ [s])%list w).

(** *** Network *)

(** [requests.get(url, headers=..., stream=..., verify=False)] *)
Definition requests_get (u : string) (h : list (string * string)) (s : bool)
  : M Response :=
  fun w =>
    let rq := mkRequest u h s in
    let w' := with_net (net w ++ [rq])%list w in
    match remote w (net w) rq with
    | Some r => (Ok r, w')
    | None => (Raise RequestException, w')
    end.

(** The header mapping of a response ignores the case of names. *)
Fixpoint header_get (name : string) (hs : list (string * string)) : option string :=
  match hs with
  | [] => None
  | (k, v) :: r =>
      if String.eqb (PyStr.lower k) (PyStr.lower name) then Some v
      else header_get name r
  end.

(** [response.raise_for_status()] *)
Definition raise_for_status (r : Response) : M unit :=
  if (400 <=? status_code r)%Z && (status_code r <? 600)%Z
  then raise HTTPError else ret tt.

(** *** File system *)

Module FS.

Definition t : Type := list (string * node).

Fixpoint lookup (p : string) (f : t) : option node :=
  match f with
  | [] => None
  | (q, n) :: r => if String.eqb q p then Some n else lookup p r
  end.

Definition keep (pred : string -> bool) (f : t) : t :=
  filter (fun e => pred (fst e)) f.

Definition remove (p : string) (f : t) : t :=
  keep (fun q => negb (String.eqb q p)) f.

Definition set (p : string) (n : node) (f : t) : t := (p, n) :: remove p f.

(** [q] is [p] or lies below it. *)
Definition under (p q : string) : bool :=
  String.eqb q p || String.prefix (p ++ "/") q.

Definition rmtree (p : string) (f : t) : t :=
  keep (fun q => negb (under p q)) f.

(** The entries strictly below [p], named relative to it. *)
Definition subtree (p : string) (f : t) : t :=
  map (fun e => (PyStr.drop (String.length p + 1) (fst e), snd e))
      (keep (fun q => String.prefix (p ++ "/") q) f).

(** The text before the last [/]; empty for a name without one. *)
Definition dirname (p : string) : string :=
  PyStr.join "/" (PyStr.init (PyStr.split "/" p)).

(** The directory a new entry goes into exists; the working directory
    and the root always do. *)
Definition parent_ok (p : string) (f : t) : bool :=
  match dirname p with
  | EmptyString => true
  | d => match lookup d f with Some Dir => true | _ => false end
  end.

End FS.

(** [os.path.join(a, b)] *)
Definition os_path_join (a b : string) : string :=
  if PyStr.starts_with "/" b then b
  else match a with
       | EmptyString => b
       | _ => if PyStr.ends_with "/" a then a ++ b else a ++ "/" ++ b
       end.

(** [os.path.exists(p)] *)
Definition path_exists (p : string) : M bool :=
  fun w => (Ok (match FS.lookup p (fs w) with Some _ => true | None => false end), w).

(** The operations below know the failures that depend on the tree: an
    entry in the way, a missing parent, a missing or ill-kinded target.
    Path names are compared as written, without the normalisation of [.],
    [..] or repeated [/], and limits on names (length, NUL bytes) and
    permissions are not represented.  What is proved about these
    operations is therefore stated for calls that returned, or for
    failures the tree alone explains. *)

(** [os.mkdir(p)] *)
Definition mkdir (p : string) : M unit :=
  fun w =>
    match FS.lookup p (fs w) with
    | Some _ => (Raise OSError, w)
    | None =>
        if FS.parent_ok p (fs w)
        then (Ok tt, with_fs (FS.set p Dir (fs w)) w)
        else (Raise OSError, w)
    end.

(** [shutil.rmtree(p)] *)
Definition rmtree (p : string) : M unit :=
  fun w =>
    match FS.lookup p (fs w) with
    | Some Dir => (Ok tt, with_fs (FS.rmtree p (fs w)) w)
    | _ => (Raise OSError, w)
    end.

(** [with open(p, 'w') as f: f.write(c)] *)
Definition write_file (p c : string) : M unit :=
  fun w =>
    match FS.lookup p (fs w) with
    | Some Dir => (Raise OSError, w)
    | _ =>
        if FS.parent_ok p (fs w)
        then (Ok tt, with_fs (FS.set p (File c) (fs w)) w)
        else (Raise OSError, w)
    end.

(** [with open(p, 'rb') as f: f.read()] *)
Definition read_file (p : string) : M string :=
  fun w =>
    match FS.lookup p (fs w) with
    | Some (File c) => (Ok c, w)
    | _ => (Raise OSError, w)
    end.

(** [os.remove(p)] *)
Definition remove_file (p : string) : M unit :=
  fun w =>
    match FS.lookup p (fs w) with
    | Some (File _) => (Ok tt, with_fs (FS.remove p (fs w)) w)
    | _ => (Raise OSError, w)
    end.

(** ** Dynamic access to decoded JSON *)

(** [v[k]] for a string key. *)
Definition getitem (v : json) (k : string) : result json :=
  match v with
  | JObj o => match Dict.get k o with
              | Some x => Ok x
              | None => Raise KeyError
              end
  | _ => Raise TypeError
  end.

(** [for x in v]. *)
Definition py_iter (v : json) : result (list json) :=
  match v with
  | JList l => Ok l
  | JObj o => Ok (map (fun kv => JStr (fst kv)) o)
  | JStr s => Ok (map (fun c => JStr (String c "")) (list_ascii_of_string s))
  | _ => Raise TypeError
  end.

(** [v.items()]. *)
Definition py_items (v : json) : result (list (string * json)) :=
  match v with
  | JObj o => Ok o
  | _ => Raise AttributeError
  end.

(** ** Manifest data  *)

(** A layer descriptor of the manifest, typed as the method signatures
    annotate it: [layer['digest']] is a [str], [layer.get('urls', [])] a
    [List[str]]. *)
Record Layer : Type := mkLayer {
  digest : string;
  urls : list string
}.

Definition as_str (v : json) : result string :=
  match v with
  | JStr s => Ok s
  | _ => Raise TypeError
  end.

Fixpoint decode_strs (l : list json) : result (list string) :=
  match l with
  | [] => Ok []
  | v :: r =>
      match as_str v, decode_strs r with
      | Ok s, Ok ss => Ok (s :: ss)
      | Ok _, other => other
      | Raise e, _ => Raise e
      | SysExit c, _ => SysExit c
      end
  end.

Definition decode_layer (v : json) : result Layer :=
  match getitem v "digest" with
  | Ok (JStr d) =>
      match v with
      | JObj o =>
          match Dict.get "urls" o with
          | None => Ok (mkLayer d [])
          | Some (JList us) =>
              match decode_strs us with
              | Ok ss => Ok (mkLayer d ss)
              | Raise e => Raise e
              | SysExit c => SysExit c
              end
          | Some _ => Raise TypeError
          end
      | _ => Raise TypeError
      end
  | Ok _ => Raise TypeError
  | Raise e => Raise e
  | SysExit c => SysExit c
  end.

(** [manifest['layers']] read at the annotated type [List[Dict]].  A
    document that does not have that shape is reported as the exception the
    first ill-typed use would raise; the script meets it later, inside the
    loop. *)
Fixpoint decode_layer_list (l : list json) : result (list Layer) :=
  match l with
  | [] => Ok []
  | v :: r =>
      match decode_layer v, decode_layer_list r with
      | Ok x, Ok xs => Ok (x :: xs)
      | Ok _, other => other
      | Raise e, _ => Raise e
      | SysExit c, _ => SysExit c
      end
  end.

Definition decode_layers (v : json) : result (list Layer) :=
  match v with
  | JList l => decode_layer_list l
  | _ => Raise TypeError
  end.

(** The dictionary [content] built by [process_layers] and written as
    [manifest.json]. *)
Record Content : Type := mkContent {
  Config : string;
  RepoTags : list string;
  Layers : list string
}.

Definition json_of_content (c : Content) : json :=
  JObj [("Config", JStr (Config c));
        ("RepoTags", JList (map JStr (RepoTags c)));
        ("Layers", JList (map JStr (Layers c)))].

(** The dictionary serialised into [empty_json] (lines 143-153). *)
Definition empty_config : Dict.t :=
  [("created", JStr "1970-01-01T00:00:00Z");
   ("container_config",
     JObj [("Hostname", JStr ""); ("Domainname", JStr ""); ("User", JStr "");
           ("AttachStdin", JBool false); ("AttachStdout", JBool false);
           ("AttachStderr", JBool false); ("Tty", JBool false);
           ("OpenStdin", JBool false); ("StdinOnce", JBool false);
           ("Env", JNull); ("Cmd", JNull); ("Image", JStr "");
           ("Volumes", JNull); ("WorkingDir", JStr ""); ("Entrypoint", JNull);
           ("OnBuild", JNull); ("Labels", JNull)])].

Definition nl : string := String "010" "".
Definition tab : string := String "009" "".
Definition cr : string := String "013" "".
Definition dquote : ascii := "034"%char.

Definition manifest_v2 : string :=
  "application/vnd.docker.distribution.manifest.v2+json".
Definition manifest_list_v2 : string :=
  "application/vnd.docker.distribution.manifest.list.v2+json".

(** ** String expressions of the puller *)

(** Line 88 / 103: the manifest URL. *)
Definition manifest_url (self : Puller) : string :=
  "https://" ++ registry self ++ "/v2/" ++ repo self ++ "/" ++ img self
  ++ "/manifests/" ++ tag self.

(** Line 125 / 190: the URL of a blob. *)
Definition blob_url (self : Puller) (d : string) : string :=
  "https://" ++ registry self ++ "/v2/" ++ repo self ++ "/" ++ img self
  ++ "/blobs/" ++ d.

(** Line 62: the token request. *)
Definition token_url (self : Puller) : string :=
  auth_url self ++ "?service=" ++ reg_service self ++ "&scope=repository:"
  ++ repo self ++ "/" ++ img self ++ ":pull".

(** The request [get_auth_token] sends (line 61). *)
Definition token_request (self : Puller) : Request :=
  mkRequest (token_url self) [] false.

(** Line 138: the single entry of [RepoTags]. *)
Definition repo_tag (self : Puller) : string :=
  if negb (String.eqb (repo self) "library")
  then repo self ++ "/" ++ img self ++ ":" ++ tag self
  else img self ++ ":" ++ tag self.

(** Line 228: the key of [repositories]. *)
Definition repo_key (self : Puller) : string :=
  if negb (String.eqb (repo self) "library")
  then repo self ++ "/" ++ img self
  else img self.

(** Line 237: the name of the archive. *)
Definition tar_name (self : Puller) : string :=
  PyStr.replace "/" "_" (repo self) ++ "_" ++ img self ++ ".tar".

(** Line 116: the staging directory. *)
Definition staging_dir (self : Puller) : string :=
  "tmp_" ++ img self ++ "_" ++ PyStr.replace ":" "@" (tag self).

(** Line 167: the legacy layer ID. *)
Definition layer_id_of `{Externals} (parent_id blob_digest : string) : string :=
  sha256_hex (parent_id ++ nl ++ blob_digest ++ nl).

(** ** The methods of [DockerImagePuller] *)

Section Methods.

Context `{E : Externals}.

(** [f'{v}'] for a decoded JSON value. *)
Definition py_str (v : json) : string :=
  match v with
  | JStr s => s
  | _ => py_repr v
  end.

(** [response.json()] *)
Definition response_json (r : Response) : M json :=
  match json_loads (content r) with
  | Some v => ret v
  | None => raise JSONDecodeError
  end.

(** [get_auth_endpoint] (lines 49-57). *)
Definition get_auth_endpoint (self : Puller) : M Puller :=
  resp <- requests_get ("https://" ++ registry self ++ "/v2/") [] false ;;
  if (status_code resp =? 401)%Z then
    match header_get "WWW-Authenticate" (headers resp) with
    | None => raise KeyError
    | Some challenge =>
        let fields := PyStr.split dquote challenge in
        match nth_error fields 1 with
        | None => raise IndexError
        | Some realm =>
            ret (set_auth realm
                   (match nth_error fields 3 with
                    | Some service => service
                    | None => ""
                    end) self)
        end
    end
  else ret self.

(** [get_auth_token] (lines 59-69). *)
Definition get_auth_token (self : Puller) (content_type : string)
  : M (list (string * string)) :=
  resp <- requests_get (token_url self) [] false ;;
  body <- response_json resp ;;
  access_token <- lift (getitem body "token") ;;
  ret [("Authorization", ("Bearer " ++ py_str access_token)%string);
       ("Accept", content_type)].

(** [download_with_progress] (lines 71-83). *)
Definition download_with_progress (self : Puller)
    (u file_path description : string) : M unit :=
  hdrs <- get_auth_token self manifest_v2 ;;
  response <- requests_get u hdrs true ;;
  raise_for_status response ;;
  total_size <-
    match header_get "content-length" (headers response) with
    | None => ret 0%Z
    | Some s => match py_int s with
                | Some n => ret n
                | None => raise ValueError
                end
    end ;;
  print (description ++ " total " ++ PyStr.of_Z total_size ++ " B") ;;
  write_file file_path (content response).

(** The [for manifest in manifests] loop of [handle_manifest_error]
    (lines 109-111). *)
Definition platform_info (kvs : list (string * json)) : string :=
  PyStr.join ", " (map (fun kv => (fst kv ++ ": " ++ py_str (snd kv))%string) kvs).

Definition print_manifest_entry (manifest : json) : M unit :=
  platform <- lift (getitem manifest "platform") ;;
  kvs <- lift (py_items platform) ;;
  d <- lift (getitem manifest "digest") ;;
  print (platform_info kvs ++ ", digest: " ++ py_str d).

Fixpoint print_manifest_entries (manifests : list json) : M unit :=
  match manifests with
  | [] => ret tt
  | m :: rest => print_manifest_entry m ;; print_manifest_entries rest
  end.

(** The messages of [handle_manifest_error] (lines 98 and 107). *)
Definition cannot_fetch_message (self : Puller) (response : Response) : string :=
  "[-] Cannot fetch manifest for " ++ repo self ++ "/" ++ img self
  ++ " [HTTP " ++ PyStr.of_Z (status_code response) ++ "]".

Definition manifests_found_message : string :=
  "[+] Manifests found for this tag (use the @digest format to pull the corresponding image):".

(** [handle_manifest_error] (lines 96-112). *)
Definition handle_manifest_error (self : Puller) (response : Response)
  : M unit :=
  print (cannot_fetch_message self response) ;;
  print (bytes_repr (content response)) ;;
  hdrs <- get_auth_token self manifest_list_v2 ;;
  response2 <- requests_get (manifest_url self) hdrs false ;;
  (if (status_code response2 =? 200)%Z then
     print manifests_found_message ;;
     body <- response_json response2 ;;
     manifests <- lift (getitem body "manifests") ;;
     entries <- lift (py_iter manifests) ;;
     print_manifest_entries entries
   else ret tt) ;;
  sys_exit 1.

(** [fetch_manifest] (lines 85-94). *)
Definition fetch_manifest (self : Puller) : M json :=
  hdrs <- get_auth_token self manifest_v2 ;;
  response <- requests_get (manifest_url self) hdrs false ;;
  (if negb (status_code response =? 200)%Z
   then handle_manifest_error self response
   else ret tt) ;;
  response_json response.

(** [create_image_directory] (lines 114-120). *)
Definition create_image_directory (self : Puller) : M Puller :=
  let self := set_image_dir (staging_dir self) self in
  present <- path_exists (image_dir self) ;;
  (if present then rmtree (image_dir self) else ret tt) ;;
  mkdir (image_dir self) ;;
  print ("Creating image structure in: " ++ image_dir self) ;;
  ret self.

(** [download_config] (lines 122-132). *)
Definition download_config (self : Puller) (config_digest : string)
  : M string :=
  let config_file :=
    image_dir self ++ "/" ++ PyStr.drop 7 config_digest ++ ".json" in
  hdrs <- get_auth_token self manifest_v2 ;;
  response <- requests_get (blob_url self config_digest) hdrs false ;;
  write_file config_file (content response) ;;
  ret config_file.

(** Lines 197-200 of [download_layer]: [layer.tar] is opened for writing
    before the first compressed byte is read, so a corrupt stream leaves
    it behind (modelled empty, whatever was copied before the failure) next
    to [layer_gzip.tar].  The exception [gzip] raises for a stream it
    rejects is rendered as [OSError]; no handler of the script tells the
    classes apart. *)
Definition decompress_layer (layer_dir : string) : M unit :=
  let gzip_path := os_path_join layer_dir "layer_gzip.tar" in
  let tar_path := os_path_join layer_dir "layer.tar" in
  compressed <- read_file gzip_path ;;
  write_file tar_path "" ;;
  match gunzip compressed with
  | None => raise OSError
  | Some data =>
      write_file tar_path data ;;
      remove_file gzip_path
  end.

(** The description [download_layer] prints for a blob. *)
Definition layer_label (blob_digest : string) : string :=
  "Layer " ++ PyStr.slice 7 19 blob_digest.

(** [download_layer] (lines 184-200). *)
Definition download_layer (self : Puller) (blob_digest layer_dir : string)
    (fallback_urls : list string) : M unit :=
  let gzip_path := os_path_join layer_dir "layer_gzip.tar" in
  try_except
    (download_with_progress self (blob_url self blob_digest) gzip_path
       (layer_label blob_digest))
    (fun e =>
       match e with
       | HTTPError =>
           Some (match fallback_urls with
                 | [] => raise HTTPError
                 | u0 :: _ =>
                     download_with_progress self u0 gzip_path
                       (layer_label blob_digest ++ " (fallback)")
                 end)
       | _ => None
       end) ;;
  decompress_layer layer_dir.

(** Lines 207-215 of [create_layer_json]: what becomes of [json_data]. *)
Definition layer_json_data (json_data : Dict.t) (layer_id parent_id : string)
    (is_last_layer : bool) : Dict.t :=
  let json_data :=
    if is_last_layer
    then Dict.pop "rootfS" (Dict.pop "rootfs" (Dict.pop "history" json_data))
    else json_data in
  let json_data := Dict.set "id" (JStr layer_id) json_data in
  if negb (String.eqb parent_id "")
  then Dict.set "parent" (JStr parent_id) json_data
  else json_data.

(** [create_layer_json] (lines 202-218).  A decoded value that is not a
    [dict] has no [pop] and takes no item assignment. *)
Definition create_layer_json (layer_dir layer_id parent_id layer_json : string)
    (is_last_layer : bool) : M unit :=
  let json_path := os_path_join layer_dir "json" in
  match json_loads layer_json with
  | None => raise JSONDecodeError
  | Some (JObj json_data) =>
      write_file json_path
        (json_dumps (JObj (layer_json_data json_data layer_id parent_id
                             is_last_layer)))
  | Some (JList _) => raise TypeError
  | Some _ => if is_last_layer then raise AttributeError else raise TypeError
  end.

(** [process_layer] (lines 164-182). *)
Definition process_layer (self : Puller) (layer : Layer)
    (parent_id layer_json : string) : M string :=
  let blob_digest := digest layer in
  let layer_id := layer_id_of parent_id blob_digest in
  let layer_dir := os_path_join (image_dir self) layer_id in
  mkdir layer_dir ;;
  write_file (os_path_join layer_dir "VERSION") "1.0" ;;
  download_layer self blob_digest layer_dir (urls layer) ;;
  create_layer_json layer_dir layer_id parent_id layer_json
    (String.eqb blob_digest (digest layer)) ;;
  ret layer_id.

(** The [for layer in layers] loop of [process_layers] (lines 157-159):
    [layers] is the whole list, [rest] what is still to process, [acc] the
    value of [content['Layers']]. *)
Fixpoint process_layers_loop (self : Puller) (layers : list Layer)
    (config_content empty_json : string) (rest : list Layer)
    (parent_id : string) (acc : list string) : M (list string * string) :=
  match rest with
  | [] => ret (acc, parent_id)
  | layer :: rest' =>
      parent_id' <-
        process_layer self layer parent_id
          (if String.eqb (digest (PyStr.last_of layers layer)) (digest layer)
           then config_content else empty_json) ;;
      process_layers_loop self layers config_content empty_json rest'
        parent_id' (acc ++ [(parent_id' ++ "/layer.tar")%string])%list
  end.

(** [process_layers] (lines 134-162). *)
Definition process_layers (self : Puller) (layers : list Layer)
    (config_content : string) : M (Content * string) :=
  let empty_json := json_dumps (JObj empty_config) in
  print ("Total " ++ PyStr.of_Z (Z.of_nat (List.length layers)) ++ " layers") ;;
  r <- process_layers_loop self layers config_content empty_json layers "" [] ;;
  ret ({| Config := snd r ++ ".json";
          RepoTags := [repo_tag self];
          Layers := fst r |}, snd r).

(** [create_image_files] (lines 220-233). *)
Definition create_image_files (self : Puller) (manifest_content : Content)
    (last_layer_id : string) : M unit :=
  write_file (os_path_join (image_dir self) "manifest.json")
    (json_dumps (json_of_content manifest_content)) ;;
  write_file (os_path_join (image_dir self) "repositories")
    (json_dumps (JObj [(repo_key self,
                        JObj [(tag self, JStr last_layer_id)])])).

(** [create_image_tar] (lines 235-241). *)
Definition create_image_tar (self : Puller) : M string :=
  tree <- (fun w => (Ok (FS.subtree (image_dir self) (fs w)), w)) ;;
  write_file (tar_name self) (tar_pack tree) ;;
  rmtree (image_dir self) ;;
  ret (tar_name self).

(** [pull] (lines 243-266).  The configuration digest and the layer list
    are read at the types the methods annotate ([str], [List[Dict]]).  For
    a manifest so typed the steps and their order are those of the script.
    A manifest that is not is reported here before the layers are
    processed, while the script meets an ill-typed layer only when its loop
    reaches it and looks at [urls] only after a failed download: such
    manifests are outside what is proved about complete runs. *)
Definition pull (self : Puller) : M string :=
  self <- lift (parse_image_reference self) ;;
  self <- get_auth_endpoint self ;;
  self <- create_image_directory self ;;
  manifest <- fetch_manifest self ;;
  config <- lift (getitem manifest "config") ;;
  config_digest_v <- lift (getitem config "digest") ;;
  config_digest <- lift (as_str config_digest_v) ;;
  config_file <- download_config self config_digest ;;
  config_content <- read_file config_file ;;
  layers_v <- lift (getitem manifest "layers") ;;
  layers <- lift (decode_layers layers_v) ;;
  r <- process_layers self layers config_content ;;
  create_image_files self (fst r) (snd r) ;;
  name <- create_image_tar self ;;
  print (cr ++ "Docker image pulled: " ++ name) ;;
  ret name.

Definition usage : string :=
  "Usage:" ++ nl ++ tab
  ++ "python docker_pull.py [registry/][repository/]image[:tag|@digest]" ++ nl.
Definition usage_example : string :=
  "Like: " ++ nl ++ tab
  ++ "python docker_pull.py registry.cn-shenzhen.aliyuncs.com/auto_image/pytorch:20.12-py3".

(** [main] (lines 269-280); [argv] is [sys.argv]. *)
Definition main (argv : list string) : M unit :=
  match argv with
  | [_; reference] =>
      try_except (pull (init_puller reference) ;; ret tt)
        (fun e => Some (eprint ("Error: " ++ exn_str e) ;; sys_exit 1))
  | _ => print usage ;; print usage_example ;; sys_exit 1
  end.

(** The exit status of the interpreter running [main()] as the script
    does: 0 after a normal return, the code of a [SystemExit], 1 after an
    uncaught exception. *)
Definition exit_status (argv : list string) (w : World) : Z * World :=
  match main argv w with
  | (Ok _, w') => (0%Z, w')
  | (SysExit c, w') => (c, w')
  | (Raise _, w') => (1%Z, w')
  end.

End Methods.

(** ** A concrete instance of the library code

    A small, executable stand-in for the libraries, used to run the model
    on concrete registries.  The JSON printer follows the default layout of
    [json.dumps]; the parser inverts it on a table of documents. *)

Module Sample.

Definition hex_digit (n : N) : ascii :=
  match n with
  | 0%N => "0" | 1%N => "1" | 2%N => "2" | 3%N => "3" | 4%N => "4"
  | 5%N => "5" | 6%N => "6" | 7%N => "7" | 8%N => "8" | 9%N => "9"
  | 10%N => "a" | 11%N => "b" | 12%N => "c" | 13%N => "d" | 14%N => "e"
  | _ => "f"
  end%char.

(** [n] hexadecimal digits of [h], least significant first. *)
Fixpoint hex_digits (n : nat) (h : N) : string :=
  match n with
  | O => ""
  | S n' => String (hex_digit (N.modulo h 16)) (hex_digits n' (N.div h 16))
  end.

(** A multiplicative checksum of the text (not SHA-256, but a digest of
    the same shape). *)
Fixpoint checksum (h : N) (s : string) : N :=
  match s with
  | EmptyString => h
  | String c s' =>
      checksum (N.modulo (N.lxor h (N_of_ascii c) * 1099511628211) (2 ^ 256)) s'
  end.

Definition digest64 (s : string) : string :=
  hex_digits 64 (checksum 14695981039346656037 s).

Definition quoted (s : string) : string :=
  String dquote s ++ String dquote "".

Fixpoint dumps (v : json) : string :=
  match v with
  | JNull => "null"
  | JBool true => "true"
  | JBool false => "false"
  | JInt z => PyStr.of_Z z
  | JFloat r => r
  | JStr s => quoted s
  | JList l => "[" ++ PyStr.join ", " (map dumps l) ++ "]"
  | JObj o =>
      "{" ++ PyStr.join ", "
               (map (fun kv => match kv with
                               | (k, x) => quoted k ++ ": " ++ dumps x
                               end) o) ++ "}"
  end.

(** The documents the sample registries serve or the script writes. *)
Definition loads_in (known : list json) (s : string) : option json :=
  find (fun v => String.eqb (dumps v) s) known.

Definition to_Z (s : string) : option Z :=
  match s with
  | EmptyString => None
  | _ => option_map Z.of_int (NilZero.int_of_string s)
  end.

Definition ungzip (s : string) : option string :=
  if String.prefix "gz:" s then Some (PyStr.drop 3 s) else None.

Definition pack (tree : list (string * node)) : string :=
  PyStr.join ";"
    (map (fun e => match snd e with
                   | Dir => fst e ++ "/"
                   | File c => fst e ++ "=" ++ c
                   end) tree).

Definition exn_name (e : exn) : string :=
  match e with
  | ValueError => "ValueError" | KeyError => "KeyError"
  | IndexError => "IndexError" | TypeError => "TypeError"
  | AttributeError => "AttributeError"
  | JSONDecodeError => "JSONDecodeError" | HTTPError => "HTTPError"
  | RequestException => "RequestException" | OSError => "OSError"
  end.

Definition externals (known : list json) : Externals :=
  {| sha256_hex := digest64;
     json_loads := loads_in known;
     json_dumps := dumps;
     py_repr := dumps;
     bytes_repr := fun s => "b'" ++ s ++ "'";
     py_int := to_Z;
     gunzip := ungzip;
     tar_pack := pack;
     exn_str := exn_name |}.

End Sample.

(** ** Shapes of a reference *)

Definition default_registry : string := "registry-1.docker.io".

(** The three shapes of the last path segment (lines 33-39). *)
Inductive selects : string -> string -> string -> Prop :=
| sel_digest (i d : string) :
    PyStr.contains "@" i = false -> PyStr.contains "@" d = false ->
    selects (i ++ "@" ++ d) i d
| sel_tag (i t : string) :
    PyStr.contains "@" i = false -> PyStr.contains "@" t = false ->
    PyStr.contains ":" i = false -> PyStr.contains ":" t = false ->
    selects (i ++ ":" ++ t) i t
| sel_bare (i : string) :
    PyStr.contains "@" i = false -> PyStr.contains ":" i = false ->
    selects i i "latest".

(** ** What the claims speak about *)

(** The legacy IDs of a chain of blob digests, in the words of the
    specification: [sha256(parentID + "\n" + blobDigest + "\n")], the parent
    of the first layer being the empty string. *)
Fixpoint legacy_ids `{Externals} (parent_id : string) (digests : list string)
  : list string :=
  match digests with
  | [] => []
  | d :: rest =>
      let id := sha256_hex (parent_id ++ nl ++ d ++ nl) in
      id :: legacy_ids id rest
  end.

(** A hexadecimal digest of 256 bits: 64 characters among [0-9a-f]. *)
Definition is_hex_char (c : ascii) : bool :=
  let n := nat_of_ascii c in
  (Nat.leb 48 n && Nat.leb n 57) || (Nat.leb 97 n && Nat.leb n 102).

Definition is_hexdigest (s : string) : bool :=
  Nat.eqb (String.length s) 64 && forallb is_hex_char (list_ascii_of_string s).

(** What the proofs use of the libraries: [hexdigest()] returns a
    hexadecimal digest, and [json.loads] reads back the placeholder
    configuration that [json.dumps] wrote. *)
Class ExternalsLaws (E : Externals) : Prop := {
  sha256_hexdigest : forall s, is_hexdigest (sha256_hex s) = true;
  loads_dumps_empty_config :
    json_loads (json_dumps (JObj empty_config)) = Some (JObj empty_config)
}.

(** [layer_dir] and [json_path] of a layer (lines 168 and 204). *)
Definition layer_dir_of (self : Puller) (layer_id : string) : string :=
  os_path_join (image_dir self) layer_id.

Definition json_path_of (self : Puller) (layer_id : string) : string :=
  os_path_join (layer_dir_of self layer_id) "json".

(** A computation keeps a relation between the world before and after,
    however it ends. *)
Definition keeps {A} (R : World -> World -> Prop) (m : M A) : Prop :=
  forall w r w', m w = (r, w') -> R w w'.

(** Outside the paths selected by [touched], the file system is as it was. *)
Definition fs_same_outside (touched : string -> bool) (w w' : World) : Prop :=
  forall q, touched q = false -> FS.lookup q (fs w') = FS.lookup q (fs w).

(** No regular file appeared or changed: every file of [w'] was in [w] with
    the same content. *)
Definition no_file_written (w w' : World) : Prop :=
  forall q c, FS.lookup q (fs w') = Some (File c) ->
              FS.lookup q (fs w) = Some (File c).

(** ** A sample registry *)

Module Demo.

Definition challenge : string :=
  "Bearer realm=" ++ Sample.quoted "https://auth.docker.io/token"
  ++ ",service=" ++ Sample.quoted "registry.docker.io".

Definition token_body : json := JObj [("token", JStr "T")].

(** A two-layer image. *)
Definition manifest : json :=
  JObj [("config", JObj [("digest", JStr "sha256:ccc")]);
        ("layers", JList [JObj [("digest", JStr "sha256:aaa")];
                          JObj [("digest", JStr "sha256:bbb")]])].

Definition config : json :=
  JObj [("architecture", JStr "amd64"); ("history", JList []);
        ("rootfs", JNull); ("History", JInt 1)].

(** The manifest list served for a multi-platform tag. *)
Definition manifest_list : json :=
  JObj [("manifests",
         JList [JObj [("digest", JStr "sha256:111");
                      ("platform", JObj [("architecture", JStr "amd64");
                                         ("os", JStr "linux")])];
                JObj [("digest", JStr "sha256:222");
                      ("platform", JObj [("architecture", JStr "arm64");
                                         ("os", JStr "linux")])]])].

Definition known : list json :=
  [JObj empty_config; token_body; manifest; config; manifest_list;
   JObj [("parent", JStr "x")]].

Definition externals : Externals := Sample.externals known.

Definition accept (rq : Request) : string :=
  match header_get "Accept" (req_headers rq) with
  | Some a => a
  | None => ""
  end.

Definition hub : string := "https://registry-1.docker.io/v2/".

(** Docker Hub serving [busybox:1.0]; [manifest_status] is the status of
    the manifest request, [list_status] the status of the manifest-list
    request, [blob_status] the status of the primary blob URLs and
    [config_body] the configuration blob. *)
Definition registry_with (manifest_status list_status blob_status : Z)
    (config_body : string) (log : list Request) (rq : Request)
  : option Response :=
  let u := url rq in
  if String.eqb u hub then
    Some (mkResponse 401 [("Www-Authenticate", challenge)] "")
  else if String.prefix "https://auth.docker.io/token" u then
    Some (mkResponse 200 [] (Sample.dumps token_body))
  else if String.eqb u (hub ++ "library/busybox/manifests/1.0") then
    if String.eqb (accept rq) manifest_list_v2
    then Some (mkResponse list_status [] (Sample.dumps manifest_list))
    else Some (mkResponse manifest_status [] (Sample.dumps manifest))
  else if String.eqb u (hub ++ "library/busybox/blobs/sha256:ccc") then
    Some (mkResponse 200 [] config_body)
  else if String.eqb u (hub ++ "library/busybox/blobs/sha256:aaa") then
    Some (mkResponse blob_status [("Content-Length", "6")] "gz:AAA")
  else if String.eqb u (hub ++ "library/busybox/blobs/sha256:bbb") then
    Some (mkResponse blob_status [] "gz:BBB")
  else if String.eqb u "https://mirror.example/aaa" then
    Some (mkResponse 200 [] "gz:AAA")
  else if String.eqb u "https://broken.example/aaa" then
    Some (mkResponse 503 [] "")
  else Some (mkResponse 404 [] "not found").

Definition registry_ok : list Request -> Request -> option Response :=
  registry_with 200 200 200 (Sample.dumps config).

(** The puller once the reference is parsed and the staging directory
    made. *)
Definition puller : Puller :=
  set_image_dir "tmp_busybox_1.0"
    (set_img_tag "busybox" "1.0" (init_puller "busybox:1.0")).

Definition staged (r : list Request -> Request -> option Response) : World :=
  mkWorld [("tmp_busybox_1.0", Dir)] r [] [] [].

Definition fresh (r : list Request -> Request -> option Response) : World :=
  mkWorld [] r [] [] [].

Definition layers : list Layer :=
  [mkLayer "sha256:aaa" []; mkLayer "sha256:bbb" []].

(** A registry that refuses the blobs, and a world in which the layer
    directory [tmp_busybox_1.0/L] is ready to receive one. *)
Definition blob_denied : list Request -> Request -> option Response :=
  registry_with 200 200 404 (Sample.dumps config).

Definition layer_ready : World :=
  mkWorld [("tmp_busybox_1.0/L", Dir); ("tmp_busybox_1.0", Dir)]
    blob_denied [] [] [].

Definition token_headers : list (string * string) :=
  [("Authorization", "Bearer T"); ("Accept", manifest_v2)].

Definition denied : Response :=
  mkResponse 404 [("Content-Length", "6")] "gz:AAA".

(** The world after the token request and after the refused blob request. *)
Definition after_token : World :=
  with_net [token_request puller] layer_ready.

Definition after_refusal : World :=
  with_net [token_request puller;
            mkRequest (blob_url puller "sha256:aaa") token_headers true]
    layer_ready.

End Demo.

(** An entry of [content['Layers']] (line 159). *)
Definition tar_entry (id : string) : string := id ++ "/layer.tar".

(** The layers of a manifest with the ID and the parent ID the chain gives
    each of them: the parent of the first is the empty string, the parent
    of any other the ID of the layer before it. *)
Fixpoint chain_entries `{Externals} (parent_id : string) (layers : list Layer)
  : list (Layer * string * string) :=
  match layers with
  | [] => []
  | layer :: rest =>
      let id := sha256_hex (parent_id ++ nl ++ digest layer ++ nl) in
      (layer, id, parent_id) :: chain_entries id rest
  end.

(** The text [process_layers] hands to [process_layer] for a layer (line
    158): the configuration when the layer's digest is the last layer's. *)
Definition layer_json_text `{Externals} (layers : list Layer)
    (config_content : string) (layer : Layer) : string :=
  if String.eqb (digest (PyStr.last_of layers layer)) (digest layer)
  then config_content
  else json_dumps (JObj empty_config).

(** The paths a layer directory may hold. *)
Definition inside (dir q : string) : bool := String.prefix (dir ++ "/") q.

(** What [os.path.join(a, _)] puts before a relative second argument. *)
Definition dir_prefix (a : string) : string :=
  match a with
  | EmptyString => ""
  | _ => if PyStr.ends_with "/" a then a else a ++ "/"
  end.

(** The file system is untouched. *)
Definition fs_unchanged (w w' : World) : Prop := fs w' = fs w.

(** The state a processed layer is left in: its directory exists, and its
    [json] file holds the decoded text the layer was given, transformed by
    lines 207-215 with the layer's ID and parent ID.  (Line 180 passes
    [blob_digest == layer['digest']] for [is_last_layer], which is always
    true.) *)
Definition layer_settled `{Externals} (self : Puller) (layers : list Layer)
    (config_content : string) (w : World) (e : Layer * string * string) : Prop :=
  FS.lookup (layer_dir_of self (snd (fst e))) (fs w) = Some Dir
  /\ exists src,
       json_loads (layer_json_text layers config_content (fst (fst e)))
       = Some (JObj src)
       /\ FS.lookup (json_path_of self (snd (fst e))) (fs w)
          = Some (File (json_dumps
                          (JObj (layer_json_data src (snd (fst e)) (snd e) true)))).

(** The [json] file of a layer carries the layer's ID and, when the layer
    has a parent, the parent's ID. *)
Definition json_has_ids `{Externals} (self : Puller) (w : World)
    (e : Layer * string * string) : Prop :=
  let '(layer, id, parent_id) := e in
  exists o,
    FS.lookup (json_path_of self id) (fs w)
    = Some (File (json_dumps (JObj o)))
    /\ Dict.get "id" o = Some (JStr id)
    /\ (parent_id <> "" -> Dict.get "parent" o = Some (JStr parent_id)).

(** No [parent] entry is added to the base layer.  In an image of several
    layers the base layer is built from the placeholder, which has none
    (the case of a base layer whose digest is also the top layer's is left
    aside); in a one-layer image the only layer is the top layer, built
    from the downloaded configuration, and has the configuration's own
    [parent] entry, if any. *)
Definition base_layer_parent `{Externals} (self : Puller) (layers : list Layer)
    (config_content : string) (w : World) : Prop :=
  match layers with
  | [] => True
  | [only] =>
      exists cfg o,
        json_loads config_content = Some (JObj cfg)
        /\ FS.lookup (json_path_of self (layer_id_of "" (digest only))) (fs w)
           = Some (File (json_dumps (JObj o)))
        /\ Dict.get "parent" o = Dict.get "parent" cfg
  | base :: rest =>
      digest (last rest base) <> digest base ->
      exists o,
        FS.lookup (json_path_of self (layer_id_of "" (digest base))) (fs w)
        = Some (File (json_dumps (JObj o)))
        /\ Dict.get "parent" o = None
  end.

(** In a chain the first parent ID is empty and no other is. *)
Definition chain_shape (entries : list (Layer * string * string)) : Prop :=
  match entries with
  | [] => True
  | (_, _, p0) :: rest => p0 = "" /\ Forall (fun e => snd e <> "") rest
  end.

(** The three keys lines 209-211 pop. *)
Definition popped_key (k : string) : Prop :=
  k = "history" \/ k = "rootfs" \/ k = "rootfS".

(** The keys the assembler removes or sets itself. *)
Definition assembler_key (k : string) : Prop :=
  popped_key k \/ k = "id" \/ k = "parent".

(** No request is sent. *)
Definition net_unchanged (w w' : World) : Prop := net w' = net w.

(** The line [handle_manifest_error] prints for an entry of a manifest
    list that has a [platform] object and a [digest] (lines 110-111). *)
Definition manifest_line `{Externals} (m : json) : option string :=
  match getitem m "platform", getitem m "digest" with
  | Ok (JObj kvs), Ok d => Some (platform_info kvs ++ ", digest: " ++ py_str d)
  | _, _ => None
  end.

(** The world once lines 98-99 have reported the failed manifest request. *)
Definition reported `{Externals} (self : Puller) (response : Response)
    (w : World) : World :=
  with_stdout (stdout w ++ [cannot_fetch_message self response;
                            bytes_repr (content response)])%list w.

(** The console output is untouched. *)
Definition stdout_unchanged (w w' : World) : Prop := stdout w' = stdout w.

(** Every outcome of a computation satisfies [Q]. *)
Definition ensures {A} (Q : result A -> Prop) (m : M A) : Prop :=
  forall w r w', m w = (r, w') -> Q r.

(** The call returns or raises an exception; it does not exit. *)
Definition no_exit {A} (r : result A) : Prop :=
  match r with
  | SysExit _ => False
  | _ => True
  end.

(** The call does not return: it raises an exception or exits with
    status 1. *)
Definition raises_or_exits_1 {A} (r : result A) : Prop :=
  match r with
  | Ok _ => False
  | Raise _ => True
  | SysExit c => c = 1%Z
  end.

(** The unauthenticated request of [get_auth_endpoint] (line 51). *)
Definition probe_request (self : Puller) : Request :=
  mkRequest ("https://" ++ registry self ++ "/v2/") [] false.

(** The world once a request has been sent. *)
Definition sent (rq : Request) (w : World) : World :=
  with_net (net w ++ [rq])%list w.

(** The call returns, raises an exception, or exits with status 1. *)
Definition exits_with_1 {A} (r : result A) : Prop :=
  match r with
  | SysExit c => c = 1%Z
  | _ => True
  end.

(** The request log only grows. *)
Definition net_extends (w w' : World) : Prop :=
  exists more, net w' = (net w ++ more)%list.

(** A manifest typed as the methods annotate it: the configuration digest
    is a string, and the layers are a list of objects with a string
    [digest] and, when they have [urls], a list of strings. *)
Definition manifest_typed (v : json) : bool :=
  match getitem v "config" with
  | Ok config =>
      match getitem config "digest" with
      | Ok (JStr _) => true
      | Ok _ => false
      | _ => true
      end
  | _ => true
  end
  && match getitem v "layers" with
     | Ok layers =>
         match decode_layers layers with
         | Ok _ => true
         | _ => false
         end
     | _ => true
     end.

(** Every JSON document the registry serves is such a manifest, or has
    neither [config] nor [layers]. *)
Definition serves_typed_manifests `{Externals} (w : World) : Prop :=
  forall log rq resp v,
    remote w log rq = Some resp ->
    json_loads (content resp) = Some v ->
    manifest_typed v = true.

(** * Properties *)

(** ** Strings *)

Module PyStrFacts.
Import PyStr.

Lemma append_assoc (a b c : string) : (a ++ b) ++ c = a ++ (b ++ c).
Proof. induction a as [|x a IH]; simpl; [reflexivity | now rewrite IH]. Qed.

Lemma append_empty_r (a : string) : a ++ "" = a.
Proof. induction a as [|x a IH]; simpl; [reflexivity | now rewrite IH]. Qed.

Lemma length_append (a b : string) :
  String.length (a ++ b) = String.length a + String.length b.
Proof. induction a as [|x a IH]; simpl; [reflexivity | now rewrite IH]. Qed.

Lemma append_inv_head (a b c : string) : a ++ b = a ++ c -> b = c.
Proof.
  induction a as [|x a IH]; simpl; intros H; [exact H|].
  injection H as H. now apply IH.
Qed.

Lemma contains_append (c : ascii) (a b : string) :
  contains c (a ++ b) = contains c a || contains c b.
Proof.
  induction a as [|x a IH]; simpl; [reflexivity|].
  destruct (Ascii.eqb x c); [reflexivity | exact IH].
Qed.

Lemma contains_cons_same (c : ascii) (s : string) : contains c (String c s) = true.
Proof. simpl. now rewrite Ascii.eqb_refl. Qed.

Lemma split_not_nil (c : ascii) (s : string) : split c s <> [].
Proof.
  destruct s as [|a s]; simpl; [discriminate|].
  destruct (Ascii.eqb a c); [discriminate|].
  destruct (split c s); discriminate.
Qed.

(** A text without the separator is a single field. *)
Lemma split_absent (c : ascii) (s : string) :
  contains c s = false -> split c s = [s].
Proof.
  induction s as [|a s IH]; simpl; [reflexivity|].
  destruct (Ascii.eqb a c); [discriminate|].
  intros H. now rewrite (IH H).
Qed.

(** The first separator ends the first field. *)
Lemma split_first (c : ascii) (a b : string) :
  contains c a = false -> split c (a ++ String c b) = a :: split c b.
Proof.
  induction a as [|x a IH]; simpl.
  - intros _. now rewrite Ascii.eqb_refl.
  - destruct (Ascii.eqb x c); [discriminate|].
    intros H. now rewrite (IH H).
Qed.

(** The last separator starts the last field. *)
Lemma split_last (c : ascii) (a b : string) :
  contains c b = false -> split c (a ++ String c b) = (split c a ++ [b])%list.
Proof.
  intros Hb. induction a as [|x a IH]; simpl.
  - rewrite Ascii.eqb_refl. now rewrite (split_absent _ _ Hb).
  - destruct (Ascii.eqb x c).
    + now rewrite IH.
    + rewrite IH. destruct (split c a) as [|h t] eqn:Hs; [|reflexivity].
      now apply split_not_nil in Hs.
Qed.

Lemma join_cons (sep x y : string) (r : list string) :
  join sep (x :: y :: r) = x ++ sep ++ join sep (y :: r).
Proof. reflexivity. Qed.

(** Joining the fields with the separator gives the text back. *)
Lemma join_split (c : ascii) (s : string) :
  join (String c "") (split c s) = s.
Proof.
  induction s as [|a s IH]; [reflexivity|].
  cbn [split].
  destruct (split c s) as [|h t] eqn:Hs; [now apply split_not_nil in Hs|].
  destruct (Ascii.eqb a c) eqn:Hac.
  - apply Ascii.eqb_eq in Hac. subst a.
    rewrite join_cons, IH. reflexivity.
  - rewrite <- IH. destruct t as [|y t]; [reflexivity|].
    rewrite !join_cons. reflexivity.
Qed.

Lemma last_snoc {A} (l : list A) (x d : A) : last_of (l ++ [x]) d = x.
Proof. unfold last_of. apply last_last. Qed.

Lemma init_snoc {A} (l : list A) (x : A) : init (l ++ [x]) = l.
Proof. unfold init. apply removelast_last. Qed.

End PyStrFacts.

(** ** Reference parsing *)

Section ReferenceParsing.
Import PyStr PyStrFacts.

(** Whatever precedes the last segment, the image name and the selector
    come from the last segment alone. *)
Lemma parse_parts (self : Puller) (pre : list string) (last_part i t : string) :
  tag self = "latest" ->
  split "/" (image_reference self) = (pre ++ [last_part])%list ->
  selects last_part i t ->
  parse_image_reference self =
    let self1 := set_img_tag i t self in
    let first := hd "" (pre ++ [last_part])%list in
    if Nat.ltb 1 (List.length (pre ++ [last_part]))
       && (contains "." first || contains ":" first)
    then Ok (set_repo (join "/" (init (tl (pre ++ [last_part]))%list))
               (set_registry first self1))
    else match pre with
         | [] => Ok self1
         | _ :: _ => Ok (set_repo (join "/" pre) self1)
         end.
Proof.
  intros Htag Hparts Hsel. unfold parse_image_reference.
  rewrite Hparts, last_snoc, init_snoc.
  assert (Hnamed :
    (if contains "@" last_part
     then match unpack2 (split "@" last_part) with
          | Ok (i0, t0) => Ok (set_img_tag i0 t0 self)
          | Raise e => Raise e
          | SysExit c => SysExit c
          end
     else if contains ":" last_part
          then match unpack2 (split ":" last_part) with
               | Ok (i0, t0) => Ok (set_img_tag i0 t0 self)
               | Raise e => Raise e
               | SysExit c => SysExit c
               end
          else Ok (set_img last_part self)) = Ok (set_img_tag i t self)).
  { destruct Hsel as [i d Hi Hd | i t Hi Ht Hi' Ht' | i Hi Hi'].
    - rewrite contains_append, Hi. cbn [orb append].
      rewrite contains_cons_same, split_first, split_absent by assumption.
      reflexivity.
    - rewrite contains_append, Hi. cbn [orb append contains].
      change (Ascii.eqb ":" "@") with false. cbn iota. rewrite Ht.
      rewrite contains_append, Hi'. cbn [orb].
      rewrite contains_cons_same, split_first, split_absent by assumption.
      reflexivity.
    - rewrite Hi, Hi'. unfold set_img. now rewrite Htag. }
  cbv zeta. rewrite Hnamed.
  destruct pre; reflexivity.
Qed.

End ReferenceParsing.

Section ReferenceForms.
Import PyStr PyStrFacts.

Lemma selects_no_slash (l i t : string) :
  selects l i t -> contains "/" i = false -> contains "/" t = false ->
  contains "/" l = false.
Proof.
  intros [i0 d _ _ | i0 t0 _ _ _ _ | i0 _ _] Hi Ht; [| |exact Hi];
    rewrite contains_append, Hi; cbn; exact Ht.
Qed.

Lemma parse_tuple_of (ref : string) (p : Puller) :
  parse_image_reference (init_puller ref) = Ok p ->
  parse_tuple ref = Ok (registry p, repo p, img p, tag p).
Proof. unfold parse_tuple. now intros ->. Qed.

(** [host/ns/last]: the host is the registry, [ns] (one segment or several)
    the repository. *)
Lemma parse_host_ns (host ns l i t : string) :
  contains "/" host = false ->
  contains "." host || contains ":" host = true ->
  contains "/" i = false -> contains "/" t = false -> selects l i t ->
  parse_tuple (host ++ "/" ++ ns ++ "/" ++ l) = Ok (host, ns, i, t).
Proof.
  intros Hh Hdot Hi Ht Hsel.
  pose proof (selects_no_slash _ _ _ Hsel Hi Ht) as Hl.
  apply parse_tuple_of with
    (p := set_repo ns (set_registry host (set_img_tag i t (init_puller
            (host ++ "/" ++ ns ++ "/" ++ l))))).
  rewrite (parse_parts _ (host :: split "/" ns) l i t); [|reflexivity| |exact Hsel].
  - cbv zeta. cbn [hd tl app List.length]. rewrite Hdot, init_snoc, length_app.
    cbn [List.length]. rewrite join_split.
    replace (Nat.ltb 1 (S (List.length (split "/" ns) + 1))) with true
      by (symmetry; apply Nat.ltb_lt; lia).
    reflexivity.
  - cbn [image_reference init_puller append].
    rewrite split_first by exact Hh. rewrite split_last by exact Hl. reflexivity.
Qed.

(** [ns/last] with a first segment that is not a host: the public registry
    is kept and [ns] is the repository. *)
Lemma parse_ns (ns l i t : string) :
  contains "." (hd "" (split "/" ns)) = false ->
  contains ":" (hd "" (split "/" ns)) = false ->
  contains "/" i = false -> contains "/" t = false -> selects l i t ->
  parse_tuple (ns ++ "/" ++ l) = Ok (default_registry, ns, i, t).
Proof.
  intros Hdot Hcol Hi Ht Hsel.
  pose proof (selects_no_slash _ _ _ Hsel Hi Ht) as Hl.
  apply parse_tuple_of with
    (p := set_repo ns (set_img_tag i t (init_puller (ns ++ "/" ++ l)))).
  rewrite (parse_parts _ (split "/" ns) l i t); [|reflexivity| |exact Hsel].
  - cbv zeta. destruct (split "/" ns) as [|h r] eqn:Hs;
      [now apply split_not_nil in Hs|].
    cbn [hd app] in *. rewrite Hdot, Hcol, andb_false_r.
    rewrite <- Hs, join_split. reflexivity.
  - cbn [image_reference init_puller append].
    rewrite split_last by exact Hl. reflexivity.
Qed.

(** A reference without [/]: public registry, [library] repository. *)
Lemma parse_single (l i t : string) :
  contains "/" i = false -> contains "/" t = false -> selects l i t ->
  parse_tuple l = Ok (default_registry, "library", i, t).
Proof.
  intros Hi Ht Hsel.
  pose proof (selects_no_slash _ _ _ Hsel Hi Ht) as Hl.
  apply parse_tuple_of with (p := set_img_tag i t (init_puller l)).
  rewrite (parse_parts _ [] l i t); [reflexivity|reflexivity| |exact Hsel].
  cbn [image_reference init_puller app]. now apply split_absent.
Qed.

(** [host/last]: the host is the registry and the repository is the join
    of no segment at all, the empty string. *)
Lemma parse_host_only (host l i t : string) :
  contains "/" host = false ->
  contains "." host || contains ":" host = true ->
  contains "/" i = false -> contains "/" t = false -> selects l i t ->
  parse_image_reference (init_puller (host ++ "/" ++ l))
  = Ok (set_repo "" (set_registry host
          (set_img_tag i t (init_puller (host ++ "/" ++ l))))).
Proof.
  intros Hh Hdot Hi Ht Hsel.
  pose proof (selects_no_slash _ _ _ Hsel Hi Ht) as Hl.
  rewrite (parse_parts _ [host] l i t); [|reflexivity| |exact Hsel].
  - cbv zeta. cbn [hd tl app List.length]. now rewrite Hdot.
  - cbn [image_reference init_puller append].
    rewrite split_first by exact Hh. now rewrite split_absent by exact Hl.
Qed.

End ReferenceForms.

Section ReferenceClaims.
Import PyStr PyStrFacts.

(** C3.  The documented reference forms parse to the documented tuple
    (registry, repository, image, tag), each form under the conditions that
    make it that form: [host/ns/img:tag] takes its registry from the first
    segment when that segment contains [.] or [:], whatever [ns] is;
    [ns/img:tag] keeps the public registry when the first segment of [ns]
    contains neither; [img:tag], [img@digest] and bare [img] keep the public
    registry and the ["library"] repository; the last segment is split on
    [@], else on [:], and the tag stays ["latest"] when it has neither. *)
Theorem parse_documented_forms (host ns i t d : string) :
  contains "/" i = false -> contains "@" i = false -> contains ":" i = false ->
  (contains "/" host = false ->
   contains "." host || contains ":" host = true ->
   contains "/" t = false -> contains "@" t = false -> contains ":" t = false ->
   parse_tuple (host ++ "/" ++ ns ++ "/" ++ i ++ ":" ++ t) = Ok (host, ns, i, t))
  /\ (contains "." (hd "" (split "/" ns)) = false ->
      contains ":" (hd "" (split "/" ns)) = false ->
      contains "/" t = false -> contains "@" t = false -> contains ":" t = false ->
      parse_tuple (ns ++ "/" ++ i ++ ":" ++ t) = Ok (default_registry, ns, i, t))
  /\ (contains "/" t = false -> contains "@" t = false -> contains ":" t = false ->
      parse_tuple (i ++ ":" ++ t) = Ok (default_registry, "library", i, t))
  /\ (contains "/" d = false -> contains "@" d = false ->
      parse_tuple (i ++ "@" ++ d) = Ok (default_registry, "library", i, d))
  /\ parse_tuple i = Ok (default_registry, "library", i, "latest").
Proof.
  intros Hi1 Hi2 Hi3.
  assert (Htag : contains "@" t = false -> contains ":" t = false ->
                 selects (i ++ ":" ++ t) i t) by (intros; now constructor).
  assert (Hdig : contains "@" d = false -> selects (i ++ "@" ++ d) i d)
    by (intros; now constructor).
  assert (Hbare : selects i i "latest") by now constructor.
  split; [|split; [|split; [|split]]].
  - intros Hh Hdot Ht1 Ht2 Ht3. apply parse_host_ns; auto.
  - intros Hns1 Hns2 Ht1 Ht2 Ht3. apply parse_ns; auto.
  - intros Ht1 Ht2 Ht3. apply parse_single; auto.
  - intros Hd1 Hd2. apply parse_single; auto.
  - now apply parse_single.
Qed.

Lemma parse_documented_forms_witness :
  parse_tuple "host.tld/ns/img:tag" = Ok ("host.tld", "ns", "img", "tag")
  /\ parse_tuple "ghcr.io/my.org/img:tag" = Ok ("ghcr.io", "my.org", "img", "tag")
  /\ parse_tuple "ns/img:tag" = Ok (default_registry, "ns", "img", "tag")
  /\ parse_tuple "img:tag" = Ok (default_registry, "library", "img", "tag")
  /\ parse_tuple "img@sha256:0a1b"
     = Ok (default_registry, "library", "img", "sha256:0a1b")
  /\ parse_tuple "img" = Ok (default_registry, "library", "img", "latest").
Proof.
  destruct (parse_documented_forms "host.tld" "ns" "img" "tag" "sha256:0a1b"
              eq_refl eq_refl eq_refl) as (H1 & H2 & H3 & H4 & H5).
  destruct (parse_documented_forms "ghcr.io" "my.org" "img" "tag" "sha256:0a1b"
              eq_refl eq_refl eq_refl) as (H6 & _).
  split; [now apply H1|]. split; [now apply H6|]. split; [now apply H2|].
  split; [now apply H3|]. split; [now apply H4 | exact H5].
Defined.

End ReferenceClaims.

(** ** The file system *)

Module FSFacts.
Import FS.

Lemma lookup_keep (pred : string -> bool) (p : string) (f : t) :
  lookup p (keep pred f) = if pred p then lookup p f else None.
Proof.
  induction f as [|[q n] f IH]; simpl.
  - now destruct (pred p).
  - destruct (pred q) eqn:Hq; simpl.
    + destruct (String.eqb q p) eqn:Hqp.
      * apply String.eqb_eq in Hqp. subst q. now rewrite Hq.
      * exact IH.
    + destruct (String.eqb q p) eqn:Hqp.
      * apply String.eqb_eq in Hqp. subst q. now rewrite IH, Hq.
      * exact IH.
Qed.

Lemma lookup_set_same (p : string) (n : node) (f : t) :
  lookup p (set p n f) = Some n.
Proof. unfold set. simpl. now rewrite String.eqb_refl. Qed.

Lemma lookup_set_other (p q : string) (n : node) (f : t) :
  q <> p -> lookup q (set p n f) = lookup q f.
Proof.
  intros Hne. unfold set, remove. simpl.
  destruct (String.eqb p q) eqn:Hpq.
  - apply String.eqb_eq in Hpq. now subst.
  - rewrite lookup_keep. destruct (String.eqb q p) eqn:Hqp; [|reflexivity].
    apply String.eqb_eq in Hqp. now subst.
Qed.

Lemma lookup_remove_other (p q : string) (f : t) :
  q <> p -> lookup q (remove p f) = lookup q f.
Proof.
  intros Hne. unfold remove. rewrite lookup_keep.
  destruct (String.eqb q p) eqn:Hqp; [|reflexivity].
  apply String.eqb_eq in Hqp. now subst.
Qed.

Lemma lookup_remove_same (p : string) (f : t) : lookup p (remove p f) = None.
Proof. unfold remove. rewrite lookup_keep. now rewrite String.eqb_refl. Qed.

Lemma lookup_rmtree (p q : string) (f : t) :
  lookup q (rmtree p f) = if under p q then None else lookup q f.
Proof. unfold rmtree. rewrite lookup_keep. now destruct (under p q). Qed.

End FSFacts.

(** ** The monad *)

Section MonadFacts.

Context {A B : Type}.

Lemma bind_ok (m : M A) (k : A -> M B) (w w' : World) (b : B) :
  bind m k w = (Ok b, w') ->
  exists a w1, m w = (Ok a, w1) /\ k a w1 = (Ok b, w').
Proof.
  unfold bind. destruct (m w) as [[a|e|c] w1]; intros H;
    [eauto | discriminate | discriminate].
Qed.

Lemma bind_step (m : M A) (k : A -> M B) (w w1 : World) (a : A) :
  m w = (Ok a, w1) -> bind m k w = k a w1.
Proof. unfold bind. now intros ->. Qed.

Lemma bind_raise (m : M A) (k : A -> M B) (w w1 : World) (e : exn) :
  m w = (Raise e, w1) -> bind m k w = (Raise e, w1).
Proof. unfold bind. now intros ->. Qed.

Lemma bind_exit (m : M A) (k : A -> M B) (w w1 : World) (c : Z) :
  m w = (SysExit c, w1) -> bind m k w = (SysExit c, w1).
Proof. unfold bind. now intros ->. Qed.

Lemma bind_cases (m : M A) (k : A -> M B) (w w' : World) (r : result B) :
  bind m k w = (r, w') ->
  (exists a w1, m w = (Ok a, w1) /\ k a w1 = (r, w'))
  \/ (exists e, m w = (Raise e, w') /\ r = Raise e)
  \/ (exists c, m w = (SysExit c, w') /\ r = SysExit c).
Proof.
  unfold bind. destruct (m w) as [[a|e|c] w1]; intros H.
  - left. eauto.
  - injection H as <- <-. right. left. eauto.
  - injection H as <- <-. right. right. eauto.
Qed.

End MonadFacts.

Section KeepsFacts.

Variable R : World -> World -> Prop.
Hypothesis R_refl : forall w, R w w.
Hypothesis R_trans : forall a b c, R a b -> R b c -> R a c.

Lemma keeps_ret {A} (a : A) : keeps R (ret a).
Proof. intros w r w' H. injection H as _ <-. apply R_refl. Qed.

Lemma keeps_raise {A} (e : exn) : keeps R (@raise A e).
Proof. intros w r w' H. injection H as _ <-. apply R_refl. Qed.

Lemma keeps_sys_exit {A} (c : Z) : keeps R (@sys_exit A c).
Proof. intros w r w' H. injection H as _ <-. apply R_refl. Qed.

Lemma keeps_lift {A} (x : result A) : keeps R (lift x).
Proof. intros w r w' H. injection H as _ <-. apply R_refl. Qed.

Lemma keeps_bind {A B} (m : M A) (k : A -> M B) :
  keeps R m -> (forall a, keeps R (k a)) -> keeps R (bind m k).
Proof.
  intros Hm Hk w r w'. unfold bind.
  destruct (m w) as [[a|e|c] w1] eqn:Hmw; intros H.
  - eapply R_trans; [eapply Hm; eauto | eapply Hk; eauto].
  - injection H as _ <-. eapply Hm; eauto.
  - injection H as _ <-. eapply Hm; eauto.
Qed.

Lemma keeps_try_except {A} (m : M A) (handler : exn -> option (M A)) :
  keeps R m -> (forall e h, handler e = Some h -> keeps R h) ->
  keeps R (try_except m handler).
Proof.
  intros Hm Hh w r w'. unfold try_except.
  destruct (m w) as [[a|e|c] w1] eqn:Hmw.
  - intros H. injection H as _ <-. eapply Hm; eauto.
  - destruct (handler e) as [h|] eqn:He; intros H.
    + eapply R_trans; [eapply Hm; eauto | eapply Hh; eauto].
    + injection H as _ <-. eapply Hm; eauto.
  - intros H. injection H as _ <-. eapply Hm; eauto.
Qed.

End KeepsFacts.

(** ** Layer identifiers *)

Section LayerIds.

Context `{E : Externals}.

Lemma process_layer_returns (self : Puller) (layer : Layer)
    (parent_id layer_json : string) (w w' : World) (id : string) :
  process_layer self layer parent_id layer_json w = (Ok id, w') ->
  id = sha256_hex (parent_id ++ nl ++ digest layer ++ nl).
Proof.
  unfold process_layer. intros H.
  apply bind_ok in H as (_ & w1 & _ & H).
  apply bind_ok in H as (_ & w2 & _ & H).
  apply bind_ok in H as (_ & w3 & _ & H).
  apply bind_ok in H as (_ & w4 & _ & H).
  injection H as <- _. reflexivity.
Qed.

Lemma last_cons_default {A} (l : list A) (x d : A) :
  last (x :: l) d = last l x.
Proof.
  revert x d. induction l as [|y l IH]; intros x d; [reflexivity|].
  change (last (y :: l) d = last (y :: l) x). now rewrite !IH.
Qed.

Lemma loop_ids (self : Puller) (layers : list Layer) (cfg ej : string) :
  forall (rest : list Layer) (parent_id : string) (acc : list string)
         (w w' : World) (acc' : list string) (last_id : string),
    process_layers_loop self layers cfg ej rest parent_id acc w
    = (Ok (acc', last_id), w') ->
    acc' = (acc ++ map tar_entry (legacy_ids parent_id (map digest rest)))%list
    /\ last_id = last (legacy_ids parent_id (map digest rest)) parent_id.
Proof.
  induction rest as [|layer rest IH]; intros parent_id acc w w' acc' last_id H.
  - injection H as <- <- _. cbn. now rewrite app_nil_r.
  - cbn [process_layers_loop] in H.
    apply bind_ok in H as (id & w1 & Hstep & H).
    apply process_layer_returns in Hstep. subst id.
    apply IH in H as [-> ->]. cbn [map legacy_ids].
    split.
    + now rewrite <- app_assoc.
    + now rewrite last_cons_default.
Qed.

(** What a successful [process_layers] returns. *)
Lemma process_layers_returns (self : Puller) (layers : list Layer)
    (config_content : string) (w w' : World) (content : Content)
    (last_layer_id : string) :
  process_layers self layers config_content w
  = (Ok (content, last_layer_id), w') ->
  Layers content = map tar_entry (legacy_ids "" (map digest layers))
  /\ last_layer_id = last (legacy_ids "" (map digest layers)) ""
  /\ Config content = last_layer_id ++ ".json"
  /\ RepoTags content = [repo_tag self].
Proof.
  intros H. unfold process_layers in H.
  apply bind_ok in H as (_ & w1 & _ & H).
  apply bind_ok in H as ([acc lid] & w2 & Hloop & H).
  injection H as <- <- _. cbn [fst snd Layers Config RepoTags].
  apply loop_ids in Hloop as [-> ->]. auto.
Qed.

End LayerIds.

Section LayerIdClaim.

Context `{E : Externals}.

(** C1.  Processing the layers in manifest order gives each layer the ID
    [sha256(parentID + "\n" + blobDigest + "\n")], where [parentID] is the
    ID computed for the previous layer and the empty string for the first
    one.  The IDs depend on the digests alone: any two successful runs over
    the same layer list, whatever the puller, the configuration and the
    world, return the same [Layers] and the same top ID. *)
Theorem layer_ids_follow_chain (self : Puller) (layers : list Layer)
    (config_content : string) (w w' : World) (content : Content)
    (last_layer_id : string) :
  process_layers self layers config_content w
  = (Ok (content, last_layer_id), w') ->
  Layers content = map tar_entry (legacy_ids "" (map digest layers))
  /\ last_layer_id = last (legacy_ids "" (map digest layers)) ""
  /\ Config content = last_layer_id ++ ".json"
  /\ forall self2 config2 w2 w2' content2 last2,
       process_layers self2 layers config2 w2 = (Ok (content2, last2), w2') ->
       Layers content2 = Layers content /\ last2 = last_layer_id.
Proof.
  intros H.
  destruct (process_layers_returns _ _ _ _ _ _ _ H) as (HL & Hlast & HC & _).
  repeat split; try assumption.
  - destruct (process_layers_returns _ _ _ _ _ _ _ H0) as (HL2 & _). congruence.
  - destruct (process_layers_returns _ _ _ _ _ _ _ H0) as (_ & Hlast2 & _).
    congruence.
Qed.

End LayerIdClaim.

Lemma layer_ids_follow_chain_witness :
  match @process_layers Demo.externals Demo.puller Demo.layers
          (Sample.dumps Demo.config) (Demo.staged Demo.registry_ok) with
  | (Ok (content, last_layer_id), _) =>
      Layers content
      = [tar_entry (Sample.digest64 (nl ++ "sha256:aaa" ++ nl));
         tar_entry (Sample.digest64
                      (Sample.digest64 (nl ++ "sha256:aaa" ++ nl)
                       ++ nl ++ "sha256:bbb" ++ nl))]
      /\ last_layer_id
         = Sample.digest64 (Sample.digest64 (nl ++ "sha256:aaa" ++ nl)
                            ++ nl ++ "sha256:bbb" ++ nl)
  | _ => False
  end.
Proof.
  destruct (@process_layers Demo.externals Demo.puller Demo.layers
              (Sample.dumps Demo.config) (Demo.staged Demo.registry_ok))
    as [[[content last_layer_id]|e|c] w'] eqn:Hrun.
  - destruct (@layer_ids_follow_chain Demo.externals _ _ _ _ _ _ _ Hrun)
      as (HL & Hlast & _).
    split; [exact HL | exact Hlast].
  - vm_compute in Hrun. discriminate Hrun.
  - vm_compute in Hrun. discriminate Hrun.
Defined.

(** ** Dictionaries *)

Module DictFacts.
Import Dict.

Lemma get_set_same (k : string) (v : json) (d : t) :
  get k (set k v d) = Some v.
Proof.
  induction d as [|[k' v'] d IH]; simpl.
  - now rewrite String.eqb_refl.
  - destruct (String.eqb k' k) eqn:Hk; simpl.
    + now rewrite String.eqb_refl.
    + now rewrite Hk.
Qed.

Lemma get_set_other (k k' : string) (v : json) (d : t) :
  k' <> k -> get k' (set k v d) = get k' d.
Proof.
  intros Hne. induction d as [|[k0 v0] d IH]; simpl.
  - destruct (String.eqb k k') eqn:Hk; [|reflexivity].
    apply String.eqb_eq in Hk. now subst.
  - destruct (String.eqb k0 k) eqn:Hk0; simpl.
    + apply String.eqb_eq in Hk0. subst k0.
      destruct (String.eqb k k') eqn:Hk; [|reflexivity].
      apply String.eqb_eq in Hk. now subst.
    + now rewrite IH.
Qed.

Lemma get_pop_same (k : string) (d : t) : get k (pop k d) = None.
Proof.
  induction d as [|[k0 v0] d IH]; simpl; [reflexivity|].
  destruct (String.eqb k0 k) eqn:Hk0; simpl; [exact IH|].
  now rewrite Hk0.
Qed.

Lemma get_pop_other (k k' : string) (d : t) :
  k' <> k -> get k' (pop k d) = get k' d.
Proof.
  intros Hne. induction d as [|[k0 v0] d IH]; simpl; [reflexivity|].
  destruct (String.eqb k0 k) eqn:Hk0; simpl.
  - apply String.eqb_eq in Hk0. subst k0.
    destruct (String.eqb k k') eqn:Hk; [|exact IH].
    apply String.eqb_eq in Hk. now subst.
  - now rewrite IH.
Qed.

End DictFacts.

Section LayerJsonData.
Import DictFacts.

Variables (d : Dict.t) (layer_id parent_id : string) (is_last : bool).

Lemma layer_json_id :
  Dict.get "id" (layer_json_data d layer_id parent_id is_last)
  = Some (JStr layer_id).
Proof.
  unfold layer_json_data. destruct (negb (String.eqb parent_id "")).
  - rewrite get_set_other by discriminate. apply get_set_same.
  - apply get_set_same.
Qed.

Lemma layer_json_parent :
  parent_id <> "" ->
  Dict.get "parent" (layer_json_data d layer_id parent_id is_last)
  = Some (JStr parent_id).
Proof.
  intros Hne. unfold layer_json_data.
  destruct (String.eqb parent_id "") eqn:Hp.
  - apply String.eqb_eq in Hp. contradiction.
  - apply get_set_same.
Qed.

Lemma layer_json_other (k : string) :
  k <> "id" -> k <> "parent" ->
  Dict.get k (layer_json_data d layer_id parent_id is_last)
  = Dict.get k (if is_last
                then Dict.pop "rootfS" (Dict.pop "rootfs" (Dict.pop "history" d))
                else d).
Proof.
  intros Hid Hpar. unfold layer_json_data.
  destruct (negb (String.eqb parent_id ""));
    repeat rewrite get_set_other by assumption; reflexivity.
Qed.

End LayerJsonData.

Section LayerJsonDataTop.
Import DictFacts.

Variables (d : Dict.t) (layer_id parent_id : string).

(** Of a base layer ([parent_id] empty) the [parent] entry is the one of
    the JSON it starts from. *)
Lemma layer_json_base_parent :
  Dict.get "parent" (layer_json_data d layer_id "" true) = Dict.get "parent" d.
Proof.
  unfold layer_json_data. cbn [String.eqb negb].
  rewrite get_set_other by discriminate.
  now rewrite !get_pop_other by discriminate.
Qed.

Lemma layer_json_stripped (k : string) :
  k = "history" \/ k = "rootfs" \/ k = "rootfS" ->
  Dict.get k (layer_json_data d layer_id parent_id true) = None.
Proof.
  intros Hk. rewrite layer_json_other
    by (destruct Hk as [->|[->| ->]]; discriminate).
  destruct Hk as [->|[->| ->]].
  - rewrite !get_pop_other by discriminate. apply get_pop_same.
  - rewrite get_pop_other by discriminate. apply get_pop_same.
  - apply get_pop_same.
Qed.

Lemma layer_json_kept (k : string) :
  k <> "history" -> k <> "rootfs" -> k <> "rootfS" ->
  k <> "id" -> k <> "parent" ->
  Dict.get k (layer_json_data d layer_id parent_id true) = Dict.get k d.
Proof.
  intros H1 H2 H3 H4 H5. rewrite layer_json_other by assumption.
  now rewrite !get_pop_other by assumption.
Qed.

End LayerJsonDataTop.

(** ** Paths *)

Module PathFacts.
Import PyStr PyStrFacts.

Lemma join_relative (a b : string) :
  starts_with "/" b = false -> os_path_join a b = dir_prefix a ++ b.
Proof.
  intros Hb. unfold os_path_join, dir_prefix. rewrite Hb.
  destruct a as [|c a]; [reflexivity|].
  destruct (ends_with "/" (String c a)); [reflexivity|].
  now rewrite append_assoc.
Qed.

Lemma starts_with_contains (c : ascii) (s : string) :
  starts_with c s = true -> contains c s = true.
Proof. destruct s as [|a s]; simpl; [discriminate|]. now intros ->. Qed.

Lemma ends_with_contains (c : ascii) (s : string) :
  ends_with c s = true -> contains c s = true.
Proof.
  induction s as [|a s IH]; [discriminate|].
  cbn [ends_with contains]. destruct s as [|b s].
  - now intros ->.
  - intros H. destruct (Ascii.eqb a c); [reflexivity|]. now apply IH.
Qed.

Lemma ends_with_append (c : ascii) (a s : string) :
  s <> "" -> ends_with c (a ++ s) = ends_with c s.
Proof.
  intros Hs. induction a as [|x a IH]; [reflexivity|].
  cbn [append ends_with]. destruct (a ++ s) as [|y r] eqn:Hr.
  - destruct a; [now subst | discriminate].
  - exact IH.
Qed.

Lemma forallb_not_contains (f : ascii -> bool) (c : ascii) (s : string) :
  forallb f (list_ascii_of_string s) = true -> f c = false ->
  contains c s = false.
Proof.
  intros Hall Hc. induction s as [|a s IH]; [reflexivity|].
  cbn in Hall. apply andb_true_iff in Hall as [Ha Hall].
  cbn. destruct (Ascii.eqb a c) eqn:Hac.
  - apply Ascii.eqb_eq in Hac. subst a. congruence.
  - now apply IH.
Qed.

Section Hexdigest.

Variable id : string.
Hypothesis Hid : is_hexdigest id = true.

Lemma hex_length : String.length id = 64.
Proof.
  unfold is_hexdigest in Hid. apply andb_true_iff in Hid as [Hlen _].
  now apply Nat.eqb_eq.
Qed.

Lemma hex_not_empty : id <> "".
Proof. intros ->. discriminate Hid. Qed.

Lemma hex_no_slash : contains "/" id = false.
Proof.
  unfold is_hexdigest in Hid. apply andb_true_iff in Hid as [_ Hall].
  now apply (forallb_not_contains is_hex_char).
Qed.

Lemma hex_relative : starts_with "/" id = false.
Proof.
  destruct (starts_with "/" id) eqn:H; [|reflexivity].
  apply starts_with_contains in H. now rewrite hex_no_slash in H.
Qed.

Lemma hex_no_trailing_slash (a : string) : ends_with "/" (a ++ id) = false.
Proof.
  rewrite ends_with_append by exact hex_not_empty.
  destruct (ends_with "/" id) eqn:H; [|reflexivity].
  apply ends_with_contains in H. now rewrite hex_no_slash in H.
Qed.

(** A layer directory is the staging prefix followed by the ID, and the
    files of the layer are that directory, a slash and their name. *)
Lemma layer_dir_hex (self : Puller) :
  layer_dir_of self id = dir_prefix (image_dir self) ++ id.
Proof. unfold layer_dir_of. apply join_relative, hex_relative. Qed.

Lemma layer_file_hex (self : Puller) (name : string) :
  starts_with "/" name = false ->
  os_path_join (layer_dir_of self id) name
  = layer_dir_of self id ++ "/" ++ name.
Proof.
  intros Hname. rewrite join_relative by exact Hname.
  rewrite layer_dir_hex. unfold dir_prefix at 1.
  rewrite hex_no_trailing_slash.
  destruct (dir_prefix (image_dir self) ++ id) as [|c r] eqn:Hr.
  - destruct (dir_prefix (image_dir self)); [|discriminate].
    cbn in Hr. now apply hex_not_empty in Hr.
  - now rewrite append_assoc.
Qed.

End Hexdigest.

Lemma prefix_append (a b : string) : String.prefix a (a ++ b) = true.
Proof.
  induction a as [|x a IH]; [now destruct b|].
  cbn. destruct (ascii_dec x x); [exact IH | contradiction].
Qed.

Lemma prefix_cancel (a b c : string) :
  String.prefix (a ++ b) (a ++ c) = String.prefix b c.
Proof.
  induction a as [|x a IH]; [reflexivity|].
  cbn. destruct (ascii_dec x x); [exact IH | contradiction].
Qed.

Lemma prefix_length (a b : string) :
  String.prefix a b = true -> String.length a <= String.length b.
Proof.
  revert b. induction a as [|x a IH]; intros b H; [cbn; lia|].
  destruct b as [|y b]; [discriminate|]. cbn in H.
  destruct (ascii_dec x y); [|discriminate]. apply IH in H. cbn. lia.
Qed.

Lemma prefix_same_length (x y u v : string) :
  String.prefix (x ++ u) (y ++ v) = true ->
  String.length x = String.length y -> x = y.
Proof.
  revert y. induction x as [|a x IH]; intros y H Hlen.
  - destruct y; [reflexivity | discriminate].
  - destruct y as [|b y]; [discriminate|]. cbn in H.
    destruct (ascii_dec a b) as [->|]; [|discriminate]. f_equal.
    apply IH; [exact H | now injection Hlen].
Qed.

Lemma inside_child (dir name : string) : inside dir (dir ++ "/" ++ name) = true.
Proof.
  unfold inside. rewrite <- append_assoc. apply prefix_append.
Qed.

Lemma inside_self (dir : string) : inside dir dir = false.
Proof.
  unfold inside. destruct (String.prefix (dir ++ "/") dir) eqn:H; [|reflexivity].
  apply prefix_length in H. rewrite length_append in H. cbn in H. lia.
Qed.

Lemma under_inside (dir q : string) : inside dir q = true -> FS.under dir q = true.
Proof. unfold FS.under, inside. intros ->. apply orb_true_r. Qed.

Lemma under_self (dir : string) : FS.under dir dir = true.
Proof. unfold FS.under. now rewrite String.eqb_refl. Qed.

(** Two layer directories under one staging directory do not overlap
    unless they are the same. *)
Lemma layer_dirs_apart (self : Puller) (a b : string) :
  is_hexdigest a = true -> is_hexdigest b = true ->
  FS.under (layer_dir_of self b) (layer_dir_of self a) = true -> a = b.
Proof.
  intros Ha Hb. rewrite (layer_dir_hex a Ha), (layer_dir_hex b Hb).
  unfold FS.under. intros H. apply orb_true_iff in H as [H|H].
  - apply String.eqb_eq in H. now apply append_inv_head in H.
  - rewrite append_assoc, prefix_cancel in H.
    apply prefix_length in H. rewrite length_append in H.
    rewrite (hex_length a Ha), (hex_length b Hb) in H. cbn in H. lia.
Qed.

Lemma layer_files_apart (self : Puller) (a b name : string) :
  is_hexdigest a = true -> is_hexdigest b = true ->
  FS.under (layer_dir_of self b) (layer_dir_of self a ++ "/" ++ name) = true ->
  a = b.
Proof.
  intros Ha Hb. rewrite (layer_dir_hex a Ha), (layer_dir_hex b Hb).
  unfold FS.under. intros H. apply orb_true_iff in H as [H|H].
  - apply String.eqb_eq in H. rewrite append_assoc in H.
    apply append_inv_head in H. apply (f_equal String.length) in H.
    rewrite length_append, (hex_length a Ha), (hex_length b Hb) in H.
    cbn in H. lia.
  - rewrite !append_assoc, prefix_cancel in H. symmetry.
    apply (prefix_same_length _ _ _ _ H).
    now rewrite (hex_length a Ha), (hex_length b Hb).
Qed.

End PathFacts.

(** ** Footprints on the file system *)

(** Splits an equation [m w = (r, w')] along the [match]es of [m]. *)
Ltac run_inv H :=
  repeat match type of H with
         | (match ?x with _ => _ end) = _ =>
             let Hx := fresh "Hx" in destruct x eqn:Hx; try discriminate H
         | (if ?x then _ else _) = _ =>
             let Hx := fresh "Hx" in destruct x eqn:Hx; try discriminate H
         end.

Create HintDb unchanged.

Section Unchanged.

Context `{E : Externals}.

Lemma fs_unchanged_refl (w : World) : fs_unchanged w w.
Proof. reflexivity. Qed.

Lemma fs_unchanged_trans (a b c : World) :
  fs_unchanged a b -> fs_unchanged b c -> fs_unchanged a c.
Proof. unfold fs_unchanged. congruence. Qed.

Lemma unchanged_print (s : string) : keeps fs_unchanged (print s).
Proof. intros w r w' H. injection H as _ <-. reflexivity. Qed.

Lemma unchanged_eprint (s : string) : keeps fs_unchanged (eprint s).
Proof. intros w r w' H. injection H as _ <-. reflexivity. Qed.

Lemma unchanged_requests_get (u : string) (h : list (string * string)) (s : bool) :
  keeps fs_unchanged (requests_get u h s).
Proof.
  intros w r w' H. unfold requests_get in H. run_inv H;
    injection H as _ <-; reflexivity.
Qed.

Lemma unchanged_path_exists (p : string) : keeps fs_unchanged (path_exists p).
Proof. intros w r w' H. injection H as _ <-. reflexivity. Qed.

Lemma unchanged_read_file (p : string) : keeps fs_unchanged (read_file p).
Proof.
  intros w r w' H. unfold read_file in H. run_inv H;
    injection H as _ <-; reflexivity.
Qed.

Lemma unchanged_raise_for_status (r : Response) :
  keeps fs_unchanged (raise_for_status r).
Proof.
  unfold raise_for_status. destruct (_ && _).
  - apply keeps_raise, fs_unchanged_refl.
  - apply keeps_ret, fs_unchanged_refl.
Qed.

Lemma unchanged_response_json (r : Response) :
  keeps fs_unchanged (response_json r).
Proof.
  unfold response_json. destruct (json_loads _).
  - apply keeps_ret, fs_unchanged_refl.
  - apply keeps_raise, fs_unchanged_refl.
Qed.

#[local] Hint Resolve fs_unchanged_refl unchanged_print unchanged_eprint
  unchanged_requests_get unchanged_path_exists unchanged_read_file
  unchanged_raise_for_status unchanged_response_json : unchanged.

(** Chains the footprint lemmas along the [bind]s of a method. *)
Ltac unchanged_steps :=
  repeat first
    [ solve [auto with unchanged nocore]
    | apply keeps_ret, fs_unchanged_refl
    | apply keeps_raise, fs_unchanged_refl
    | apply keeps_sys_exit, fs_unchanged_refl
    | apply keeps_lift, fs_unchanged_refl
    | apply keeps_bind; [exact fs_unchanged_trans | | intro] ].

Lemma unchanged_get_auth_token (self : Puller) (content_type : string) :
  keeps fs_unchanged (get_auth_token self content_type).
Proof. unfold get_auth_token. unchanged_steps. Qed.

Lemma unchanged_get_auth_endpoint (self : Puller) :
  keeps fs_unchanged (get_auth_endpoint self).
Proof.
  unfold get_auth_endpoint. unchanged_steps.
  destruct (status_code _ =? 401)%Z; [|unchanged_steps].
  destruct (header_get _ _); [|unchanged_steps].
  destruct (nth_error _ 1); unchanged_steps.
Qed.

Lemma unchanged_print_manifest_entries (l : list json) :
  keeps fs_unchanged (print_manifest_entries l).
Proof.
  induction l as [|m l IH]; cbn [print_manifest_entries].
  - unchanged_steps.
  - unfold print_manifest_entry. unchanged_steps.
Qed.

#[local] Hint Resolve unchanged_get_auth_token unchanged_get_auth_endpoint
  unchanged_print_manifest_entries : unchanged.

Lemma unchanged_handle_manifest_error (self : Puller) (response : Response) :
  keeps fs_unchanged (handle_manifest_error self response).
Proof.
  unfold handle_manifest_error. unchanged_steps.
  destruct (status_code _ =? 200)%Z; unchanged_steps.
Qed.

#[local] Hint Resolve unchanged_handle_manifest_error : unchanged.

Lemma unchanged_fetch_manifest (self : Puller) :
  keeps fs_unchanged (fetch_manifest self).
Proof.
  unfold fetch_manifest. unchanged_steps.
  destruct (negb _); unchanged_steps.
Qed.

End Unchanged.

#[export] Hint Resolve fs_unchanged_refl unchanged_print unchanged_eprint
  unchanged_requests_get unchanged_path_exists unchanged_read_file
  unchanged_raise_for_status unchanged_response_json
  unchanged_get_auth_token unchanged_get_auth_endpoint
  unchanged_print_manifest_entries unchanged_handle_manifest_error
  unchanged_fetch_manifest : unchanged.

Section Footprint.

Context `{E : Externals}.
Variable touched : string -> bool.

Let R := fs_same_outside touched.

Lemma same_outside_refl (w : World) : R w w.
Proof. intros q _. reflexivity. Qed.

Lemma same_outside_trans (a b c : World) : R a b -> R b c -> R a c.
Proof. intros Hab Hbc q Hq. rewrite (Hbc q Hq). exact (Hab q Hq). Qed.

(** What leaves the file system alone has every footprint. *)
Lemma footprint_unchanged {A} (m : M A) : keeps fs_unchanged m -> keeps R m.
Proof. intros Hm w r w' H q _. now rewrite (Hm w r w' H). Qed.

Lemma footprint_mkdir (p : string) : touched p = true -> keeps R (mkdir p).
Proof.
  intros Hp w r w' H q Hq. unfold mkdir in H. run_inv H;
    injection H as _ <-; try reflexivity.
  cbn. apply FSFacts.lookup_set_other. congruence.
Qed.

Lemma footprint_write_file (p c : string) :
  touched p = true -> keeps R (write_file p c).
Proof.
  intros Hp w r w' H q Hq. unfold write_file in H. run_inv H;
    injection H as _ <-; try reflexivity;
    cbn; apply FSFacts.lookup_set_other; congruence.
Qed.

Lemma footprint_remove_file (p : string) :
  touched p = true -> keeps R (remove_file p).
Proof.
  intros Hp w r w' H q Hq. unfold remove_file in H. run_inv H;
    injection H as _ <-; try reflexivity.
  cbn. apply FSFacts.lookup_remove_other. congruence.
Qed.

Ltac footprint_steps :=
  repeat first
    [ solve [apply footprint_unchanged; auto with unchanged nocore]
    | apply keeps_ret, same_outside_refl
    | apply keeps_raise, same_outside_refl
    | apply keeps_bind; [exact same_outside_trans | | intro]
    | apply footprint_write_file; assumption
    | apply footprint_remove_file; assumption ].

Lemma footprint_download_with_progress (self : Puller) (u p description : string) :
  touched p = true -> keeps R (download_with_progress self u p description).
Proof.
  intros Hp. unfold download_with_progress. footprint_steps.
  destruct (header_get _ _) as [s|]; [destruct (py_int s)|]; footprint_steps.
Qed.

Lemma footprint_download_layer (self : Puller) (blob_digest dir : string)
    (fallback_urls : list string) :
  touched (os_path_join dir "layer_gzip.tar") = true ->
  touched (os_path_join dir "layer.tar") = true ->
  keeps R (download_layer self blob_digest dir fallback_urls).
Proof.
  intros Hgz Htar. unfold download_layer.
  apply keeps_bind; [exact same_outside_trans | | intro].
  - apply keeps_try_except; [exact same_outside_trans | |].
    + now apply footprint_download_with_progress.
    + intros e h He. destruct e; try discriminate He.
      injection He as <-. destruct fallback_urls.
      * apply keeps_raise, same_outside_refl.
      * now apply footprint_download_with_progress.
  - unfold decompress_layer. footprint_steps.
    destruct (gunzip _); footprint_steps.
Qed.

Lemma footprint_create_layer_json (dir layer_id parent_id layer_json : string)
    (is_last : bool) :
  touched (os_path_join dir "json") = true ->
  keeps R (create_layer_json dir layer_id parent_id layer_json is_last).
Proof.
  intros Hp. unfold create_layer_json.
  destruct (json_loads layer_json) as [[| | | | | |]|]; try destruct is_last;
    footprint_steps.
Qed.

End Footprint.

(** ** One layer *)

Section OneLayer.
Import PathFacts.

Context `{E : Externals} {L : ExternalsLaws E}.

Lemma mkdir_ok (p : string) (w w' : World) :
  mkdir p w = (Ok tt, w') ->
  FS.lookup p (fs w) = None /\ fs w' = FS.set p Dir (fs w).
Proof.
  unfold mkdir. intros H. run_inv H. injection H as <-. now split.
Qed.

Lemma write_file_ok (p c : string) (w w' : World) :
  write_file p c w = (Ok tt, w') -> fs w' = FS.set p (File c) (fs w).
Proof.
  unfold write_file. intros H. run_inv H; injection H as <-; reflexivity.
Qed.

Lemma create_layer_json_ok (dir layer_id parent_id layer_json : string)
    (is_last : bool) (w w' : World) :
  create_layer_json dir layer_id parent_id layer_json is_last w = (Ok tt, w') ->
  exists src,
    json_loads layer_json = Some (JObj src)
    /\ FS.lookup (os_path_join dir "json") (fs w')
       = Some (File (json_dumps
                       (JObj (layer_json_data src layer_id parent_id is_last)))).
Proof.
  unfold create_layer_json. intros H.
  destruct (json_loads layer_json) as [[| | | | | |o]|];
    try destruct is_last; try discriminate H.
  all: exists o; split; [reflexivity|];
    apply write_file_ok in H; rewrite H; apply FSFacts.lookup_set_same.
Qed.

(** What a successful [process_layer] leaves behind. *)
Lemma process_layer_effect (self : Puller) (layer : Layer)
    (parent_id layer_json : string) (w w' : World) (id : string) :
  process_layer self layer parent_id layer_json w = (Ok id, w') ->
  id = sha256_hex (parent_id ++ nl ++ digest layer ++ nl)
  /\ FS.lookup (layer_dir_of self id) (fs w) = None
  /\ FS.lookup (layer_dir_of self id) (fs w') = Some Dir
  /\ fs_same_outside (FS.under (layer_dir_of self id)) w w'
  /\ exists src,
       json_loads layer_json = Some (JObj src)
       /\ FS.lookup (json_path_of self id) (fs w')
          = Some (File (json_dumps
                          (JObj (layer_json_data src id parent_id true)))).
Proof.
  intros H. pose proof (process_layer_returns _ _ _ _ _ _ _ H) as Hid.
  split; [exact Hid|].
  assert (Hhex : is_hexdigest id = true) by (rewrite Hid; apply sha256_hexdigest).
  unfold process_layer in H. fold (layer_id_of parent_id (digest layer)) in Hid.
  rewrite <- Hid in H. fold (layer_dir_of self id) in H.
  rewrite String.eqb_refl in H.
  apply bind_ok in H as ([] & w1 & Hmk & H).
  apply bind_ok in H as ([] & w2 & Hver & H).
  apply bind_ok in H as ([] & w3 & Hdl & H).
  apply bind_ok in H as ([] & w4 & Hjs & H).
  injection H as <-.
  apply mkdir_ok in Hmk as [Hfresh Hw1].
  assert (Hin : forall name, PyStr.starts_with "/" name = false ->
                  inside (layer_dir_of self id)
                    (os_path_join (layer_dir_of self id) name) = true).
  { intros name Hname. rewrite (layer_file_hex id Hhex) by exact Hname.
    apply inside_child. }
  assert (Hrest : fs_same_outside (inside (layer_dir_of self id)) w1 w4).
  { apply same_outside_trans with w2;
      [eapply footprint_write_file; [|exact Hver]; now apply Hin|].
    apply same_outside_trans with w3;
      [eapply footprint_download_layer; [| |exact Hdl]; now apply Hin|].
    eapply footprint_create_layer_json; [|exact Hjs]. now apply Hin. }
  split; [exact Hfresh|]. split; [|split].
  - rewrite (Hrest _ (inside_self _)), Hw1. apply FSFacts.lookup_set_same.
  - intros q Hq. unfold FS.under in Hq. apply orb_false_iff in Hq as [Hne Hq].
    rewrite (Hrest q Hq), Hw1. apply FSFacts.lookup_set_other.
    intros ->. now rewrite String.eqb_refl in Hne.
  - apply create_layer_json_ok in Hjs. exact Hjs.
Qed.

End OneLayer.

(** ** All layers *)

Section AllLayers.
Import PathFacts.

Context `{E : Externals} {L : ExternalsLaws E}.

Variables (self : Puller) (layers : list Layer) (config_content : string).

Lemma chain_entries_hex (rest : list Layer) (parent_id : string) :
  Forall (fun e => is_hexdigest (snd (fst e)) = true)
         (chain_entries parent_id rest).
Proof.
  revert parent_id. induction rest as [|layer rest IH]; intros parent_id;
    cbn [chain_entries]; constructor; [apply sha256_hexdigest | apply IH].
Qed.

(** Every parent ID after the first is an ID, hence not empty. *)
Lemma chain_entries_parents (rest : list Layer) (parent_id : string) :
  parent_id <> "" ->
  Forall (fun e => snd e <> "") (chain_entries parent_id rest).
Proof.
  revert parent_id. induction rest as [|layer rest IH]; intros parent_id Hp;
    cbn [chain_entries]; constructor; [exact Hp|].
  apply IH, hex_not_empty, sha256_hexdigest.
Qed.

Lemma settled_preserved (e : Layer * string * string) (layer : Layer)
    (parent_id layer_json id : string) (w w' : World) :
  is_hexdigest (snd (fst e)) = true ->
  layer_settled self layers config_content w e ->
  process_layer self layer parent_id layer_json w = (Ok id, w') ->
  layer_settled self layers config_content w' e.
Proof.
  intros Hhex [Hdir (src & Hsrc & Hfile)] Hstep.
  apply process_layer_effect in Hstep as (Hid & Hfresh & _ & Hframe & _).
  assert (Hhex' : is_hexdigest id = true) by (rewrite Hid; apply sha256_hexdigest).
  assert (Hne : snd (fst e) <> id) by (intros Heq; congruence).
  split; [|exists src; split; [exact Hsrc|]].
  - rewrite Hframe; [exact Hdir|].
    destruct (FS.under _ _) eqn:Hu; [|reflexivity].
    now apply layer_dirs_apart in Hu.
  - rewrite Hframe; [exact Hfile|].
    unfold json_path_of. rewrite (layer_file_hex _ Hhex) by reflexivity.
    destruct (FS.under _ _) eqn:Hu; [|reflexivity].
    now apply layer_files_apart in Hu.
Qed.

Lemma loop_settles :
  forall (rest : list Layer) (parent_id : string) (acc : list string)
         (w w' : World) (acc' : list string) (last_id : string)
         (seen : list (Layer * string * string)),
    process_layers_loop self layers config_content
      (json_dumps (JObj empty_config)) rest parent_id acc w
    = (Ok (acc', last_id), w') ->
    Forall (fun e => is_hexdigest (snd (fst e)) = true) seen ->
    Forall (layer_settled self layers config_content w) seen ->
    Forall (layer_settled self layers config_content w')
           (seen ++ chain_entries parent_id rest).
Proof.
  induction rest as [|layer rest IH];
    intros parent_id acc w w' acc' last_id seen H Hhex Hseen.
  - injection H as _ _ <-. cbn. now rewrite app_nil_r.
  - cbn [process_layers_loop] in H.
    apply bind_ok in H as (id & w1 & Hstep & H).
    cbn [chain_entries].
    pose proof (process_layer_effect _ _ _ _ _ _ _ Hstep)
      as (Hid & _ & Hdir & _ & src & Hsrc & Hfile).
    rewrite <- Hid.
    change (seen ++ (layer, id, parent_id) :: chain_entries id rest)%list
      with (seen ++ [(layer, id, parent_id)] ++ chain_entries id rest)%list.
    rewrite app_assoc. apply (IH _ _ _ _ _ _ _ H).
    + apply Forall_app. split; [exact Hhex|]. constructor; [|constructor].
      cbn. rewrite Hid. apply sha256_hexdigest.
    + apply Forall_app. split.
      * rewrite Forall_forall in *. intros e He.
        eapply settled_preserved; [now apply Hhex | now apply Hseen | exact Hstep].
      * constructor; [|constructor]. split; [exact Hdir|].
        exists src. split; [exact Hsrc | exact Hfile].
Qed.

(** After a successful [process_layers] every layer of the manifest is
    settled, with the ID and parent ID of the chain. *)
Lemma process_layers_settles (w w' : World) (content : Content) (last_id : string) :
  process_layers self layers config_content w = (Ok (content, last_id), w') ->
  Forall (layer_settled self layers config_content w')
         (chain_entries "" layers).
Proof.
  unfold process_layers. intros H.
  apply bind_ok in H as ([] & w1 & _ & H).
  apply bind_ok in H as ([acc lid] & w2 & Hloop & H).
  injection H as _ _ <-.
  apply (loop_settles _ _ _ _ _ _ _ [] Hloop); constructor.
Qed.

End AllLayers.

Section ChainFacts.

Context `{E : Externals}.

Lemma chain_entries_ids (rest : list Layer) (parent_id : string) :
  map (fun e => snd (fst e)) (chain_entries parent_id rest)
  = legacy_ids parent_id (map digest rest).
Proof.
  revert parent_id. induction rest as [|layer rest IH]; intros parent_id;
    [reflexivity|].
  cbn [chain_entries map legacy_ids fst snd]. now rewrite IH.
Qed.

Lemma last_any_default {A} (l : list A) (d d' : A) :
  l <> [] -> last l d = last l d'.
Proof.
  induction l as [|x l IH]; [contradiction|]. intros _.
  destruct l as [|y l]; [reflexivity|].
  change (last (y :: l) d = last (y :: l) d'). now apply IH.
Qed.

(** The last entry of the chain is the last layer with the last ID. *)
Lemma chain_entries_last (rest : list Layer) (parent_id : string) (d : Layer) :
  rest <> [] ->
  exists par,
    In (last rest d, last (legacy_ids parent_id (map digest rest)) parent_id, par)
       (chain_entries parent_id rest).
Proof.
  revert parent_id. induction rest as [|layer rest IH]; [contradiction|].
  intros parent_id _. cbn [chain_entries map legacy_ids].
  set (id := sha256_hex (parent_id ++ nl ++ digest layer ++ nl)).
  rewrite (last_cons_default (legacy_ids id (map digest rest)) id parent_id).
  destruct rest as [|layer' rest].
  - exists parent_id. now left.
  - destruct (IH id) as (par & Hin); [discriminate|].
    exists par. right.
    change (last (layer :: layer' :: rest) d) with (last (layer' :: rest) d).
    exact Hin.
Qed.

End ChainFacts.

(** ** The sample libraries obey the laws *)

Section SampleLaws.

Lemma hex_digit_is_hex (n : N) : is_hex_char (Sample.hex_digit n) = true.
Proof.
  destruct n as [|p]; [reflexivity|].
  do 4 (destruct p as [p|p|]; try reflexivity).
Qed.

Lemma hex_digits_length (n : nat) (h : N) :
  String.length (Sample.hex_digits n h) = n.
Proof.
  revert h. induction n as [|n IH]; intros h; [reflexivity|].
  cbn. now rewrite IH.
Qed.

Lemma hex_digits_hex (n : nat) (h : N) :
  forallb is_hex_char (list_ascii_of_string (Sample.hex_digits n h)) = true.
Proof.
  revert h. induction n as [|n IH]; intros h; [reflexivity|].
  cbn [Sample.hex_digits list_ascii_of_string forallb].
  now rewrite hex_digit_is_hex, IH.
Qed.

Lemma digest64_hexdigest (s : string) : is_hexdigest (Sample.digest64 s) = true.
Proof.
  unfold is_hexdigest, Sample.digest64.
  now rewrite hex_digits_length, hex_digits_hex.
Qed.

Lemma demo_laws : ExternalsLaws Demo.externals.
Proof.
  split.
  - exact digest64_hexdigest.
  - vm_compute. reflexivity.
Qed.

End SampleLaws.

(** ** The [json] file of every layer *)

Section LayerJsonClaims.
Import PathFacts.

Context `{E : Externals} {L : ExternalsLaws E}.

Lemma settled_has_ids (self : Puller) (layers : list Layer)
    (config_content : string) (w : World) (e : Layer * string * string) :
  layer_settled self layers config_content w e ->
  json_has_ids self w e.
Proof.
  destruct e as [[layer id] parent_id]. intros [_ (src & Hsrc & Hfile)].
  cbn [fst snd] in *. exists (layer_json_data src id parent_id true).
  split; [exact Hfile|]. split; [apply layer_json_id|].
  apply layer_json_parent.
Qed.

Lemma settled_base_parent (self : Puller) (layers : list Layer)
    (config_content : string) (w : World) :
  Forall (layer_settled self layers config_content w) (chain_entries "" layers) ->
  base_layer_parent self layers config_content w.
Proof.
  intros H. destruct layers as [|base [|next rest]]; [exact I| |].
  - inversion H as [|e es [_ (src & Hsrc & Hfile)] _]; subst.
    cbn [fst snd] in *.
    unfold layer_json_text, PyStr.last_of in Hsrc. cbn [last] in Hsrc.
    rewrite String.eqb_refl in Hsrc.
    exists src, (layer_json_data src (layer_id_of "" (digest base)) "" true).
    split; [exact Hsrc|]. split; [exact Hfile|]. apply layer_json_base_parent.
  - intros Hne.
    inversion H as [|e es [_ (src & Hsrc & Hfile)] _]; subst.
    cbn [fst snd] in *.
    unfold layer_json_text, PyStr.last_of in Hsrc.
    change (last (base :: next :: rest) base) with (last (next :: rest) base)
      in Hsrc.
    apply String.eqb_neq in Hne. rewrite Hne in Hsrc.
    rewrite loads_dumps_empty_config in Hsrc. injection Hsrc as <-.
    exists (layer_json_data empty_config (layer_id_of "" (digest base)) "" true).
    split; [exact Hfile|]. now rewrite layer_json_base_parent.
Qed.

(** C6 (as the code has it).  After a successful [process_layers], the
    [json] file of every layer has an [id] entry equal to the layer's
    legacy ID, and the [json] file of every layer but the first has a
    [parent] entry equal to the ID of the layer before it.  No [parent]
    entry is added to the first layer: in an image of several layers whose
    base digest is not the top layer's, its file has none; in a one-layer
    image, where the only layer is built from the downloaded configuration,
    its file has the configuration's own [parent] entry, if any. *)
Theorem layer_json_ids (self : Puller) (layers : list Layer)
    (config_content : string) (w w' : World) (content : Content)
    (last_layer_id : string) :
  process_layers self layers config_content w
  = (Ok (content, last_layer_id), w') ->
  Forall (json_has_ids self w') (chain_entries "" layers)
  /\ chain_shape (chain_entries "" layers)
  /\ map (fun e => snd (fst e)) (chain_entries "" layers)
     = legacy_ids "" (map digest layers)
  /\ base_layer_parent self layers config_content w'.
Proof.
  intros H. apply process_layers_settles in H.
  split; [|split; [|split]].
  - eapply Forall_impl; [|exact H]. intros e. apply settled_has_ids.
  - destruct layers as [|layer rest]; cbn [chain_entries chain_shape]; [exact I|].
    split; [reflexivity|].
    apply chain_entries_parents, hex_not_empty, sha256_hexdigest.
  - apply chain_entries_ids.
  - now apply settled_base_parent.
Qed.

End LayerJsonClaims.

Lemma layer_json_ids_witness :
  match @process_layers Demo.externals Demo.puller Demo.layers
          (Sample.dumps Demo.config) (Demo.staged Demo.registry_ok) with
  | (Ok _, w') =>
      Forall (@json_has_ids Demo.externals Demo.puller w')
             (@chain_entries Demo.externals "" Demo.layers)
      /\ chain_shape (@chain_entries Demo.externals "" Demo.layers)
      /\ @base_layer_parent Demo.externals Demo.puller Demo.layers
           (Sample.dumps Demo.config) w'
  | _ => False
  end.
Proof.
  destruct (@process_layers Demo.externals Demo.puller Demo.layers
              (Sample.dumps Demo.config) (Demo.staged Demo.registry_ok))
    as [[[content last_layer_id]|e|c] w'] eqn:Hrun.
  - destruct (@layer_json_ids Demo.externals demo_laws _ _ _ _ _ _ _ Hrun)
      as (Hall & Hshape & _ & Hbase).
    split; [exact Hall|]. split; [exact Hshape | exact Hbase].
  - vm_compute in Hrun. discriminate Hrun.
  - vm_compute in Hrun. discriminate Hrun.
Defined.

(** C6, as stated, fails: a one-layer image whose configuration has a
    [parent] entry.  The only layer is the base layer, and its [json] file
    has the configuration's [parent] entry. *)
Lemma base_layer_keeps_config_parent :
  match @process_layers Demo.externals Demo.puller [mkLayer "sha256:aaa" []]
          (Sample.dumps (JObj [("parent", JStr "x")]))
          (Demo.staged Demo.registry_ok) with
  | (Ok (_, base_id), w') =>
      FS.lookup (json_path_of Demo.puller base_id) (fs w')
      = Some (File (Sample.dumps
                      (JObj [("parent", JStr "x"); ("id", JStr base_id)])))
      /\ Dict.get "parent" [("parent", JStr "x"); ("id", JStr base_id)]
         = Some (JStr "x")
  | _ => False
  end.
Proof. vm_compute. split; reflexivity. Qed.

Section TopLayerClaim.

Context `{E : Externals} {L : ExternalsLaws E}.

(** C4 (as the code has it).  The [json] file of the topmost layer is the
    downloaded configuration object without the keys [history], [rootfs]
    and [rootfS], compared exactly; every key that is none of these three
    nor [id] nor [parent] (which the assembler sets itself) is kept with
    its value, other spellings such as [History] or [ROOTFS] included. *)
Theorem top_layer_json_keys (self : Puller) (layers : list Layer)
    (config_content : string) (w w' : World) (content : Content)
    (last_layer_id : string) :
  process_layers self layers config_content w
  = (Ok (content, last_layer_id), w') ->
  layers <> [] ->
  exists cfg o,
    json_loads config_content = Some (JObj cfg)
    /\ FS.lookup (json_path_of self last_layer_id) (fs w')
       = Some (File (json_dumps (JObj o)))
    /\ (forall k, popped_key k -> Dict.get k o = None)
    /\ (forall k, ~ assembler_key k -> Dict.get k o = Dict.get k cfg).
Proof.
  intros H Hne.
  destruct (process_layers_returns _ _ _ _ _ _ _ H) as (_ & Hlast & _).
  apply process_layers_settles in H. rewrite Forall_forall in H.
  destruct layers as [|layer0 rest0] eqn:Hlayers; [contradiction|].
  rewrite <- Hlayers in *.
  destruct (chain_entries_last layers "" layer0 Hne) as (par & Hin).
  apply H in Hin as [_ (src & Hsrc & Hfile)]. cbn [fst snd] in *.
  rewrite <- Hlast in Hfile.
  unfold layer_json_text, PyStr.last_of in Hsrc.
  rewrite (last_any_default layers (last layers layer0) layer0 Hne) in Hsrc.
  rewrite String.eqb_refl in Hsrc.
  exists src, (layer_json_data src last_layer_id par true).
  split; [exact Hsrc|]. split; [exact Hfile|]. split.
  - intros k Hk. now apply layer_json_stripped.
  - intros k Hk. apply layer_json_kept; intros ->; apply Hk;
      unfold assembler_key, popped_key; tauto.
Qed.

End TopLayerClaim.

Lemma top_layer_json_keys_witness :
  match @process_layers Demo.externals Demo.puller Demo.layers
          (Sample.dumps Demo.config) (Demo.staged Demo.registry_ok) with
  | (Ok (_, top_id), w') =>
      exists cfg o,
        Sample.loads_in Demo.known (Sample.dumps Demo.config) = Some (JObj cfg)
        /\ FS.lookup (json_path_of Demo.puller top_id) (fs w')
           = Some (File (Sample.dumps (JObj o)))
        /\ (forall k, popped_key k -> Dict.get k o = None)
        /\ (forall k, ~ assembler_key k -> Dict.get k o = Dict.get k cfg)
  | _ => False
  end.
Proof.
  destruct (@process_layers Demo.externals Demo.puller Demo.layers
              (Sample.dumps Demo.config) (Demo.staged Demo.registry_ok))
    as [[[content top_id]|e|c] w'] eqn:Hrun.
  - apply (@top_layer_json_keys Demo.externals demo_laws _ _ _ _ _ _ _ Hrun).
    discriminate.
  - vm_compute in Hrun. discriminate Hrun.
  - vm_compute in Hrun. discriminate Hrun.
Defined.

(** C4, as stated, fails: a configuration with a key [History].  It equals
    [history] when case is ignored and is still in the topmost layer's
    [json] file; only the exact key [history] went. *)
Lemma top_layer_keeps_History :
  match @process_layers Demo.externals Demo.puller Demo.layers
          (Sample.dumps
             (JObj [("architecture", JStr "amd64"); ("history", JList []);
                    ("rootfs", JNull); ("History", JInt 1)]))
          (Demo.staged Demo.registry_ok) with
  | (Ok (_, top_id), w') =>
      FS.lookup (json_path_of Demo.puller top_id) (fs w')
      = Some (File (Sample.dumps
                      (JObj [("architecture", JStr "amd64");
                             ("History", JInt 1);
                             ("id", JStr top_id);
                             ("parent",
                              JStr (Sample.digest64 (nl ++ "sha256:aaa" ++ nl)))])))
      /\ PyStr.lower "History" = "history"
  | _ => False
  end.
Proof. vm_compute. split; reflexivity. Qed.

(** ** Which layer gets the configuration *)

(** C2, on a manifest whose two layers have the same blob digest: line 158
    compares digests, not positions, so the first layer is handed the
    downloaded configuration too.  Its [json] file is the configuration
    (without [history] and [rootfs]) with its [id]; it is not the
    placeholder. *)
Lemma duplicate_digest_layer_gets_config :
  match @process_layers Demo.externals Demo.puller
          [mkLayer "sha256:aaa" []; mkLayer "sha256:aaa" []]
          (Sample.dumps Demo.config) (Demo.staged Demo.registry_ok) with
  | (Ok _, w') =>
      let base_id := Sample.digest64 (nl ++ "sha256:aaa" ++ nl) in
      FS.lookup (json_path_of Demo.puller base_id) (fs w')
      = Some (File (Sample.dumps
                      (JObj [("architecture", JStr "amd64");
                             ("History", JInt 1);
                             ("id", JStr base_id)])))
      /\ FS.lookup (json_path_of Demo.puller base_id) (fs w')
         <> Some (File (Sample.dumps
                          (JObj (layer_json_data empty_config base_id "" true))))
  | _ => False
  end.
Proof. vm_compute. split; [reflexivity | discriminate]. Qed.

(** ** The manifest file *)

(** C5, on the two-layer sample image: what [create_image_files] writes to
    [manifest.json] is the dictionary [content] itself, an object with the
    keys [Config], [RepoTags] and [Layers], and not a one-element list
    holding that object. *)
Lemma manifest_json_is_a_bare_object :
  match (bind (@process_layers Demo.externals Demo.puller Demo.layers
                 (Sample.dumps Demo.config))
              (fun r => @create_image_files Demo.externals Demo.puller
                          (fst r) (snd r)))
          (Demo.staged Demo.registry_ok) with
  | (Ok _, w') =>
      let base_id := Sample.digest64 (nl ++ "sha256:aaa" ++ nl) in
      let top_id := Sample.digest64 (base_id ++ nl ++ "sha256:bbb" ++ nl) in
      let content :=
        JObj [("Config", JStr (top_id ++ ".json"));
              ("RepoTags", JList [JStr "busybox:1.0"]);
              ("Layers", JList [JStr (tar_entry base_id);
                                JStr (tar_entry top_id)])] in
      FS.lookup "tmp_busybox_1.0/manifest.json" (fs w')
      = Some (File (Sample.dumps content))
      /\ FS.lookup "tmp_busybox_1.0/manifest.json" (fs w')
         <> Some (File (Sample.dumps (JList [content])))
  | _ => False
  end.
Proof. vm_compute. split; [reflexivity | discriminate]. Qed.

(** ** Requests sent *)

Create HintDb quiet.

Section Requests.

Context `{E : Externals}.

Lemma net_unchanged_refl (w : World) : net_unchanged w w.
Proof. reflexivity. Qed.

Lemma net_unchanged_trans (a b c : World) :
  net_unchanged a b -> net_unchanged b c -> net_unchanged a c.
Proof. unfold net_unchanged. congruence. Qed.

Lemma quiet_print (s : string) : keeps net_unchanged (print s).
Proof. intros w r w' H. injection H as _ <-. reflexivity. Qed.

Lemma quiet_eprint (s : string) : keeps net_unchanged (eprint s).
Proof. intros w r w' H. injection H as _ <-. reflexivity. Qed.

Lemma quiet_read_file (p : string) : keeps net_unchanged (read_file p).
Proof.
  intros w r w' H. unfold read_file in H. run_inv H;
    injection H as _ <-; reflexivity.
Qed.

Lemma quiet_write_file (p c : string) : keeps net_unchanged (write_file p c).
Proof.
  intros w r w' H. unfold write_file in H. run_inv H;
    injection H as _ <-; reflexivity.
Qed.

Lemma quiet_remove_file (p : string) : keeps net_unchanged (remove_file p).
Proof.
  intros w r w' H. unfold remove_file in H. run_inv H;
    injection H as _ <-; reflexivity.
Qed.

Lemma quiet_raise_for_status (r : Response) :
  keeps net_unchanged (raise_for_status r).
Proof.
  unfold raise_for_status. destruct (_ && _).
  - apply keeps_raise, net_unchanged_refl.
  - apply keeps_ret, net_unchanged_refl.
Qed.

Lemma quiet_response_json (r : Response) : keeps net_unchanged (response_json r).
Proof.
  unfold response_json. destruct (json_loads _).
  - apply keeps_ret, net_unchanged_refl.
  - apply keeps_raise, net_unchanged_refl.
Qed.

#[local] Hint Resolve net_unchanged_refl quiet_print quiet_eprint quiet_read_file
  quiet_write_file quiet_remove_file quiet_raise_for_status
  quiet_response_json : quiet.

Ltac quiet_steps :=
  repeat first
    [ solve [auto with quiet nocore]
    | apply keeps_ret, net_unchanged_refl
    | apply keeps_raise, net_unchanged_refl
    | apply keeps_sys_exit, net_unchanged_refl
    | apply keeps_lift, net_unchanged_refl
    | apply keeps_bind; [exact net_unchanged_trans | | intro] ].

Lemma quiet_decompress_layer (dir : string) :
  keeps net_unchanged (decompress_layer dir).
Proof.
  unfold decompress_layer. quiet_steps. destruct (gunzip _); quiet_steps.
Qed.

Lemma requests_get_net (u : string) (h : list (string * string)) (s : bool)
    (w w' : World) (r : result Response) :
  requests_get u h s w = (r, w') -> net w' = (net w ++ [mkRequest u h s])%list.
Proof.
  unfold requests_get. intros H. run_inv H; injection H as _ <-; reflexivity.
Qed.

(** [get_auth_token] sends the token request and nothing else. *)
Lemma get_auth_token_net (self : Puller) (content_type : string)
    (w w' : World) (r : result (list (string * string))) :
  get_auth_token self content_type w = (r, w') ->
  net w' = (net w ++ [token_request self])%list.
Proof.
  unfold get_auth_token. intros H.
  apply bind_cases in H as [(resp & w1 & Hget & H)|[(e & Hget & _)|(c & Hget & _)]];
    apply requests_get_net in Hget; [|exact Hget|exact Hget].
  assert (Hq : net_unchanged w1 w').
  { revert H. apply keeps_bind; [exact net_unchanged_trans | | intro];
      quiet_steps. }
  unfold net_unchanged in Hq. now rewrite Hq.
Qed.

End Requests.

#[export] Hint Resolve net_unchanged_refl quiet_print quiet_eprint quiet_read_file
  quiet_write_file quiet_remove_file quiet_raise_for_status
  quiet_response_json quiet_decompress_layer : quiet.

Section BlobDownload.

Context `{E : Externals}.

(** One call of [download_with_progress] sends the token request and then,
    if a token came back, one streaming request to the given URL. *)
Lemma download_with_progress_net (self : Puller) (u p description : string)
    (w w' : World) (r : result unit) :
  download_with_progress self u p description w = (r, w') ->
  net w' = (net w ++ [token_request self])%list
  \/ exists h, net w' = (net w ++ [token_request self; mkRequest u h true])%list.
Proof.
  unfold download_with_progress. intros H.
  apply bind_cases in H as [(hdrs & wa & Htok & H)|[(e & Htok & _)|(c & Htok & _)]];
    apply get_auth_token_net in Htok; [|now left|now left].
  right. exists hdrs.
  apply bind_cases in H as [(resp & w1 & Hget & H)|[(e & Hget & _)|(c & Hget & _)]];
    apply requests_get_net in Hget; rewrite Htok, <- app_assoc in Hget;
    [|exact Hget|exact Hget].
  assert (Hq : net_unchanged w1 w').
  { revert H. apply keeps_bind; [exact net_unchanged_trans | | intro].
    - auto with quiet nocore.
    - apply keeps_bind; [exact net_unchanged_trans | | intro].
      + destruct (header_get _ _) as [s|]; [destruct (py_int s)|].
        * apply keeps_ret, net_unchanged_refl.
        * apply keeps_raise, net_unchanged_refl.
        * apply keeps_ret, net_unchanged_refl.
      + apply keeps_bind; [exact net_unchanged_trans | | intro];
          auto with quiet nocore. }
  unfold net_unchanged in Hq. now rewrite Hq.
Qed.

(** An HTTP-level failure: a token was obtained and the registry answered
    the blob request with a 4xx or 5xx status. *)
Lemma primary_http_failure (self : Puller) (u p description : string)
    (hdrs : list (string * string)) (resp : Response) (w wa w1 : World) :
  get_auth_token self manifest_v2 w = (Ok hdrs, wa) ->
  requests_get u hdrs true wa = (Ok resp, w1) ->
  (400 <= status_code resp < 600)%Z ->
  download_with_progress self u p description w = (Raise HTTPError, w1).
Proof.
  intros Htok Hget Hst. unfold download_with_progress.
  rewrite (bind_step _ _ _ _ _ Htok), (bind_step _ _ _ _ _ Hget).
  apply bind_raise. unfold raise_for_status.
  replace ((400 <=? status_code resp)%Z && (status_code resp <? 600)%Z)
    with true; [reflexivity|].
  symmetry. apply andb_true_iff. split; [apply Z.leb_le | apply Z.ltb_lt]; lia.
Qed.

(** C7.  When the primary blob URL fails at the HTTP level,
    [download_layer] with an empty fallback list re-raises the failure, and
    with a non-empty list it makes one further attempt, against the first
    fallback URL only: the rest of the call is that attempt followed by the
    decompression, so a failure of the attempt is the failure of the call,
    and after the failed primary request the call sends the token request of
    the attempt and at most one blob request, to [fallback_urls[0]]. *)
Theorem blob_download_fallback (self : Puller) (blob_digest layer_dir : string)
    (hdrs : list (string * string)) (resp : Response) (w wa w1 : World) :
  get_auth_token self manifest_v2 w = (Ok hdrs, wa) ->
  requests_get (blob_url self blob_digest) hdrs true wa = (Ok resp, w1) ->
  (400 <= status_code resp < 600)%Z ->
  download_layer self blob_digest layer_dir [] w = (Raise HTTPError, w1)
  /\ forall (u0 : string) (others : list string),
       let retry :=
         download_with_progress self u0
           (os_path_join layer_dir "layer_gzip.tar")
           (layer_label blob_digest ++ " (fallback)") in
       download_layer self blob_digest layer_dir (u0 :: others) w
       = bind retry (fun _ => decompress_layer layer_dir) w1
       /\ (forall e w2, retry w1 = (Raise e, w2) ->
             download_layer self blob_digest layer_dir (u0 :: others) w
             = (Raise e, w2))
       /\ (forall r w',
             download_layer self blob_digest layer_dir (u0 :: others) w = (r, w') ->
             net w' = (net w1 ++ [token_request self])%list
             \/ exists h,
                 net w' = (net w1 ++ [token_request self;
                                      mkRequest u0 h true])%list).
Proof.
  intros Htok Hget Hst.
  pose proof (primary_http_failure self _
                (os_path_join layer_dir "layer_gzip.tar")
                (layer_label blob_digest) _ _ _ _ _ Htok Hget Hst) as Hprimary.
  split.
  - unfold download_layer, bind, try_except. rewrite Hprimary. reflexivity.
  - intros u0 others retry.
    assert (Heq : download_layer self blob_digest layer_dir (u0 :: others) w
                  = bind retry (fun _ => decompress_layer layer_dir) w1).
    { unfold download_layer, bind, try_except. rewrite Hprimary. reflexivity. }
    split; [exact Heq|]. split.
    + intros e w2 Hretry. rewrite Heq. now apply bind_raise.
    + intros r w' H. rewrite Heq in H.
      apply bind_cases in H
        as [([] & w2 & Hretry & H)|[(e & Hretry & _)|(c & Hretry & _)]];
        apply download_with_progress_net in Hretry; [|exact Hretry|exact Hretry].
      apply quiet_decompress_layer in H. unfold net_unchanged in H.
      now rewrite H.
Qed.

End BlobDownload.

Lemma blob_download_fallback_witness :
  @download_layer Demo.externals Demo.puller "sha256:aaa" "tmp_busybox_1.0/L"
    [] Demo.layer_ready
  = (Raise HTTPError, Demo.after_refusal)
  /\ @download_layer Demo.externals Demo.puller "sha256:aaa" "tmp_busybox_1.0/L"
       ["https://mirror.example/aaa"; "https://broken.example/aaa"]
       Demo.layer_ready
     = bind (@download_with_progress Demo.externals Demo.puller
               "https://mirror.example/aaa"
               "tmp_busybox_1.0/L/layer_gzip.tar"
               (layer_label "sha256:aaa" ++ " (fallback)"))
            (fun _ => @decompress_layer Demo.externals "tmp_busybox_1.0/L")
            Demo.after_refusal.
Proof.
  assert (Htok : @get_auth_token Demo.externals Demo.puller manifest_v2
                   Demo.layer_ready
                 = (Ok Demo.token_headers, Demo.after_token))
    by (vm_compute; reflexivity).
  assert (Hget : requests_get (blob_url Demo.puller "sha256:aaa")
                   Demo.token_headers true Demo.after_token
                 = (Ok Demo.denied, Demo.after_refusal))
    by (vm_compute; reflexivity).
  assert (Hst : (400 <= status_code Demo.denied < 600)%Z) by (cbn; lia).
  destruct (@blob_download_fallback Demo.externals Demo.puller "sha256:aaa"
              "tmp_busybox_1.0/L" _ _ _ _ _ Htok Hget Hst) as [Hempty Hretry].
  split; [exact Hempty|].
  exact (proj1 (Hretry "https://mirror.example/aaa"
                  ["https://broken.example/aaa"])).
Defined.

(** The sample run of the fallback: the mirror serves the blob, the second
    fallback URL is never asked. *)
Example fallback_run :
  let r := @download_layer Demo.externals Demo.puller "sha256:aaa"
             "tmp_busybox_1.0/L"
             ["https://mirror.example/aaa"; "https://broken.example/aaa"]
             Demo.layer_ready in
  fst r = Ok tt
  /\ map url (net (snd r))
     = [token_url Demo.puller; blob_url Demo.puller "sha256:aaa";
        token_url Demo.puller; "https://mirror.example/aaa"]
  /\ FS.lookup "tmp_busybox_1.0/L/layer.tar" (fs (snd r)) = Some (File "AAA").
Proof. vm_compute. repeat split. Qed.

(** A failing fallback is final: the second fallback URL is not tried. *)
Example fallback_failure_run :
  let r := @download_layer Demo.externals Demo.puller "sha256:aaa"
             "tmp_busybox_1.0/L"
             ["https://broken.example/aaa"; "https://mirror.example/aaa"]
             Demo.layer_ready in
  fst r = Raise HTTPError
  /\ map url (net (snd r))
     = [token_url Demo.puller; blob_url Demo.puller "sha256:aaa";
        token_url Demo.puller; "https://broken.example/aaa"].
Proof. vm_compute. repeat split. Qed.

(** ** How calls end *)

Create HintDb endings.

Section Endings.

Context `{E : Externals}.

Lemma no_exit_ret {A} (a : A) : ensures no_exit (ret a).
Proof. intros w r w' H. injection H as <- _. exact I. Qed.

Lemma no_exit_raise {A} (e : exn) : ensures no_exit (@raise A e).
Proof. intros w r w' H. injection H as <- _. exact I. Qed.

Lemma no_exit_bind {A B} (m : M A) (k : A -> M B) :
  ensures no_exit m -> (forall a, ensures no_exit (k a)) ->
  ensures no_exit (bind m k).
Proof.
  intros Hm Hk w r w' H.
  apply bind_cases in H as [(a & w1 & _ & H)|[(e & _ & ->)|(c & H & _)]].
  - exact (Hk a _ _ _ H).
  - exact I.
  - destruct (Hm _ _ _ H).
Qed.

Lemma no_exit_print (s : string) : ensures no_exit (print s).
Proof. intros w r w' H. injection H as <- _. exact I. Qed.

Lemma no_exit_requests_get (u : string) (h : list (string * string)) (s : bool) :
  ensures no_exit (requests_get u h s).
Proof.
  intros w r w' H. unfold requests_get in H.
  run_inv H; injection H as <- _; exact I.
Qed.

Lemma no_exit_response_json (r : Response) : ensures no_exit (response_json r).
Proof.
  unfold response_json. destruct (json_loads _);
    [apply no_exit_ret | apply no_exit_raise].
Qed.

Lemma no_exit_getitem (v : json) (k : string) : ensures no_exit (lift (getitem v k)).
Proof.
  intros w r w' H. injection H as <- _.
  destruct v as [| | | | | |o]; try exact I.
  cbn. now destruct (Dict.get k o).
Qed.

Lemma no_exit_py_iter (v : json) : ensures no_exit (lift (py_iter v)).
Proof. intros w r w' H. injection H as <- _. now destruct v. Qed.

Lemma no_exit_py_items (v : json) : ensures no_exit (lift (py_items v)).
Proof. intros w r w' H. injection H as <- _. now destruct v. Qed.

#[local] Hint Resolve no_exit_print no_exit_requests_get no_exit_response_json
  no_exit_getitem no_exit_py_iter no_exit_py_items : endings.

Ltac ending_steps :=
  repeat first
    [ solve [auto with endings nocore]
    | apply no_exit_ret
    | apply no_exit_raise
    | apply no_exit_bind; [|intro] ].

Lemma no_exit_get_auth_token (self : Puller) (content_type : string) :
  ensures no_exit (get_auth_token self content_type).
Proof. unfold get_auth_token. ending_steps. Qed.

Lemma no_exit_print_manifest_entries (l : list json) :
  ensures no_exit (print_manifest_entries l).
Proof.
  induction l as [|m l IH]; cbn [print_manifest_entries].
  - ending_steps.
  - unfold print_manifest_entry. ending_steps.
Qed.

#[local] Hint Resolve no_exit_get_auth_token no_exit_print_manifest_entries
  : endings.

(** A call that cannot exit, followed by calls that do not return, does
    not return. *)
Lemma never_returns_bind {A B} (m : M A) (k : A -> M B) :
  ensures no_exit m -> (forall a, ensures raises_or_exits_1 (k a)) ->
  ensures raises_or_exits_1 (bind m k).
Proof.
  intros Hm Hk w r w' H.
  apply bind_cases in H as [(a & w1 & _ & H)|[(e & _ & ->)|(c & H & _)]].
  - exact (Hk a _ _ _ H).
  - exact I.
  - destruct (Hm _ _ _ H).
Qed.

(** [handle_manifest_error] does not return to its caller. *)
Lemma handle_manifest_error_never_returns (self : Puller) (response : Response) :
  ensures raises_or_exits_1 (handle_manifest_error self response).
Proof.
  unfold handle_manifest_error.
  repeat (apply never_returns_bind; [solve [ending_steps] | intro]).
  apply never_returns_bind; [|intro].
  - destruct (status_code _ =? 200)%Z; ending_steps.
  - intros w r w' H. injection H as <- _. reflexivity.
Qed.

End Endings.

(** ** The manifest request *)

Section ManifestFailure.

Context `{E : Externals}.

Lemma no_file_written_refl (w : World) : no_file_written w w.
Proof. intros q c H. exact H. Qed.

Lemma no_file_written_trans (a b c : World) :
  no_file_written a b -> no_file_written b c -> no_file_written a c.
Proof. intros Hab Hbc q x H. apply Hab, Hbc, H. Qed.

Lemma no_file_written_unchanged (w w' : World) :
  fs_unchanged w w' -> no_file_written w w'.
Proof. intros Hfs q c. now rewrite Hfs. Qed.

Lemma rmtree_no_file (p : string) : keeps no_file_written (rmtree p).
Proof.
  intros w r w' H q c. unfold rmtree in H.
  run_inv H; injection H as _ <-; try exact (fun x => x).
  cbn [fs with_fs]. rewrite FSFacts.lookup_rmtree.
  now destruct (FS.under p q).
Qed.

Lemma mkdir_no_file (p : string) : keeps no_file_written (mkdir p).
Proof.
  intros w r w' H q c. unfold mkdir in H.
  run_inv H; injection H as _ <-; try exact (fun x => x).
  cbn [fs with_fs]. destruct (String.eqb q p) eqn:Hq.
  - apply String.eqb_eq in Hq. subst q.
    rewrite FSFacts.lookup_set_same. discriminate.
  - rewrite FSFacts.lookup_set_other; [exact (fun x => x)|].
    intros ->. now rewrite String.eqb_refl in Hq.
Qed.

(** [create_image_directory] removes a tree and makes a directory: it
    writes no file. *)
Lemma create_image_directory_no_file (self : Puller) :
  keeps no_file_written (create_image_directory self).
Proof.
  unfold create_image_directory.
  apply keeps_bind; [exact no_file_written_trans | | intros present].
  { intros w r w' H. apply no_file_written_unchanged.
    exact (unchanged_path_exists _ _ _ _ H). }
  apply keeps_bind; [exact no_file_written_trans | | intros _].
  { destruct present; [apply rmtree_no_file|apply keeps_ret, no_file_written_refl]. }
  apply keeps_bind; [exact no_file_written_trans | apply mkdir_no_file | intros _].
  apply keeps_bind; [exact no_file_written_trans | | intros _].
  { intros w r w' H. apply no_file_written_unchanged.
    exact (unchanged_print _ _ _ _ H). }
  apply keeps_ret, no_file_written_refl.
Qed.

Lemma with_stdout_app (a b : list string) (w : World) :
  with_stdout (stdout (with_stdout a w) ++ b)%list (with_stdout a w)
  = with_stdout (a ++ b)%list w.
Proof. reflexivity. Qed.

(** Lines 98-99 leave the world [reported]. *)
Lemma handle_manifest_error_reports (self : Puller) (response : Response)
    (w : World) :
  handle_manifest_error self response w
  = (hdrs <- get_auth_token self manifest_list_v2 ;;
     response2 <- requests_get (manifest_url self) hdrs false ;;
     (if (status_code response2 =? 200)%Z then
        print manifests_found_message ;;
        body <- response_json response2 ;;
        manifests <- lift (getitem body "manifests") ;;
        entries <- lift (py_iter manifests) ;;
        print_manifest_entries entries
      else ret tt) ;;
     sys_exit 1) (reported self response w).
Proof.
  unfold handle_manifest_error, reported.
  unfold bind at 1. unfold print at 1. unfold bind at 1. unfold print at 1.
  rewrite with_stdout_app, <- app_assoc. reflexivity.
Qed.

Lemma print_manifest_entry_ok (m : json) (line : string) (w : World) :
  manifest_line m = Some line ->
  print_manifest_entry m w = (Ok tt, with_stdout (stdout w ++ [line])%list w).
Proof.
  unfold manifest_line, print_manifest_entry. intros H.
  destruct (getitem m "platform") as [[| | | | | |kvs]|e|c]; try discriminate H.
  destruct (getitem m "digest") as [d|e|c]; try discriminate H.
  injection H as <-. reflexivity.
Qed.

Lemma print_manifest_entries_ok (entries : list json) :
  forall (lines : list string) (w : World),
    map manifest_line entries = map Some lines ->
    print_manifest_entries entries w
    = (Ok tt, with_stdout (stdout w ++ lines)%list w).
Proof.
  induction entries as [|m entries IH]; intros lines w H.
  - destruct lines; [|discriminate]. destruct w. cbn.
    unfold ret, with_stdout. cbn. now rewrite app_nil_r.
  - destruct lines as [|line lines]; [discriminate|].
    cbn [map] in H. injection H as Hm H.
    cbn [print_manifest_entries].
    rewrite (bind_step _ _ _ _ _ (print_manifest_entry_ok _ _ w Hm)).
    rewrite (IH lines _ H), with_stdout_app, <- app_assoc. reflexivity.
Qed.

(** The exit status of the process follows the outcome of [pull]. *)
Lemma exit_status_of_pull (argv0 reference : string) (w : World) :
  exit_status [argv0; reference] w
  = match pull (init_puller reference) w with
    | (Ok _, w') => (0%Z, w')
    | (Raise e, w') =>
        (1%Z, with_stderr (stderr w' ++ [("Error: " ++ exn_str e)%string])%list w')
    | (SysExit c, w') => (c, w')
    end.
Proof.
  unfold exit_status, main, try_except, bind.
  destruct (pull (init_puller reference) w) as [[name|e|c] w']; reflexivity.
Qed.

(** [fetch_manifest] on a status other than 200 ends as
    [handle_manifest_error] does. *)
Lemma fetch_manifest_failure (self : Puller) (hdrs : list (string * string))
    (resp : Response) (w wc wd : World) :
  get_auth_token self manifest_v2 w = (Ok hdrs, wc) ->
  requests_get (manifest_url self) hdrs false wc = (Ok resp, wd) ->
  status_code resp <> 200%Z ->
  forall r w', handle_manifest_error self resp wd = (r, w') ->
    match r with
    | Ok _ => False
    | Raise e => fetch_manifest self w = (Raise e, w')
    | SysExit c => c = 1%Z /\ fetch_manifest self w = (SysExit 1, w')
    end.
Proof.
  intros Htok Hget Hst r w' Hh.
  pose proof (handle_manifest_error_never_returns _ _ _ _ _ Hh) as Hr.
  unfold fetch_manifest.
  rewrite (bind_step _ _ _ _ _ Htok), (bind_step _ _ _ _ _ Hget).
  apply Z.eqb_neq in Hst. rewrite Hst. cbn [negb].
  destruct r as [a|e|c]; [destruct Hr| |].
  - now apply bind_raise.
  - cbn in Hr. subst c. split; [reflexivity|]. now apply bind_exit.
Qed.

End ManifestFailure.

Section ManifestClaims.

Context `{E : Externals}.

(** The first three steps of [pull] (lines 245-247) and the failed
    manifest request, as hypotheses of the two claims below. *)
Lemma pull_until_manifest_failure (reference : string) (p1 p2 p3 : Puller)
    (hdrs : list (string * string)) (resp : Response)
    (w wa wb wc wd : World) :
  parse_image_reference (init_puller reference) = Ok p1 ->
  get_auth_endpoint p1 w = (Ok p2, wa) ->
  create_image_directory p2 wa = (Ok p3, wb) ->
  get_auth_token p3 manifest_v2 wb = (Ok hdrs, wc) ->
  requests_get (manifest_url p3) hdrs false wc = (Ok resp, wd) ->
  status_code resp <> 200%Z ->
  forall r w', handle_manifest_error p3 resp wd = (r, w') ->
    match r with
    | Ok _ => False
    | Raise e => pull (init_puller reference) w = (Raise e, w')
    | SysExit c => c = 1%Z /\ pull (init_puller reference) w = (SysExit 1, w')
    end.
Proof.
  intros Hparse Hauth Hdir Htok Hget Hst r w' Hh.
  pose proof (fetch_manifest_failure _ _ _ _ _ _ Htok Hget Hst _ _ Hh) as Hf.
  assert (Hpull : pull (init_puller reference) w
                  = bind (fetch_manifest p3)
                      (fun manifest =>
                         config <- lift (getitem manifest "config") ;;
                         config_digest_v <- lift (getitem config "digest") ;;
                         config_digest <- lift (as_str config_digest_v) ;;
                         config_file <- download_config p3 config_digest ;;
                         config_content <- read_file config_file ;;
                         layers_v <- lift (getitem manifest "layers") ;;
                         layers <- lift (decode_layers layers_v) ;;
                         r <- process_layers p3 layers config_content ;;
                         create_image_files p3 (fst r) (snd r) ;;
                         name <- create_image_tar p3 ;;
                         print (cr ++ "Docker image pulled: " ++ name) ;;
                         ret name) wb).
  { unfold pull.
    assert (Hl : lift (parse_image_reference (init_puller reference)) w
                 = (Ok p1, w)) by (unfold lift; now rewrite Hparse).
    rewrite (bind_step _ _ _ _ _ Hl), (bind_step _ _ _ _ _ Hauth),
      (bind_step _ _ _ _ _ Hdir). reflexivity. }
  rewrite Hpull. destruct r as [a|e|c]; [exact Hf| |].
  - now apply bind_raise.
  - destruct Hf as [-> Hf]. split; [reflexivity|]. now apply bind_exit.
Qed.

(** The file system a failed manifest request leaves behind holds no file
    that was not there when the run began. *)
Lemma manifest_failure_writes_nothing (p1 p2 p3 : Puller)
    (hdrs : list (string * string)) (resp : Response)
    (w wa wb wc wd : World) :
  get_auth_endpoint p1 w = (Ok p2, wa) ->
  create_image_directory p2 wa = (Ok p3, wb) ->
  get_auth_token p3 manifest_v2 wb = (Ok hdrs, wc) ->
  requests_get (manifest_url p3) hdrs false wc = (Ok resp, wd) ->
  forall r w', handle_manifest_error p3 resp wd = (r, w') ->
    no_file_written w w'.
Proof.
  intros Hauth Hdir Htok Hget r w' Hh.
  apply unchanged_get_auth_endpoint in Hauth.
  apply create_image_directory_no_file in Hdir.
  apply unchanged_get_auth_token in Htok.
  apply unchanged_requests_get in Hget.
  apply unchanged_handle_manifest_error in Hh.
  unfold fs_unchanged in *.
  intros q c Hq. rewrite Hh, Hget, Htok in Hq. apply Hdir in Hq.
  now rewrite Hauth in Hq.
Qed.

(** C8.  When the manifest request is answered with a status other than
    200 and the request with the manifest-list accept header with 200 and
    a manifest list, the run prints, after the notice, one line per entry
    of the list with its platform and digest, and ends by [SystemExit(1)]:
    the exit status is 1, nothing happens after the manifest-list response
    but the printing, and no file has been written. *)
Theorem manifest_list_found_is_terminal (argv0 reference : string)
    (p1 p2 p3 : Puller) (hdrs hdrs2 : list (string * string))
    (resp resp2 : Response) (body : json) (entries : list json)
    (lines : list string) (w wa wb wc wd we wf : World) :
  parse_image_reference (init_puller reference) = Ok p1 ->
  get_auth_endpoint p1 w = (Ok p2, wa) ->
  create_image_directory p2 wa = (Ok p3, wb) ->
  get_auth_token p3 manifest_v2 wb = (Ok hdrs, wc) ->
  requests_get (manifest_url p3) hdrs false wc = (Ok resp, wd) ->
  status_code resp <> 200%Z ->
  get_auth_token p3 manifest_list_v2 (reported p3 resp wd) = (Ok hdrs2, we) ->
  requests_get (manifest_url p3) hdrs2 false we = (Ok resp2, wf) ->
  status_code resp2 = 200%Z ->
  json_loads (content resp2) = Some body ->
  getitem body "manifests" = Ok (JList entries) ->
  map manifest_line entries = map Some lines ->
  let w' := with_stdout (stdout wf ++ manifests_found_message :: lines)%list wf in
  pull (init_puller reference) w = (SysExit 1, w')
  /\ exit_status [argv0; reference] w = (1%Z, w')
  /\ no_file_written w w'.
Proof.
  intros Hparse Hauth Hdir Htok Hget Hst Htok2 Hget2 Hst2 Hbody Hman Hlines w'.
  assert (Hh : handle_manifest_error p3 resp wd = (SysExit 1, w')).
  { rewrite handle_manifest_error_reports.
    rewrite (bind_step _ _ _ _ _ Htok2), (bind_step _ _ _ _ _ Hget2).
    rewrite Hst2. cbn [Z.eqb Pos.eqb].
    assert (Hlist :
      (print manifests_found_message ;;
       body <- response_json resp2 ;;
       manifests <- lift (getitem body "manifests") ;;
       entries <- lift (py_iter manifests) ;;
       print_manifest_entries entries) wf = (Ok tt, w')).
    { assert (Hp : print manifests_found_message wf
                   = (Ok tt, with_stdout
                               (stdout wf ++ [manifests_found_message])%list wf))
        by reflexivity.
      rewrite (bind_step _ _ _ _ _ Hp).
      unfold response_json. rewrite Hbody.
      unfold bind at 1. unfold ret at 1. unfold lift at 1. rewrite Hman.
      unfold bind at 1. unfold lift at 1. cbn [py_iter]. unfold bind.
      rewrite (print_manifest_entries_ok _ _ _ Hlines).
      rewrite with_stdout_app, <- app_assoc. reflexivity. }
    rewrite (bind_step _ _ _ _ _ Hlist). reflexivity. }
  pose proof (pull_until_manifest_failure _ _ _ _ _ _ _ _ _ _ _
                Hparse Hauth Hdir Htok Hget Hst _ _ Hh) as [_ Hpull].
  split; [exact Hpull|]. split.
  - rewrite exit_status_of_pull, Hpull. reflexivity.
  - exact (manifest_failure_writes_nothing _ _ _ _ _ _ _ _ _ _
             Hauth Hdir Htok Hget _ _ Hh).
Qed.

End ManifestClaims.

(** The sample registry answers the manifest request with 404 and the
    manifest-list request with the two-platform list. *)
Lemma manifest_list_found_is_terminal_witness :
  let r := @exit_status Demo.externals ["docker_pull.py"; "busybox:1.0"]
             (Demo.fresh (Demo.registry_with 404 200 200
                            (Sample.dumps Demo.config))) in
  fst r = 1%Z
  /\ skipn 3 (stdout (snd r))
     = [manifests_found_message;
        "architecture: amd64, os: linux, digest: sha256:111";
        "architecture: arm64, os: linux, digest: sha256:222"]
  /\ fs (snd r) = [("tmp_busybox_1.0", Dir)].
Proof.
  edestruct (@manifest_list_found_is_terminal Demo.externals
               "docker_pull.py" "busybox:1.0")
    with (lines := ["architecture: amd64, os: linux, digest: sha256:111";
                    "architecture: arm64, os: linux, digest: sha256:222"])
         (w := Demo.fresh (Demo.registry_with 404 200 200
                             (Sample.dumps Demo.config)))
    as (Hpull & Hexit & Hnofile).
  - lazy. reflexivity.
  - lazy. reflexivity.
  - lazy. reflexivity.
  - lazy. reflexivity.
  - lazy. reflexivity.
  - lazy. discriminate.
  - lazy. reflexivity.
  - lazy. reflexivity.
  - lazy. reflexivity.
  - lazy. reflexivity.
  - lazy. reflexivity.
  - lazy. reflexivity.
  - cbv zeta. rewrite Hexit. lazy. repeat split.
Defined.

(** C8, as stated, fails: the request with the manifest-list accept
    header is answered with status 200 and a list whose entry has a
    [digest] but no [platform].  After the notice no line is printed for
    the entry: [manifest["platform"]] raises, the run ends through the
    handler of [main] with the error on standard error, and the exit
    status is 1. *)
Lemma manifest_list_entry_without_platform :
  let listing :=
    JObj [("manifests", JList [JObj [("digest", JStr "sha256:111")]])] in
  let libraries := Sample.externals [Demo.token_body; listing] in
  let registry := fun (log : list Request) (rq : Request) =>
    if String.eqb (url rq) Demo.hub then Some (mkResponse 200 [] "")
    else if String.prefix "https://auth.docker.io/token" (url rq)
    then Some (mkResponse 200 [] (Sample.dumps Demo.token_body))
    else if String.eqb (Demo.accept rq) manifest_list_v2
    then Some (mkResponse 200 [] (Sample.dumps listing))
    else Some (mkResponse 404 [] "not found") in
  let run := @exit_status libraries ["docker_pull.py"; "busybox:1.0"]
               (Demo.fresh registry) in
  fst run = 1%Z
  /\ stdout (snd run)
     = ["Creating image structure in: tmp_busybox_1.0";
        "[-] Cannot fetch manifest for library/busybox [HTTP 404]";
        "b'not found'"; manifests_found_message]
  /\ stderr (snd run) = ["Error: KeyError"].
Proof. vm_compute. repeat split. Qed.

Section ManifestExit.

Context `{E : Externals}.

Lemma stdout_unchanged_trans (a b c : World) :
  stdout_unchanged a b -> stdout_unchanged b c -> stdout_unchanged a c.
Proof. unfold stdout_unchanged. congruence. Qed.

Lemma silent_requests_get (u : string) (h : list (string * string)) (s : bool) :
  keeps stdout_unchanged (requests_get u h s).
Proof.
  intros w r w' H. unfold requests_get in H.
  run_inv H; injection H as _ <-; reflexivity.
Qed.

Lemma silent_get_auth_token (self : Puller) (content_type : string) :
  keeps stdout_unchanged (get_auth_token self content_type).
Proof.
  unfold get_auth_token.
  apply keeps_bind; [exact stdout_unchanged_trans | apply silent_requests_get
                    | intros resp].
  apply keeps_bind; [exact stdout_unchanged_trans | | intros body].
  { unfold response_json. destruct (json_loads _).
    - apply keeps_ret. reflexivity.
    - apply keeps_raise. reflexivity. }
  apply keeps_bind; [exact stdout_unchanged_trans | | intros token].
  - apply keeps_lift. reflexivity.
  - apply keeps_ret. reflexivity.
Qed.

(** C10.  [handle_manifest_error] never returns to its caller: it ends by
    [SystemExit(1)] or by an exception.  Whenever the manifest request is
    answered with a status other than 200 the process ends with exit
    status 1; and when the manifest-list request is answered with a status
    other than 200 too, the run ends by [SystemExit(1)] (no exception
    reaches the handler of [main]) having printed the two lines of the
    failure report and no platform digest. *)
Theorem manifest_failure_exits_1 (argv0 reference : string)
    (p1 p2 p3 : Puller) (hdrs : list (string * string)) (resp : Response)
    (w wa wb wc wd : World) :
  parse_image_reference (init_puller reference) = Ok p1 ->
  get_auth_endpoint p1 w = (Ok p2, wa) ->
  create_image_directory p2 wa = (Ok p3, wb) ->
  get_auth_token p3 manifest_v2 wb = (Ok hdrs, wc) ->
  requests_get (manifest_url p3) hdrs false wc = (Ok resp, wd) ->
  status_code resp <> 200%Z ->
  (forall self response v,
      raises_or_exits_1 (fst (handle_manifest_error self response v)))
  /\ fst (exit_status [argv0; reference] w) = 1%Z
  /\ forall (hdrs2 : list (string * string)) (resp2 : Response) (we wf : World),
       get_auth_token p3 manifest_list_v2 (reported p3 resp wd) = (Ok hdrs2, we) ->
       requests_get (manifest_url p3) hdrs2 false we = (Ok resp2, wf) ->
       status_code resp2 <> 200%Z ->
       handle_manifest_error p3 resp wd = (SysExit 1, wf)
       /\ pull (init_puller reference) w = (SysExit 1, wf)
       /\ exit_status [argv0; reference] w = (1%Z, wf)
       /\ stdout wf = (stdout wd ++ [cannot_fetch_message p3 resp;
                                     bytes_repr (content resp)])%list.
Proof.
  intros Hparse Hauth Hdir Htok Hget Hst. split; [|split].
  - intros self response v.
    destruct (handle_manifest_error self response v) as [r v'] eqn:Hh.
    exact (handle_manifest_error_never_returns _ _ _ _ _ Hh).
  - destruct (handle_manifest_error p3 resp wd) as [r w'] eqn:Hh.
    pose proof (pull_until_manifest_failure _ _ _ _ _ _ _ _ _ _ _
                  Hparse Hauth Hdir Htok Hget Hst _ _ Hh) as Hpull.
    rewrite exit_status_of_pull.
    destruct r as [a|e|c]; [destruct Hpull| |].
    + now rewrite Hpull.
    + destruct Hpull as [_ Hpull]. now rewrite Hpull.
  - intros hdrs2 resp2 we wf Htok2 Hget2 Hst2.
    assert (Hh : handle_manifest_error p3 resp wd = (SysExit 1, wf)).
    { rewrite handle_manifest_error_reports.
      rewrite (bind_step _ _ _ _ _ Htok2), (bind_step _ _ _ _ _ Hget2).
      apply Z.eqb_neq in Hst2. rewrite Hst2. reflexivity. }
    pose proof (pull_until_manifest_failure _ _ _ _ _ _ _ _ _ _ _
                  Hparse Hauth Hdir Htok Hget Hst _ _ Hh) as [_ Hpull].
    split; [exact Hh|]. split; [exact Hpull|]. split.
    + rewrite exit_status_of_pull, Hpull. reflexivity.
    + apply silent_get_auth_token in Htok2.
      apply silent_requests_get in Hget2.
      unfold stdout_unchanged in *. rewrite Hget2, Htok2. reflexivity.
Qed.

End ManifestExit.

(** The sample registry answers both the manifest request and the
    manifest-list request with 404. *)
Lemma manifest_failure_exits_1_witness :
  let r := @exit_status Demo.externals ["docker_pull.py"; "busybox:1.0"]
             (Demo.fresh (Demo.registry_with 404 404 200
                            (Sample.dumps Demo.config))) in
  fst r = 1%Z
  /\ List.length (stdout (snd r)) = 3
  /\ stderr (snd r) = [].
Proof.
  edestruct (@manifest_failure_exits_1 Demo.externals
               "docker_pull.py" "busybox:1.0")
    with (w := Demo.fresh (Demo.registry_with 404 404 200
                             (Sample.dumps Demo.config)))
    as (_ & Hexit & Hfail).
  - lazy. reflexivity.
  - lazy. reflexivity.
  - lazy. reflexivity.
  - lazy. reflexivity.
  - lazy. reflexivity.
  - lazy. discriminate.
  - cbv zeta. split; [exact Hexit|].
    edestruct Hfail as (_ & _ & Hstatus & _).
    + lazy. reflexivity.
    + lazy. reflexivity.
    + lazy. discriminate.
    + rewrite Hstatus. lazy. split; reflexivity.
Defined.

(** ** Sample runs *)

Example parse_full :
  parse_tuple "host.tld/ns/img:tag" = Ok ("host.tld", "ns", "img", "tag").
Proof. reflexivity. Qed.

Example parse_digest :
  parse_tuple "img@sha256:abc"
  = Ok (default_registry, "library", "img", "sha256:abc").
Proof. reflexivity. Qed.

Example parse_port_registry :
  parse_tuple "localhost:5000/team/app/img:1.2"
  = Ok ("localhost:5000", "team/app", "img", "1.2").
Proof. reflexivity. Qed.

(** Two selectors in the last segment: the unpacking of line 35 fails. *)
Example parse_two_digests :
  parse_tuple "img@sha256:a@sha256:b" = Raise ValueError.
Proof. reflexivity. Qed.

(** A whole pull of the two-layer sample image: exit status 0, the archive
    is the only thing left, and every request goes to the token service or
    to the registry. *)
Example pull_sample_image :
  let r := @exit_status Demo.externals ["docker_pull.py"; "busybox:1.0"]
             (Demo.fresh Demo.registry_ok) in
  fst r = 0%Z
  /\ map fst (fs (snd r)) = ["library_busybox.tar"]
  /\ List.length (net (snd r)) = 9
  /\ stderr (snd r) = [].
Proof. vm_compute. repeat split. Qed.

(** A corrupt blob aborts the pull: exit status 1 and no archive. *)
Example pull_corrupt_blob :
  let r := @exit_status Demo.externals ["docker_pull.py"; "busybox:1.0"]
             (Demo.fresh
                (fun log rq =>
                   if String.eqb (url rq)
                        (Demo.hub ++ "library/busybox/blobs/sha256:bbb")
                   then Some (mkResponse 200 [] "not gzip")
                   else Demo.registry_ok log rq)) in
  fst r = 1%Z
  /\ FS.lookup "library_busybox.tar" (fs (snd r)) = None
  /\ stderr (snd r) = ["Error: OSError"].
Proof. vm_compute. repeat split. Qed.

(** * Further properties of the puller *)

(** ** References that do not parse *)

Section ReferenceErrors.
Import PyStr PyStrFacts.

(** Splitting at any occurrence of the separator splits the fields. *)
Lemma split_append (c : ascii) (a b : string) :
  split c (a ++ String c b) = (split c a ++ split c b)%list.
Proof.
  induction a as [|x a IH]; simpl.
  - now rewrite Ascii.eqb_refl.
  - destruct (Ascii.eqb x c).
    + now rewrite IH.
    + rewrite IH. destruct (split c a) as [|h t] eqn:Hs; [|reflexivity].
      now apply split_not_nil in Hs.
Qed.

Lemma split_length_pos (c : ascii) (s : string) : 1 <= List.length (split c s).
Proof.
  pose proof (split_not_nil c s). destruct (split c s); [contradiction|cbn; lia].
Qed.

(** Two separators make at least three fields, which [a, b = ...] refuses. *)
Lemma unpack2_three_fields (c : ascii) (a b d : string) :
  unpack2 (split c (a ++ String c (b ++ String c d))) = Raise ValueError.
Proof.
  rewrite !split_append.
  pose proof (split_length_pos c a). pose proof (split_length_pos c b).
  pose proof (split_length_pos c d).
  destruct (split c a) as [|a1 [|a2 ar]]; cbn in *; try lia;
    destruct (split c b) as [|b1 [|b2 br]]; cbn in *; try lia;
    destruct (split c d) as [|d1 dr]; cbn in *; try lia;
    try reflexivity; destruct ar; try reflexivity; destruct ar; reflexivity.
Qed.

Lemma parse_raises_on_last (self : Puller) (pre : list string) (last_part : string) :
  split "/" (image_reference self) = (pre ++ [last_part])%list ->
  (contains "@" last_part = true
   /\ unpack2 (split "@" last_part) = Raise ValueError)
  \/ (contains "@" last_part = false /\ contains ":" last_part = true
      /\ unpack2 (split ":" last_part) = Raise ValueError) ->
  parse_image_reference self = Raise ValueError.
Proof.
  intros Hparts H. unfold parse_image_reference.
  rewrite Hparts, last_snoc.
  destruct H as [[Hat Hun]|(Hat & Hcol & Hun)].
  - now rewrite Hat, Hun.
  - now rewrite Hat, Hcol, Hun.
Qed.

End ReferenceErrors.

Section ReferenceErrorProperties.
Import PyStr PyStrFacts.

Context `{E : Externals}.

(** A reference that does not parse ends the run at once. *)
Lemma parse_failure_exit (argv0 reference : string) (e : exn) (w : World) :
  parse_image_reference (init_puller reference) = Raise e ->
  exit_status [argv0; reference] w
  = (1%Z, with_stderr (stderr w ++ [("Error: " ++ exn_str e)%string])%list w).
Proof.
  intros H. rewrite exit_status_of_pull. unfold pull, bind, lift.
  now rewrite H.
Qed.

(** X1.  A last segment with two [@], or with no [@] and two [:], makes
    the unpacking of the split raise [ValueError], whatever path precedes
    it; for each of these references the run ends with exit status 1 having
    printed the error, without a request and without touching the file
    system. *)
Theorem repeated_selector_is_rejected (dir a b c argv0 : string) (w : World) :
  contains "/" a = false -> contains "/" b = false -> contains "/" c = false ->
  let twice := a ++ "@" ++ b ++ "@" ++ c in
  let colons := a ++ ":" ++ b ++ ":" ++ c in
  let rejected (reference : string) :=
    parse_image_reference (init_puller reference) = Raise ValueError
    /\ exit_status [argv0; reference] w
       = (1%Z, with_stderr
                 (stderr w ++ [("Error: " ++ exn_str ValueError)%string])%list w) in
  rejected twice
  /\ rejected (dir ++ "/" ++ twice)
  /\ (contains "@" a = false -> contains "@" b = false ->
      contains "@" c = false ->
      rejected colons /\ rejected (dir ++ "/" ++ colons)).
Proof.
  intros Ha Hb Hc twice colons rejected.
  assert (Hrej : forall reference,
             parse_image_reference (init_puller reference) = Raise ValueError ->
             rejected reference).
  { intros reference H. split; [exact H | now apply parse_failure_exit]. }
  assert (Hslash : forall x, Ascii.eqb x "/" = false ->
                     contains "/" (a ++ String x (b ++ String x c)) = false).
  { intros x Hx. rewrite contains_append, Ha. cbn [orb contains]. rewrite Hx.
    rewrite contains_append, Hb. cbn [orb contains]. now rewrite Hx. }
  assert (Htw : contains "@" twice = true
                /\ unpack2 (split "@" twice) = Raise ValueError).
  { split; [|apply unpack2_three_fields].
    unfold twice. rewrite contains_append. cbn [append].
    rewrite contains_cons_same. apply orb_true_r. }
  split; [|split].
  - apply Hrej, (parse_raises_on_last _ [] twice); [|now left].
    cbn [image_reference init_puller app]. apply split_absent.
    exact (Hslash "@"%char eq_refl).
  - apply Hrej, (parse_raises_on_last _ (split "/" dir) twice); [|now left].
    cbn [image_reference init_puller append]. apply split_last.
    exact (Hslash "@"%char eq_refl).
  - intros Ha' Hb' Hc'.
    assert (Hco : contains "@" colons = false /\ contains ":" colons = true
                  /\ unpack2 (split ":" colons) = Raise ValueError).
    { unfold colons. split; [|split; [|apply unpack2_three_fields]].
      - rewrite contains_append, Ha'. cbn [orb append contains].
        change (Ascii.eqb ":" "@") with false. cbn iota.
        rewrite contains_append, Hb'. cbn [orb contains].
        change (Ascii.eqb ":" "@") with false. exact Hc'.
      - rewrite contains_append. cbn [append].
        rewrite contains_cons_same. apply orb_true_r. }
    split.
    + apply Hrej, (parse_raises_on_last _ [] colons); [|now right].
      cbn [image_reference init_puller app]. apply split_absent.
      exact (Hslash ":"%char eq_refl).
    + apply Hrej, (parse_raises_on_last _ (split "/" dir) colons); [|now right].
      cbn [image_reference init_puller append]. apply split_last.
      exact (Hslash ":"%char eq_refl).
Qed.

(** X2.  A reference that gives both a tag and a digest is split on [@]
    alone (line 34 is tried first): the tag stays in the image name, and the
    manifest is asked for under that name. *)
Theorem tag_and_digest_reference (i t d : string) :
  contains "/" i = false -> contains "/" t = false -> contains "/" d = false ->
  contains "@" i = false -> contains "@" t = false -> contains "@" d = false ->
  exists p,
    parse_image_reference (init_puller (i ++ ":" ++ t ++ "@" ++ d)) = Ok p
    /\ img p = i ++ ":" ++ t /\ tag p = d
    /\ registry p = default_registry /\ repo p = "library"
    /\ manifest_url p
       = "https://registry-1.docker.io/v2/library/" ++ i ++ ":" ++ t
         ++ "/manifests/" ++ d.
Proof.
  intros Hi Ht Hd Hi' Ht' Hd'.
  assert (Hname : contains "@" (i ++ ":" ++ t) = false).
  { rewrite contains_append, Hi'. cbn. exact Ht'. }
  assert (Hname' : contains "/" (i ++ ":" ++ t) = false).
  { rewrite contains_append, Hi. cbn. exact Ht. }
  assert (Hsel : selects ((i ++ ":" ++ t) ++ "@" ++ d) (i ++ ":" ++ t) d)
    by now constructor.
  pose proof (selects_no_slash _ _ _ Hsel Hname' Hd) as Hl.
  rewrite append_assoc in Hsel, Hl. cbn [append] in Hsel, Hl.
  assert (Hsplit : split "/" (image_reference
                             (init_puller (i ++ ":" ++ t ++ "@" ++ d)))
                   = ([] ++ [(i ++ String ":" (t ++ String "@" d))%string])%list).
  { cbn [image_reference init_puller app append]. now apply split_absent. }
  eexists. split.
  - rewrite (parse_parts (init_puller (i ++ ":" ++ t ++ "@" ++ d)) _ _ _ _
               eq_refl Hsplit Hsel). reflexivity.
  - cbn. repeat split. now rewrite !append_assoc.
Qed.

End ReferenceErrorProperties.

Lemma repeated_selector_is_rejected_witness :
  parse_image_reference (init_puller "img@sha256:aa@sha256:bb") = Raise ValueError
  /\ fst (@exit_status Demo.externals ["docker_pull.py"; "img@sha256:aa@sha256:bb"]
            (Demo.fresh Demo.registry_ok)) = 1%Z
  /\ @exit_status Demo.externals ["docker_pull.py"; "host.tld/ns/img:1.0:rc1"]
       (Demo.fresh Demo.registry_ok)
     = (1%Z, with_stderr ["Error: ValueError"] (Demo.fresh Demo.registry_ok)).
Proof.
  destruct (@repeated_selector_is_rejected Demo.externals "host.tld/ns"
              "img" "sha256:aa" "sha256:bb" "docker_pull.py"
              (Demo.fresh Demo.registry_ok) eq_refl eq_refl eq_refl)
    as ((H1 & H2) & _).
  destruct (@repeated_selector_is_rejected Demo.externals "host.tld/ns"
              "img" "1.0" "rc1" "docker_pull.py"
              (Demo.fresh Demo.registry_ok) eq_refl eq_refl eq_refl)
    as (_ & _ & H3).
  split; [exact H1|]. split; [exact (f_equal fst H2)|].
  exact (proj2 (proj2 (H3 eq_refl eq_refl eq_refl))).
Defined.

Lemma tag_and_digest_reference_witness :
  exists p,
    parse_image_reference (init_puller "img:1.0@sha256:0a1b") = Ok p
    /\ img p = "img:1.0" /\ tag p = "sha256:0a1b".
Proof.
  destruct (tag_and_digest_reference "img" "1.0" "sha256:0a1b"
              eq_refl eq_refl eq_refl eq_refl eq_refl eq_refl)
    as (p & Hp & Hi & Ht & _).
  exists p. split; [exact Hp|]. split; [exact Hi | exact Ht].
Defined.

(** ** The authentication endpoint *)

Section AuthEndpoint.
Import PyStr PyStrFacts.

Context `{E : Externals}.

Lemma requests_get_answer (u : string) (h : list (string * string)) (s : bool)
    (w : World) (resp : Response) :
  remote w (net w) (mkRequest u h s) = Some resp ->
  requests_get u h s w = (Ok resp, sent (mkRequest u h s) w).
Proof. unfold requests_get. now intros ->. Qed.

Lemma requests_get_no_answer (u : string) (h : list (string * string)) (s : bool)
    (w : World) :
  remote w (net w) (mkRequest u h s) = None ->
  requests_get u h s w = (Raise RequestException, sent (mkRequest u h s) w).
Proof. unfold requests_get. now intros ->. Qed.

(** X3.  On a 401 answer whose challenge is
    [... "realm" ... "service" ...], the realm becomes the token URL and
    the service the token service; when the challenge has no second quoted
    field the service becomes the empty string (the [IndexError] of line 55
    is caught).  Nothing else of the puller changes and one request is
    sent. *)
Theorem auth_challenge_is_parsed (self : Puller) (w : World) (resp : Response)
    (pre realm : string) :
  remote w (net w) (probe_request self) = Some resp ->
  status_code resp = 401%Z ->
  contains dquote pre = false -> contains dquote realm = false ->
  (forall mid service rest,
      contains dquote mid = false -> contains dquote service = false ->
      header_get "WWW-Authenticate" (headers resp)
      = Some (pre ++ String dquote (realm ++ String dquote
                (mid ++ String dquote (service ++ String dquote rest)))) ->
      get_auth_endpoint self w
      = (Ok (set_auth realm service self), sent (probe_request self) w))
  /\ (forall rest,
        contains dquote rest = false ->
        header_get "WWW-Authenticate" (headers resp)
        = Some (pre ++ String dquote (realm ++ String dquote rest)) ->
        get_auth_endpoint self w
        = (Ok (set_auth realm "" self), sent (probe_request self) w)).
Proof.
  intros Hresp Hst Hpre Hrealm.
  apply requests_get_answer in Hresp. fold (probe_request self) in Hresp.
  split.
  - intros mid service rest Hmid Hservice Hh. unfold get_auth_endpoint.
    unfold probe_request in Hresp. rewrite (bind_step _ _ _ _ _ Hresp).
    rewrite Hst, Hh. cbn [Z.eqb Pos.eqb].
    rewrite (split_first _ _ _ Hpre), (split_first _ _ _ Hrealm),
      (split_first _ _ _ Hmid), (split_first _ _ _ Hservice).
    reflexivity.
  - intros rest Hrest Hh. unfold get_auth_endpoint.
    unfold probe_request in Hresp. rewrite (bind_step _ _ _ _ _ Hresp).
    rewrite Hst, Hh. cbn [Z.eqb Pos.eqb].
    rewrite (split_first _ _ _ Hpre), (split_first _ _ _ Hrealm),
      (split_absent _ _ Hrest).
    reflexivity.
Qed.

(** X4.  What else the probe can meet: a transport failure raises; any
    status but 401 keeps the defaults of the puller; a 401 answer without
    a [WWW-Authenticate] header raises [KeyError]; and a 401 answer whose
    challenge has no quoted field raises [IndexError], since line 53 is
    outside the [try]. *)
Theorem auth_probe_outcomes (self : Puller) (w : World) :
  (remote w (net w) (probe_request self) = None ->
   get_auth_endpoint self w
   = (Raise RequestException, sent (probe_request self) w))
  /\ forall resp,
       remote w (net w) (probe_request self) = Some resp ->
       (status_code resp <> 401%Z ->
        get_auth_endpoint self w = (Ok self, sent (probe_request self) w))
       /\ (status_code resp = 401%Z ->
           header_get "WWW-Authenticate" (headers resp) = None ->
           get_auth_endpoint self w
           = (Raise KeyError, sent (probe_request self) w))
       /\ (status_code resp = 401%Z ->
           forall challenge,
             header_get "WWW-Authenticate" (headers resp) = Some challenge ->
             contains dquote challenge = false ->
             get_auth_endpoint self w
             = (Raise IndexError, sent (probe_request self) w)).
Proof.
  split.
  - intros H. apply requests_get_no_answer in H. unfold get_auth_endpoint.
    unfold probe_request in H. now rewrite (bind_raise _ _ _ _ _ H).
  - intros resp Hresp. apply requests_get_answer in Hresp.
    unfold probe_request in Hresp.
    split; [|split].
    + intros Hst. unfold get_auth_endpoint.
      rewrite (bind_step _ _ _ _ _ Hresp).
      apply Z.eqb_neq in Hst. now rewrite Hst.
    + intros Hst Hh. unfold get_auth_endpoint.
      rewrite (bind_step _ _ _ _ _ Hresp). rewrite Hst, Hh. reflexivity.
    + intros Hst challenge Hh Hq. unfold get_auth_endpoint.
      rewrite (bind_step _ _ _ _ _ Hresp). rewrite Hst, Hh.
      cbn [Z.eqb Pos.eqb]. now rewrite (split_absent _ _ Hq).
Qed.

End AuthEndpoint.

Lemma auth_challenge_is_parsed_witness :
  get_auth_endpoint (init_puller "busybox:1.0")
    (Demo.fresh Demo.registry_ok)
  = (Ok (set_auth "https://auth.docker.io/token" "registry.docker.io"
           (init_puller "busybox:1.0")),
     sent (probe_request (init_puller "busybox:1.0"))
       (Demo.fresh Demo.registry_ok)).
Proof.
  refine (proj1 (auth_challenge_is_parsed
                   (init_puller "busybox:1.0") (Demo.fresh Demo.registry_ok)
                   (mkResponse 401 [("Www-Authenticate", Demo.challenge)] "")
                   "Bearer realm=" "https://auth.docker.io/token"
                   eq_refl eq_refl eq_refl eq_refl)
            ",service=" "registry.docker.io" "" eq_refl eq_refl eq_refl).
Defined.

(** ** Tokens *)

Section Tokens.

Context `{E : Externals}.

(** X5.  [get_auth_token] sends the token request and does nothing else to
    the world, whatever the answer.  It never looks at the status of the
    answer: the outcome is read off the body alone, [JSONDecodeError] when
    the body is not JSON, the exception of [body['token']] when that fails
    ([KeyError] for an object without [token]), and otherwise the two
    headers built from the token and the accepted content type. *)
Theorem token_request_contract (self : Puller) (content_type : string)
    (w : World) :
  snd (get_auth_token self content_type w) = sent (token_request self) w
  /\ (remote w (net w) (token_request self) = None ->
      fst (get_auth_token self content_type w) = Raise RequestException)
  /\ forall resp,
       remote w (net w) (token_request self) = Some resp ->
       (json_loads (content resp) = None ->
        fst (get_auth_token self content_type w) = Raise JSONDecodeError)
       /\ (forall o, json_loads (content resp) = Some (JObj o) ->
             Dict.get "token" o = None ->
             fst (get_auth_token self content_type w) = Raise KeyError)
       /\ (forall o token, json_loads (content resp) = Some (JObj o) ->
             Dict.get "token" o = Some token ->
             fst (get_auth_token self content_type w)
             = Ok [("Authorization", ("Bearer " ++ py_str token)%string);
                   ("Accept", content_type)]).
Proof.
  unfold get_auth_token, token_request, sent, bind, requests_get, response_json,
    lift, ret, raise.
  destruct (remote w (net w) _) as [resp|] eqn:Hr.
  - destruct (json_loads (content resp)) as [body|] eqn:Hb.
    + destruct (getitem body "token") as [t|e|c] eqn:Ht; cbn [fst snd].
      all: split; [reflexivity|]; split; [discriminate|].
      all: intros resp' Hresp'; injection Hresp' as <-; rewrite Hb.
      all: split; [discriminate|]; split; intros o; [intros Ho Hg|intros t' Ho Hg];
        injection Ho as ->; cbn [getitem] in Ht; rewrite Hg in Ht;
        try discriminate Ht; injection Ht; intros; subst; reflexivity.
    + cbn [fst snd]. split; [reflexivity|]. split; [discriminate|].
      intros resp' Hresp'. injection Hresp' as <-. rewrite Hb.
      split; [reflexivity|]. split; discriminate.
  - cbn [fst snd]. split; [reflexivity|]. split; [reflexivity|]. discriminate.
Qed.

End Tokens.

(** ** The staging directory *)

Section Staging.
Import PathFacts.

Lemma rmtree_ok (p : string) (w w' : World) :
  rmtree p w = (Ok tt, w') ->
  FS.lookup p (fs w) = Some Dir /\ w' = with_fs (FS.rmtree p (fs w)) w.
Proof.
  unfold rmtree. intros H. run_inv H. injection H as <-. now split.
Qed.

Lemma mkdir_result (p : string) (w w' : World) :
  mkdir p w = (Ok tt, w') ->
  FS.lookup p (fs w) = None /\ w' = with_fs (FS.set p Dir (fs w)) w.
Proof.
  unfold mkdir. intros H. run_inv H. injection H as <-. now split.
Qed.

(** X6.  After a successful [create_image_directory] the staging directory
    [tmp_<img>_<tag with : as @>] exists and is empty, whatever it held
    before; everything outside it is as it was, no file has been written
    and no request sent.  (The hypothesis on the world says that a missing
    directory has no content.) *)
Theorem staging_directory_is_fresh (self self' : Puller) (w w' : World) :
  (FS.lookup (staging_dir self) (fs w) = None ->
   forall q, inside (staging_dir self) q = true -> FS.lookup q (fs w) = None) ->
  create_image_directory self w = (Ok self', w') ->
  self' = set_image_dir (staging_dir self) self
  /\ FS.lookup (staging_dir self) (fs w') = Some Dir
  /\ (forall q, inside (staging_dir self) q = true -> FS.lookup q (fs w') = None)
  /\ (forall q, FS.under (staging_dir self) q = false ->
        FS.lookup q (fs w') = FS.lookup q (fs w))
  /\ net w' = net w
  /\ stdout w'
     = (stdout w ++ [("Creating image structure in: " ++ staging_dir self)%string])%list.
Proof.
  intros Hwf H. unfold create_image_directory in H.
  cbn [image_dir set_image_dir] in H.
  set (p := staging_dir self) in *.
  apply bind_ok in H as (present & w0 & Hex & H).
  injection Hex as Hpresent <-.
  apply bind_ok in H as ([] & w1 & Hrm & H).
  apply bind_ok in H as ([] & w2 & Hmk & H).
  apply bind_ok in H as ([] & w3 & Hpr & H).
  injection H as <- <-. injection Hpr as <-.
  apply mkdir_result in Hmk as [Hfresh ->].
  assert (Hbelow : forall q, FS.under p q = true -> FS.lookup q (fs w1) = None).
  { intros q Hq. destruct (FS.lookup p (fs w)) as [n|] eqn:Hp.
    - subst present. apply rmtree_ok in Hrm as [_ ->]. cbn [fs with_fs].
      rewrite FSFacts.lookup_rmtree. now rewrite Hq.
    - subst present. injection Hrm as <-.
      unfold FS.under in Hq. apply orb_true_iff in Hq as [Hq|Hq].
      + apply String.eqb_eq in Hq. now subst q.
      + now apply Hwf. }
  assert (Hout : forall q, FS.under p q = false ->
                   FS.lookup q (fs w1) = FS.lookup q (fs w)).
  { intros q Hq. destruct present.
    - apply rmtree_ok in Hrm as [_ ->]. cbn [fs with_fs].
      rewrite FSFacts.lookup_rmtree. now rewrite Hq.
    - now injection Hrm as <-. }
  assert (Hnet : net w1 = net w).
  { destruct present; [apply rmtree_ok in Hrm as [_ ->]|injection Hrm as <-];
      reflexivity. }
  assert (Hout1 : stdout w1 = stdout w).
  { destruct present; [apply rmtree_ok in Hrm as [_ ->]|injection Hrm as <-];
      reflexivity. }
  cbn [fs net stdout with_fs with_stdout].
  split; [reflexivity|]. split; [apply FSFacts.lookup_set_same|].
  split; [|split; [|split]].
  - intros q Hq. rewrite FSFacts.lookup_set_other.
    + apply Hbelow. now apply under_inside.
    + intros ->. now rewrite inside_self in Hq.
  - intros q Hq. rewrite FSFacts.lookup_set_other; [now apply Hout|].
    intros ->. now rewrite under_self in Hq.
  - exact Hnet.
  - now rewrite Hout1.
Qed.

(** X7.  A regular file that already has the staging name is fatal:
    [os.path.exists] finds it, [shutil.rmtree] refuses what is not a
    directory, and [create_image_directory] raises [OSError] with nothing
    changed and nothing printed.  (A stale directory, in contrast, is
    removed and made anew.) *)
Theorem stale_file_blocks_staging (self : Puller) (w : World) (c : string) :
  FS.lookup (staging_dir self) (fs w) = Some (File c) ->
  create_image_directory self w = (Raise OSError, w).
Proof.
  intros Hp. unfold create_image_directory, bind, path_exists.
  cbn [image_dir set_image_dir]. rewrite Hp.
  unfold rmtree at 1. now rewrite Hp.
Qed.

End Staging.

Lemma staging_directory_is_fresh_witness :
  let w := mkWorld [("tmp_busybox_1.0/old/json", File "x");
                    ("tmp_busybox_1.0/old", Dir); ("tmp_busybox_1.0", Dir);
                    ("keep.txt", File "k")] Demo.registry_ok [] [] [] in
  exists self' w',
    create_image_directory
      (set_img_tag "busybox" "1.0" (init_puller "busybox:1.0")) w = (Ok self', w')
    /\ image_dir self' = "tmp_busybox_1.0"
    /\ FS.lookup "tmp_busybox_1.0/old/json" (fs w') = None
    /\ FS.lookup "keep.txt" (fs w') = Some (File "k").
Proof.
  intros w. set (self := set_img_tag "busybox" "1.0" (init_puller "busybox:1.0")).
  destruct (create_image_directory self w) as [[self'|e|c] w'] eqn:Hrun;
    [|vm_compute in Hrun; discriminate Hrun|vm_compute in Hrun; discriminate Hrun].
  exists self', w'. split; [reflexivity|].
  assert (Hwf : FS.lookup (staging_dir self) (fs w) = None ->
                forall q, inside (staging_dir self) q = true ->
                          FS.lookup q (fs w) = None)
    by (intros H; vm_compute in H; discriminate H).
  destruct (staging_directory_is_fresh self self' w w' Hwf Hrun)
    as (Hself & _ & Hin & Hout & _).
  split; [now rewrite Hself|]. split.
  - apply Hin. reflexivity.
  - rewrite Hout; reflexivity.
Defined.

Lemma stale_file_blocks_staging_witness :
  create_image_directory
    (set_img_tag "busybox" "1.0" (init_puller "busybox:1.0"))
    (mkWorld [("tmp_busybox_1.0", File "in the way")] Demo.registry_ok [] [] [])
  = (Raise OSError,
     mkWorld [("tmp_busybox_1.0", File "in the way")] Demo.registry_ok [] [] []).
Proof.
  exact (stale_file_blocks_staging
           (set_img_tag "busybox" "1.0" (init_puller "busybox:1.0"))
           (mkWorld [("tmp_busybox_1.0", File "in the way")]
              Demo.registry_ok [] [] []) "in the way" eq_refl).
Defined.

(** ** The configuration blob *)

Section ConfigBlob.
Import PyStr PyStrFacts.

Context `{E : Externals}.


End ConfigBlob.


(** ** Downloading and unpacking a blob *)

Section BlobTransfer.
Import PathFacts.

Context `{E : Externals}.

Lemma requests_get_ok (u : string) (h : list (string * string)) (s : bool)
    (w w1 : World) (resp : Response) :
  requests_get u h s w = (Ok resp, w1) ->
  remote w (net w) (mkRequest u h s) = Some resp /\ w1 = sent (mkRequest u h s) w.
Proof.
  unfold requests_get, sent. intros H. run_inv H. injection H as -> <-. now split.
Qed.

Lemma get_auth_token_sent (self : Puller) (content_type : string) (w wa : World)
    (r : result (list (string * string))) :
  get_auth_token self content_type w = (r, wa) -> wa = sent (token_request self) w.
Proof.
  unfold get_auth_token, token_request, sent, bind, requests_get, response_json,
    lift, ret, raise.
  destruct (remote w (net w) _) as [resp|];
    [destruct (json_loads (content resp)) as [body|];
     [destruct (getitem body "token")|]|];
    intros H; injection H as _ <-; reflexivity.
Qed.

Lemma download_with_progress_remote (self : Puller) (u p description : string) :
  keeps (fun w w' => remote w' = remote w)
    (download_with_progress self u p description).
Proof.
  assert (Hrefl : forall w : World, remote w = remote w) by reflexivity.
  assert (Htrans : forall a b c : World,
             remote b = remote a -> remote c = remote b -> remote c = remote a)
    by (intros; congruence).
  unfold download_with_progress.
  apply (keeps_bind _ Htrans).
  { intros w r w' H. apply get_auth_token_sent in H. now subst. }
  intros hdrs. apply (keeps_bind _ Htrans).
  { intros w r w' H. unfold requests_get in H.
    destruct (remote w _ _); now injection H as _ <-. }
  intros resp. apply (keeps_bind _ Htrans).
  { unfold raise_for_status.
    destruct ((400 <=? status_code resp)%Z && (status_code resp <? 600)%Z);
      [apply (keeps_raise _ Hrefl) | apply (keeps_ret _ Hrefl)]. }
  intros []. apply (keeps_bind _ Htrans).
  { destruct (header_get _ _) as [s|]; [destruct (py_int s)|];
      [apply (keeps_ret _ Hrefl) | apply (keeps_raise _ Hrefl)
      | apply (keeps_ret _ Hrefl)]. }
  intros n. apply (keeps_bind _ Htrans).
  { intros w r w' H. unfold print in H. now injection H as _ <-. }
  intros []. intros w r w' H. unfold write_file in H.
  run_inv H; now injection H as _ <-.
Qed.

(** What a successful download says about the exchange: a token was
    obtained, the registry answered the streaming request with a status
    outside 400..599, and the body of that answer is the file. *)
Lemma download_with_progress_ok (self : Puller) (u p description : string)
    (w w' : World) :
  download_with_progress self u p description w = (Ok tt, w') ->
  exists hdrs resp,
    remote w (net w ++ [token_request self])%list (mkRequest u hdrs true)
    = Some resp
    /\ ~ (400 <= status_code resp < 600)%Z
    /\ fs w' = FS.set p (File (content resp)) (fs w).
Proof.
  unfold download_with_progress. intros H.
  apply bind_ok in H as (hdrs & wa & Htok & H).
  apply bind_ok in H as (resp & w1 & Hget & H).
  apply bind_ok in H as ([] & w2 & Hst & H).
  apply bind_ok in H as (n & w3 & Hlen & H).
  apply bind_ok in H as ([] & w4 & Hpr & H).
  apply get_auth_token_sent in Htok. subst wa.
  apply requests_get_ok in Hget as [Hresp ->].
  exists hdrs, resp. split; [exact Hresp|]. split.
  - unfold raise_for_status in Hst.
    destruct ((400 <=? status_code resp)%Z && (status_code resp <? 600)%Z)
      eqn:Hb; [discriminate Hst|].
    intros [H1 H2].
    apply andb_false_iff in Hb as [Hb|Hb];
      [apply Z.leb_gt in Hb | apply Z.ltb_ge in Hb]; lia.
  - rewrite (write_file_ok _ _ _ _ H).
    unfold raise_for_status in Hst.
    destruct ((400 <=? status_code resp)%Z && (status_code resp <? 600)%Z);
      [discriminate Hst|].
    injection Hst as <-.
    assert (Hw3 : w3 = sent (mkRequest u hdrs true) (sent (token_request self) w)).
    { destruct (header_get _ _) as [s|]; [destruct (py_int s)|];
        try discriminate Hlen; now injection Hlen. }
    subst w3. unfold print in Hpr. injection Hpr as <-. reflexivity.
Qed.

(** X9.  A download that returns has stored the body of an answer whose
    status is outside 400..599: the answer the registry gave to the
    streaming request that followed the token request. *)
Theorem download_writes_body (self : Puller) (u p description : string)
    (w w' : World) :
  download_with_progress self u p description w = (Ok tt, w') ->
  exists hdrs resp,
    remote w (net w ++ [token_request self])%list (mkRequest u hdrs true)
    = Some resp
    /\ ~ (400 <= status_code resp < 600)%Z
    /\ read_file p w' = (Ok (content resp), w')
    /\ forall q, q <> p -> FS.lookup q (fs w') = FS.lookup q (fs w).
Proof.
  intros H. destruct (download_with_progress_ok _ _ _ _ _ _ H)
    as (hdrs & resp & Hresp & Hst & Hfs).
  exists hdrs, resp. split; [exact Hresp|]. split; [exact Hst|]. split.
  - unfold read_file. now rewrite Hfs, FSFacts.lookup_set_same.
  - intros q Hq. rewrite Hfs. now apply FSFacts.lookup_set_other.
Qed.

(** X10.  A [Content-Length] header that [int] rejects aborts the download
    with [ValueError] after the request was answered with a good status,
    and before the file is opened: the file system is untouched. *)
Theorem bad_content_length_aborts_download (self : Puller)
    (u p description length : string) (hdrs : list (string * string))
    (resp : Response) (w wa w1 : World) :
  get_auth_token self manifest_v2 w = (Ok hdrs, wa) ->
  requests_get u hdrs true wa = (Ok resp, w1) ->
  ~ (400 <= status_code resp < 600)%Z ->
  header_get "content-length" (headers resp) = Some length ->
  py_int length = None ->
  download_with_progress self u p description w = (Raise ValueError, w1)
  /\ fs w1 = fs w /\ stdout w1 = stdout w.
Proof.
  intros Htok Hget Hst Hlen Hint. split.
  - unfold download_with_progress.
    rewrite (bind_step _ _ _ _ _ Htok), (bind_step _ _ _ _ _ Hget).
    assert (Hok : raise_for_status resp w1 = (Ok tt, w1)).
    { unfold raise_for_status.
      destruct ((400 <=? status_code resp)%Z && (status_code resp <? 600)%Z)
        eqn:Hb; [|reflexivity].
      apply andb_true_iff in Hb as [H1 H2].
      apply Z.leb_le in H1. apply Z.ltb_lt in H2. lia. }
    rewrite (bind_step _ _ _ _ _ Hok), Hlen, Hint. reflexivity.
  - apply get_auth_token_sent in Htok. subst wa.
    apply requests_get_ok in Hget as [_ ->]. now split.
Qed.

Lemma layer_files_differ (dir : string) :
  os_path_join dir "layer.tar" <> os_path_join dir "layer_gzip.tar".
Proof.
  rewrite !join_relative by reflexivity. intros H.
  apply PyStrFacts.append_inv_head in H. discriminate H.
Qed.

(** X11.  When [download_layer] returns, [layer.tar] of the layer directory
    holds the decompressed body of an answer with a status outside
    400..599, given either to the primary blob URL or to the first fallback
    URL; [layer_gzip.tar] is gone and no other path has changed. *)
Theorem layer_download_result (self : Puller) (blob_digest layer_dir : string)
    (fallback_urls : list string) (w w' : World) :
  download_layer self blob_digest layer_dir fallback_urls w = (Ok tt, w') ->
  exists u hdrs log resp data,
    (u = blob_url self blob_digest \/ exists rest, fallback_urls = u :: rest)
    /\ remote w log (mkRequest u hdrs true) = Some resp
    /\ ~ (400 <= status_code resp < 600)%Z
    /\ gunzip (content resp) = Some data
    /\ FS.lookup (os_path_join layer_dir "layer.tar") (fs w') = Some (File data)
    /\ FS.lookup (os_path_join layer_dir "layer_gzip.tar") (fs w') = None
    /\ forall q, q <> os_path_join layer_dir "layer.tar" ->
                 q <> os_path_join layer_dir "layer_gzip.tar" ->
                 FS.lookup q (fs w') = FS.lookup q (fs w).
Proof.
  intros Hrun.
  set (gz := os_path_join layer_dir "layer_gzip.tar") in *.
  set (tar := os_path_join layer_dir "layer.tar") in *.
  assert (Hframe : forall q, q <> tar -> q <> gz ->
                     FS.lookup q (fs w') = FS.lookup q (fs w)).
  { intros q Ht Hg.
    apply (footprint_download_layer
             (fun q => String.eqb q gz || String.eqb q tar)
             self blob_digest layer_dir fallback_urls) with (r := Ok tt) (w := w).
    - fold gz. now rewrite String.eqb_refl.
    - fold tar. rewrite String.eqb_refl. apply orb_true_r.
    - exact Hrun.
    - apply orb_false_iff. split; now apply String.eqb_neq. }
  unfold download_layer in Hrun. fold gz in Hrun.
  apply bind_ok in Hrun as ([] & w2 & Hdl & Hdec).
  assert (Hgot : exists u hdrs log resp,
             (u = blob_url self blob_digest
              \/ exists rest, fallback_urls = u :: rest)
             /\ remote w log (mkRequest u hdrs true) = Some resp
             /\ ~ (400 <= status_code resp < 600)%Z
             /\ FS.lookup gz (fs w2) = Some (File (content resp))).
  { unfold try_except in Hdl.
    destruct (download_with_progress self (blob_url self blob_digest) gz
                (layer_label blob_digest) w) as [[[]|e|c] wp] eqn:Hp.
    - injection Hdl as <-.
      destruct (download_with_progress_ok _ _ _ _ _ _ Hp)
        as (hdrs & resp & Hresp & Hst & Hfs).
      exists (blob_url self blob_digest), hdrs,
        (net w ++ [token_request self])%list, resp.
      split; [now left|]. split; [exact Hresp|]. split; [exact Hst|].
      now rewrite Hfs, FSFacts.lookup_set_same.
    - destruct e; try discriminate Hdl.
      destruct fallback_urls as [|u0 rest]; [discriminate Hdl|].
      destruct (download_with_progress_ok _ _ _ _ _ _ Hdl)
        as (hdrs & resp & Hresp & Hst & Hfs).
      rewrite (download_with_progress_remote _ _ _ _ _ _ _ Hp) in Hresp.
      exists u0, hdrs, (net wp ++ [token_request self])%list, resp.
      split; [right; now exists rest|]. split; [exact Hresp|].
      split; [exact Hst|]. now rewrite Hfs, FSFacts.lookup_set_same.
    - discriminate Hdl. }
  destruct Hgot as (u & hdrs & log & resp & Hu & Hresp & Hst & Hgz).
  unfold decompress_layer in Hdec. fold gz tar in Hdec.
  apply bind_ok in Hdec as (compressed & w3 & Hread & Hdec).
  unfold read_file in Hread. rewrite Hgz in Hread. injection Hread as <- <-.
  apply bind_ok in Hdec as ([] & w4 & Hempty & Hdec).
  destruct (gunzip (content resp)) as [data|] eqn:Hz; [|discriminate Hdec].
  apply bind_ok in Hdec as ([] & w5 & Hdata & Hrm).
  apply write_file_ok in Hdata.
  unfold remove_file in Hrm. run_inv Hrm. injection Hrm as <-. cbn [fs with_fs].
  exists u, hdrs, log, resp, data.
  split; [exact Hu|]. split; [exact Hresp|]. split; [exact Hst|].
  split; [exact Hz|]. split; [|split; [|exact Hframe]].
  - rewrite FSFacts.lookup_remove_other by apply layer_files_differ.
    now rewrite Hdata, FSFacts.lookup_set_same.
  - apply FSFacts.lookup_remove_same.
Qed.

(** X12.  Only an HTTP-level failure of the primary URL leads to the
    fallback: any other exception of the primary download (no answer, a
    token body without [token], a bad [Content-Length], a write that
    fails) ends [download_layer] at once, whatever the fallback list. *)
Theorem only_http_errors_fall_back (self : Puller) (blob_digest layer_dir : string)
    (fallback_urls : list string) (e : exn) (w w1 : World) :
  download_with_progress self (blob_url self blob_digest)
    (os_path_join layer_dir "layer_gzip.tar") (layer_label blob_digest) w
  = (Raise e, w1) ->
  e <> HTTPError ->
  download_layer self blob_digest layer_dir fallback_urls w = (Raise e, w1).
Proof.
  intros Hp He. unfold download_layer. apply bind_raise.
  unfold try_except. rewrite Hp. destruct e; try reflexivity. now destruct He.
Qed.

End BlobTransfer.

Lemma download_writes_body_witness :
  let u := "https://mirror.example/aaa" in
  let p := "tmp_busybox_1.0/L/layer_gzip.tar" in
  let w := Demo.layer_ready in
  let w' := snd (@download_with_progress Demo.externals Demo.puller u p "Layer" w) in
  @download_with_progress Demo.externals Demo.puller u p "Layer" w = (Ok tt, w')
  /\ exists hdrs resp,
       remote w (net w ++ [token_request Demo.puller])%list (mkRequest u hdrs true)
       = Some resp
       /\ ~ (400 <= status_code resp < 600)%Z
       /\ read_file p w' = (Ok (content resp), w')
       /\ forall q, q <> p -> FS.lookup q (fs w') = FS.lookup q (fs w).
Proof.
  intros u p w w'. split; [vm_compute; reflexivity|].
  apply (@download_writes_body Demo.externals Demo.puller u p "Layer" w w').
  vm_compute. reflexivity.
Defined.

Lemma bad_content_length_aborts_download_witness :
  let registry := fun (log : list Request) (rq : Request) =>
                    if String.prefix "https://auth.docker.io/token" (url rq)
                    then Demo.registry_ok log rq
                    else Some (mkResponse 200 [("Content-Length", "6 bytes")]
                                 "gz:AAA") in
  let w := mkWorld [("tmp_busybox_1.0", Dir)] registry [] [] [] in
  let run := @download_with_progress Demo.externals Demo.puller
               (blob_url Demo.puller "sha256:aaa") "tmp_busybox_1.0/blob"
               "Layer" w in
  fst run = Raise ValueError /\ fs (snd run) = fs w /\ stdout (snd run) = [].
Proof.
  intros registry w run.
  destruct (@bad_content_length_aborts_download Demo.externals Demo.puller
              (blob_url Demo.puller "sha256:aaa") "tmp_busybox_1.0/blob"
              "Layer" "6 bytes" Demo.token_headers
              (mkResponse 200 [("Content-Length", "6 bytes")] "gz:AAA")
              w (sent (token_request Demo.puller) w)
              (sent (mkRequest (blob_url Demo.puller "sha256:aaa")
                       Demo.token_headers true)
                 (sent (token_request Demo.puller) w)))
    as (Hrun & Hfs & Hout).
  - vm_compute. reflexivity.
  - vm_compute. reflexivity.
  - cbn. lia.
  - reflexivity.
  - reflexivity.
  - unfold run. rewrite Hrun. cbn [fst snd]. split; [reflexivity|].
    split; [exact Hfs | exact Hout].
Defined.

Lemma layer_download_result_witness :
  let dir := "tmp_busybox_1.0/L" in
  let fallback_urls := ["https://mirror.example/aaa"] in
  let w := Demo.layer_ready in
  let w' := snd (@download_layer Demo.externals Demo.puller "sha256:aaa" dir
                   fallback_urls w) in
  @download_layer Demo.externals Demo.puller "sha256:aaa" dir fallback_urls w
  = (Ok tt, w')
  /\ FS.lookup "tmp_busybox_1.0/L/layer.tar" (fs w') = Some (File "AAA")
  /\ exists u hdrs log resp data,
       (u = blob_url Demo.puller "sha256:aaa"
        \/ exists rest, fallback_urls = u :: rest)
       /\ remote w log (mkRequest u hdrs true) = Some resp
       /\ ~ (400 <= status_code resp < 600)%Z
       /\ @gunzip Demo.externals (content resp) = Some data
       /\ FS.lookup (os_path_join dir "layer.tar") (fs w') = Some (File data)
       /\ FS.lookup (os_path_join dir "layer_gzip.tar") (fs w') = None
       /\ forall q, q <> os_path_join dir "layer.tar" ->
                    q <> os_path_join dir "layer_gzip.tar" ->
                    FS.lookup q (fs w') = FS.lookup q (fs w).
Proof.
  intros dir fallback_urls w w'. split; [vm_compute; reflexivity|].
  split; [vm_compute; reflexivity|].
  apply (@layer_download_result Demo.externals Demo.puller "sha256:aaa" dir
           fallback_urls w w').
  vm_compute. reflexivity.
Defined.

Lemma only_http_errors_fall_back_witness :
  let registry := fun (log : list Request) (rq : Request) =>
                    if String.prefix "https://auth.docker.io/token" (url rq)
                    then Demo.registry_ok log rq
                    else if String.eqb (url rq) "https://mirror.example/aaa"
                         then Some (mkResponse 200 [] "gz:AAA")
                         else None in
  let w := mkWorld [("tmp_busybox_1.0/L", Dir); ("tmp_busybox_1.0", Dir)]
             registry [] [] [] in
  fst (@download_layer Demo.externals Demo.puller "sha256:aaa"
         "tmp_busybox_1.0/L" ["https://mirror.example/aaa"] w)
  = Raise RequestException.
Proof.
  intros registry w.
  rewrite (@only_http_errors_fall_back Demo.externals Demo.puller "sha256:aaa"
             "tmp_busybox_1.0/L" ["https://mirror.example/aaa"] RequestException
             w (sent (mkRequest (blob_url Demo.puller "sha256:aaa")
                        Demo.token_headers true)
                  (sent (token_request Demo.puller) w))).
  - reflexivity.
  - vm_compute. reflexivity.
  - discriminate.
Defined.

(** ** The exit status of the script *)

Create HintDb exits.

Section ExitStatus.

Context `{E : Externals}.

Lemma exit_1_ret {A} (a : A) : ensures exits_with_1 (ret a).
Proof. intros w r w' H. injection H as <- _. exact I. Qed.

Lemma exit_1_raise {A} (e : exn) : ensures exits_with_1 (@raise A e).
Proof. intros w r w' H. injection H as <- _. exact I. Qed.

Lemma exit_1_lift {A} (r : result A) :
  exits_with_1 r -> ensures exits_with_1 (lift r).
Proof. intros Hr w r' w' H. injection H as <- _. exact Hr. Qed.

Lemma exit_1_bind {A B} (m : M A) (k : A -> M B) :
  ensures exits_with_1 m -> (forall a, ensures exits_with_1 (k a)) ->
  ensures exits_with_1 (bind m k).
Proof.
  intros Hm Hk w r w' H.
  apply bind_cases in H as [(a & w1 & _ & H)|[(e & _ & ->)|(c & H & ->)]].
  - exact (Hk a _ _ _ H).
  - exact I.
  - exact (Hm _ _ _ H).
Qed.

Lemma exit_1_try_except {A} (m : M A) (handler : exn -> option (M A)) :
  ensures exits_with_1 m ->
  (forall e h, handler e = Some h -> ensures exits_with_1 h) ->
  ensures exits_with_1 (try_except m handler).
Proof.
  intros Hm Hh w r w'. unfold try_except.
  destruct (m w) as [[a|e|c] w1] eqn:Hmw.
  - intros H. injection H as <- _. exact I.
  - destruct (handler e) as [h|] eqn:He; intros H.
    + exact (Hh e h He _ _ _ H).
    + injection H as <- _. exact I.
  - intros H. injection H as <- _. exact (Hm _ _ _ Hmw).
Qed.

Lemma exit_1_no_exit {A} (m : M A) :
  ensures no_exit m -> ensures exits_with_1 m.
Proof. intros Hm w r w' H. specialize (Hm w r w' H). now destruct r. Qed.

Lemma exit_1_never_returns {A} (m : M A) :
  ensures raises_or_exits_1 m -> ensures exits_with_1 m.
Proof. intros Hm w r w' H. specialize (Hm w r w' H). now destruct r. Qed.

Ltac primitive_ending f :=
  let H := fresh "H" in
  intros ? ? ? H; unfold f in H; run_inv H; injection H as <- _; exact I.

Lemma exit_1_path_exists (p : string) : ensures exits_with_1 (path_exists p).
Proof. intros w r w' H. injection H as <- _. exact I. Qed.

Lemma exit_1_mkdir (p : string) : ensures exits_with_1 (mkdir p).
Proof. primitive_ending mkdir. Qed.

Lemma exit_1_rmtree (p : string) : ensures exits_with_1 (rmtree p).
Proof. primitive_ending rmtree. Qed.

Lemma exit_1_read_file (p : string) : ensures exits_with_1 (read_file p).
Proof. primitive_ending read_file. Qed.

Lemma exit_1_write_file (p c : string) : ensures exits_with_1 (write_file p c).
Proof. primitive_ending write_file. Qed.

Lemma exit_1_remove_file (p : string) : ensures exits_with_1 (remove_file p).
Proof. primitive_ending remove_file. Qed.

Lemma exit_1_raise_for_status (r : Response) :
  ensures exits_with_1 (raise_for_status r).
Proof.
  unfold raise_for_status.
  destruct ((400 <=? status_code r)%Z && (status_code r <? 600)%Z);
    [apply exit_1_raise | apply exit_1_ret].
Qed.

Lemma exit_1_print (s : string) : ensures exits_with_1 (print s).
Proof. apply exit_1_no_exit, no_exit_print. Qed.

Lemma exit_1_requests_get (u : string) (h : list (string * string)) (s : bool) :
  ensures exits_with_1 (requests_get u h s).
Proof. apply exit_1_no_exit, no_exit_requests_get. Qed.

Lemma exit_1_get_auth_token (self : Puller) (content_type : string) :
  ensures exits_with_1 (get_auth_token self content_type).
Proof. apply exit_1_no_exit, no_exit_get_auth_token. Qed.

Lemma exit_1_response_json (r : Response) :
  ensures exits_with_1 (response_json r).
Proof. apply exit_1_no_exit, no_exit_response_json. Qed.

Lemma exit_1_getitem (v : json) (k : string) :
  ensures exits_with_1 (lift (getitem v k)).
Proof. apply exit_1_no_exit, no_exit_getitem. Qed.

#[local] Hint Resolve exit_1_path_exists exit_1_mkdir exit_1_rmtree
  exit_1_read_file exit_1_write_file exit_1_remove_file
  exit_1_raise_for_status exit_1_print exit_1_requests_get
  exit_1_get_auth_token exit_1_response_json exit_1_getitem : exits.

Ltac exit_steps :=
  repeat first
    [ solve [auto with exits nocore]
    | apply exit_1_ret
    | apply exit_1_raise
    | apply exit_1_bind; [|intro] ].

(** The pure steps of [pull] return or raise. *)
Lemma parse_image_reference_ends (self : Puller) :
  exits_with_1 (parse_image_reference self).
Proof.
  assert (Hu : forall l, no_exit (unpack2 l)).
  { intros l. unfold unpack2. destruct l as [|a [|b [|c l]]]; exact I. }
  unfold parse_image_reference.
  destruct (PyStr.contains "@" _).
  - match goal with |- context [unpack2 ?l] =>
      specialize (Hu l); destruct (unpack2 l) as [[i t]|e|c] end;
      [|exact I|destruct Hu].
    destruct (_ && _); [exact I|]. destruct (PyStr.init _); exact I.
  - destruct (PyStr.contains ":" _).
    + match goal with |- context [unpack2 ?l] =>
        specialize (Hu l); destruct (unpack2 l) as [[i t]|e|c] end;
        [|exact I|destruct Hu].
      destruct (_ && _); [exact I|]. destruct (PyStr.init _); exact I.
    + destruct (_ && _); [exact I|]. destruct (PyStr.init _); exact I.
Qed.

Lemma as_str_ends (v : json) : exits_with_1 (as_str v).
Proof. now destruct v. Qed.

Lemma decode_strs_ends (l : list json) : exits_with_1 (decode_strs l).
Proof.
  induction l as [|v l IH]; [exact I|]. cbn [decode_strs].
  destruct v; try exact I. cbn [as_str].
  now destruct (decode_strs l).
Qed.

Lemma decode_layer_ends (v : json) : exits_with_1 (decode_layer v).
Proof.
  unfold decode_layer.
  destruct (getitem v "digest") as [[]| |] eqn:Hd; try exact I.
  - destruct v as [| | | | | |o]; try exact I.
    destruct (Dict.get "urls" o) as [[]|]; try exact I.
    pose proof (decode_strs_ends l) as Hl. now destruct (decode_strs l).
  - destruct v as [| | | | | |o]; try discriminate Hd.
    cbn in Hd. destruct (Dict.get "digest" o); discriminate Hd.
Qed.

Lemma decode_layers_ends (v : json) : exits_with_1 (decode_layers v).
Proof.
  destruct v as [| | | | |l|]; try exact I. cbn [decode_layers].
  induction l as [|v l IH]; [exact I|]. cbn [decode_layer_list].
  pose proof (decode_layer_ends v) as Hv.
  destruct (decode_layer v); [|exact I|exact Hv].
  now destruct (decode_layer_list l).
Qed.

Lemma exit_1_get_auth_endpoint (self : Puller) :
  ensures exits_with_1 (get_auth_endpoint self).
Proof.
  unfold get_auth_endpoint. exit_steps.
  destruct (status_code _ =? 401)%Z; [|exit_steps].
  destruct (header_get _ _); [|exit_steps].
  destruct (nth_error _ 1); exit_steps.
Qed.

Lemma exit_1_create_image_directory (self : Puller) :
  ensures exits_with_1 (create_image_directory self).
Proof.
  unfold create_image_directory. exit_steps.
  match goal with |- context [if ?b then _ else _] => destruct b end; exit_steps.
Qed.

Lemma exit_1_fetch_manifest (self : Puller) :
  ensures exits_with_1 (fetch_manifest self).
Proof.
  unfold fetch_manifest. exit_steps.
  destruct (negb _); [|exit_steps].
  apply exit_1_never_returns, handle_manifest_error_never_returns.
Qed.

Lemma exit_1_download_config (self : Puller) (config_digest : string) :
  ensures exits_with_1 (download_config self config_digest).
Proof. unfold download_config. exit_steps. Qed.

Lemma exit_1_download_with_progress (self : Puller) (u p description : string) :
  ensures exits_with_1 (download_with_progress self u p description).
Proof.
  unfold download_with_progress. exit_steps.
  destruct (header_get _ _) as [s|]; [destruct (py_int s)|]; exit_steps.
Qed.

Lemma exit_1_download_layer (self : Puller) (blob_digest layer_dir : string)
    (fallback_urls : list string) :
  ensures exits_with_1 (download_layer self blob_digest layer_dir fallback_urls).
Proof.
  unfold download_layer. apply exit_1_bind; [|intro].
  - apply exit_1_try_except; [apply exit_1_download_with_progress|].
    intros e h He. destruct e; try discriminate He. injection He as <-.
    destruct fallback_urls;
      [apply exit_1_raise | apply exit_1_download_with_progress].
  - unfold decompress_layer. exit_steps. destruct (gunzip _); exit_steps.
Qed.

Lemma exit_1_create_layer_json (layer_dir layer_id parent_id layer_json : string)
    (is_last_layer : bool) :
  ensures exits_with_1
    (create_layer_json layer_dir layer_id parent_id layer_json is_last_layer).
Proof.
  unfold create_layer_json.
  destruct (json_loads layer_json) as [[| | | | | |]|]; try destruct is_last_layer;
    exit_steps.
Qed.

#[local] Hint Resolve exit_1_download_layer exit_1_create_layer_json : exits.

Lemma exit_1_process_layer (self : Puller) (layer : Layer)
    (parent_id layer_json : string) :
  ensures exits_with_1 (process_layer self layer parent_id layer_json).
Proof. unfold process_layer. exit_steps. Qed.

Lemma exit_1_process_layers_loop (self : Puller) (layers : list Layer)
    (config_content empty_json : string) (rest : list Layer)
    (parent_id : string) (acc : list string) :
  ensures exits_with_1
    (process_layers_loop self layers config_content empty_json rest parent_id acc).
Proof.
  revert parent_id acc.
  induction rest as [|layer rest IH]; intros parent_id acc;
    cbn [process_layers_loop]; [apply exit_1_ret|].
  apply exit_1_bind; [apply exit_1_process_layer|intro]. apply IH.
Qed.

Lemma exit_1_process_layers (self : Puller) (layers : list Layer)
    (config_content : string) :
  ensures exits_with_1 (process_layers self layers config_content).
Proof.
  unfold process_layers.
  apply exit_1_bind; [apply exit_1_print|intro].
  apply exit_1_bind; [apply exit_1_process_layers_loop|intro].
  apply exit_1_ret.
Qed.

Lemma exit_1_create_image_files (self : Puller) (manifest_content : Content)
    (last_layer_id : string) :
  ensures exits_with_1 (create_image_files self manifest_content last_layer_id).
Proof. unfold create_image_files. exit_steps. Qed.

Lemma exit_1_create_image_tar (self : Puller) :
  ensures exits_with_1 (create_image_tar self).
Proof.
  unfold create_image_tar. exit_steps.
  intros w r w' H. injection H as <- _. exact I.
Qed.

(** Whatever [pull] meets, the only exit it makes is [exit(1)]. *)
Lemma exit_1_pull (self : Puller) : ensures exits_with_1 (pull self).
Proof.
  unfold pull.
  apply exit_1_bind; [apply exit_1_lift, parse_image_reference_ends|intro].
  apply exit_1_bind; [apply exit_1_get_auth_endpoint|intro].
  apply exit_1_bind; [apply exit_1_create_image_directory|intro].
  apply exit_1_bind; [apply exit_1_fetch_manifest|intro].
  apply exit_1_bind; [apply exit_1_getitem|intro].
  apply exit_1_bind; [apply exit_1_getitem|intro].
  apply exit_1_bind; [apply exit_1_lift, as_str_ends|intro].
  apply exit_1_bind; [apply exit_1_download_config|intro].
  apply exit_1_bind; [apply exit_1_read_file|intro].
  apply exit_1_bind; [apply exit_1_getitem|intro].
  apply exit_1_bind; [apply exit_1_lift, decode_layers_ends|intro].
  apply exit_1_bind; [apply exit_1_process_layers|intro].
  apply exit_1_bind; [apply exit_1_create_image_files|intro].
  apply exit_1_bind; [apply exit_1_create_image_tar|intro].
  exit_steps.
Qed.


(** X14.  With any number of arguments other than one, [main] prints the
    two usage texts on standard output and exits with status 1; it parses
    nothing, sends no request and leaves the file system alone. *)
Theorem wrong_argument_count_prints_usage (argv : list string) (w : World) :
  List.length argv <> 2 ->
  main argv w = (SysExit 1, with_stdout (stdout w ++ [usage; usage_example])%list w).
Proof.
  intros Hlen.
  destruct argv as [|argv0 [|reference [|extra rest]]]; cbn in Hlen;
    try lia;
    unfold main, bind, print, sys_exit, with_stdout; cbn;
    now rewrite <- app_assoc.
Qed.

End ExitStatus.

(** The sample registry serves typed manifests. *)
Lemma demo_serves_typed_manifests :
  @serves_typed_manifests Demo.externals (Demo.fresh Demo.registry_ok).
Proof.
  intros log rq resp v Hresp Hv.
  cbn [remote Demo.fresh] in Hresp.
  unfold Demo.registry_ok, Demo.registry_with in Hresp.
  repeat match type of Hresp with
         | (if ?c then _ else _) = _ => destruct c
         end;
    injection Hresp as <-; vm_compute in Hv;
    first [discriminate Hv | injection Hv as <-; reflexivity].
Qed.


Lemma wrong_argument_count_prints_usage_witness :
  @main Demo.externals ["docker_pull.py"] (Demo.fresh Demo.registry_ok)
  = (SysExit 1,
     with_stdout [usage; usage_example] (Demo.fresh Demo.registry_ok)).
Proof.
  apply (@wrong_argument_count_prints_usage Demo.externals ["docker_pull.py"]
           (Demo.fresh Demo.registry_ok)).
  cbn. lia.
Defined.

(** ** The layer directories of a run *)

Section LayerDirectories.
Import PyStr PyStrFacts PathFacts.

Context `{E : Externals} {L : ExternalsLaws E}.

Variables (self : Puller) (layers : list Layer) (config_content : string).

Lemma append_inv_tail (a b c : string) : a ++ c = b ++ c -> a = b.
Proof.
  revert b. induction a as [|x a IH]; intros [|y b] H; [reflexivity| | |].
  - apply (f_equal String.length) in H. cbn in H.
    rewrite length_append in H. lia.
  - apply (f_equal String.length) in H. cbn in H.
    rewrite length_append in H. lia.
  - cbn in H. injection H as -> H. f_equal. now apply IH.
Qed.

Lemma legacy_ids_hex (digests : list string) (parent_id : string) :
  Forall (fun id => is_hexdigest id = true) (legacy_ids parent_id digests).
Proof.
  revert parent_id. induction digests as [|d digests IH]; intros parent_id;
    cbn [legacy_ids]; constructor; [apply sha256_hexdigest | apply IH].
Qed.

(** The loop over the layers: the directories made so far are there, so
    [os.mkdir] succeeds only for an ID not met before, on a path that did
    not exist. *)
Lemma loop_distinct (empty_json : string) :
  forall (rest : list Layer) (parent_id : string) (acc : list string)
         (w w' : World) (r : list string * string) (seen : list string),
    process_layers_loop self layers config_content empty_json rest parent_id
      acc w = (Ok r, w') ->
    Forall (fun id => is_hexdigest id = true) seen ->
    Forall (fun id => FS.lookup (layer_dir_of self id) (fs w) = Some Dir) seen ->
    NoDup seen ->
    NoDup (seen ++ legacy_ids parent_id (map digest rest))
    /\ Forall (fun id => FS.lookup (layer_dir_of self id) (fs w) = None)
         (legacy_ids parent_id (map digest rest)).
Proof.
  induction rest as [|layer rest IH];
    intros parent_id acc w w' r seen H Hhex Hdirs Hnd.
  - cbn. rewrite app_nil_r. split; [exact Hnd | constructor].
  - cbn [process_layers_loop] in H.
    apply bind_ok in H as (id & w1 & Hstep & H).
    pose proof (process_layer_effect _ _ _ _ _ _ _ Hstep)
      as (Hid & Hfresh & Hdir & Hframe & _).
    assert (Hhex' : is_hexdigest id = true)
      by (rewrite Hid; apply sha256_hexdigest).
    cbn [map legacy_ids]. rewrite <- Hid.
    assert (Hnew : ~ In id seen).
    { intros Hin. rewrite Forall_forall in Hdirs.
      rewrite (Hdirs id Hin) in Hfresh. discriminate Hfresh. }
    destruct (IH id _ w1 w' r (seen ++ [id])%list H) as [Hall Habsent].
    + apply Forall_app. split; [exact Hhex|]. now constructor.
    + apply Forall_app. split; [|now constructor].
      rewrite Forall_forall in *. intros x Hx. rewrite Hframe; [now apply Hdirs|].
      destruct (FS.under _ _) eqn:Hu; [|reflexivity].
      apply layer_dirs_apart in Hu; [|now apply Hhex|exact Hhex'].
      subst x. contradiction.
    + apply NoDup_app; [exact Hnd | constructor; [intros []|constructor] |].
      intros x Hx [<-|[]]. contradiction.
    + rewrite <- app_assoc in Hall. cbn [app] in Hall.
      split; [exact Hall|]. constructor; [exact Hfresh|].
      pose proof (legacy_ids_hex (map digest rest) id) as Hrest.
      rewrite Forall_forall in *. intros x Hx.
      rewrite <- (Habsent x Hx). symmetry. apply Hframe.
      destruct (FS.under _ _) eqn:Hu; [|reflexivity].
      apply layer_dirs_apart in Hu; [|now apply Hrest|exact Hhex'].
      subst x. apply NoDup_remove_2 in Hall. destruct Hall.
      apply in_or_app. now right.
Qed.

(** X15.  In a run of [process_layers] that returns, every layer got a
    directory of its own: the layer IDs are pairwise distinct, none of the
    layer directories existed before the run, all of them exist after it,
    and [Layers] names no [layer.tar] twice. *)
Theorem layer_directories_are_new (w w' : World) (content : Content)
    (last_layer_id : string) :
  process_layers self layers config_content w
  = (Ok (content, last_layer_id), w') ->
  NoDup (legacy_ids "" (map digest layers))
  /\ NoDup (Layers content)
  /\ Forall (fun id => FS.lookup (layer_dir_of self id) (fs w) = None
                       /\ FS.lookup (layer_dir_of self id) (fs w') = Some Dir)
       (legacy_ids "" (map digest layers)).
Proof.
  intros H.
  pose proof (process_layers_returns _ _ _ _ _ _ _ H) as (HL & _).
  pose proof (process_layers_settles _ _ _ _ _ _ _ H) as Hset.
  unfold process_layers in H.
  apply bind_ok in H as ([] & w1 & Hpr & H).
  apply bind_ok in H as (r & w2 & Hloop & H).
  injection H as _ _ <-.
  destruct (loop_distinct _ _ _ _ _ _ _ [] Hloop) as [Hnd Habsent];
    [constructor|constructor|constructor|].
  cbn [app] in Hnd. unfold print in Hpr. injection Hpr as <-.
  cbn [fs with_stdout] in Habsent.
  split; [exact Hnd|]. split.
  - rewrite HL. apply NoDup_map_NoDup_ForallPairs; [|exact Hnd].
    intros a b _ _ Hab. unfold tar_entry in Hab. now apply append_inv_tail in Hab.
  - rewrite Forall_forall in *. intros id Hid. split; [now apply Habsent|].
    rewrite <- chain_entries_ids in Hid. apply in_map_iff in Hid as (e & <- & He).
    exact (proj1 (Hset e He)).
Qed.

(** Outside the layer directories the loop changes nothing. *)
Lemma loop_frame (empty_json : string) :
  forall (rest : list Layer) (parent_id : string) (acc : list string)
         (w w' : World) (r : list string * string) (q : string),
    process_layers_loop self layers config_content empty_json rest parent_id
      acc w = (Ok r, w') ->
    (forall id, is_hexdigest id = true ->
                FS.under (layer_dir_of self id) q = false) ->
    FS.lookup q (fs w') = FS.lookup q (fs w).
Proof.
  induction rest as [|layer rest IH]; intros parent_id acc w w' r q H Hq.
  - now injection H as _ <-.
  - cbn [process_layers_loop] in H.
    apply bind_ok in H as (id & w1 & Hstep & H).
    pose proof (process_layer_effect _ _ _ _ _ _ _ Hstep)
      as (Hid & _ & _ & Hframe & _).
    rewrite (IH _ _ _ _ _ _ H Hq). apply Hframe, Hq.
    rewrite Hid. apply sha256_hexdigest.
Qed.

Lemma last_id_shape (digests : list string) :
  last (legacy_ids "" digests) "" = ""
  \/ is_hexdigest (last (legacy_ids "" digests) "") = true.
Proof.
  pose proof (legacy_ids_hex digests "") as Hall.
  induction (legacy_ids "" digests) as [|x l IH]; [now left|].
  inversion Hall as [|? ? Hx Hl]; subst.
  destruct l as [|y l]; [now right|]. now apply IH.
Qed.

(** The path named by [Config] is no layer directory and lies in none. *)
Lemma config_path_outside (id last_id : string) :
  last_id = "" \/ is_hexdigest last_id = true ->
  is_hexdigest id = true ->
  os_path_join (image_dir self) (last_id ++ ".json")
  = dir_prefix (image_dir self) ++ last_id ++ ".json"
  /\ FS.under (layer_dir_of self id)
       (os_path_join (image_dir self) (last_id ++ ".json")) = false.
Proof.
  intros Hlast Hid.
  assert (Hrel : starts_with "/" (last_id ++ ".json") = false).
  { destruct Hlast as [->|Hlast]; [reflexivity|].
    pose proof (hex_relative _ Hlast) as Hr.
    destruct last_id; [discriminate Hlast | exact Hr]. }
  rewrite (join_relative _ _ Hrel). split; [reflexivity|].
  rewrite (layer_dir_hex id Hid). unfold FS.under.
  apply orb_false_iff. split.
  - apply String.eqb_neq. intros H. apply append_inv_head in H.
    apply (f_equal String.length) in H.
    rewrite length_append, (hex_length _ Hid) in H. cbn in H.
    destruct Hlast as [->|Hlast]; [discriminate H|].
    rewrite (hex_length _ Hlast) in H. discriminate H.
  - rewrite append_assoc, prefix_cancel.
    destruct (String.prefix _ _) eqn:Hp; [|reflexivity].
    destruct Hlast as [->|Hlast].
    + apply prefix_length in Hp. rewrite length_append, (hex_length _ Hid) in Hp.
      cbn in Hp. lia.
    + assert (id = last_id) as ->.
      { apply (prefix_same_length _ _ _ _ Hp).
        now rewrite (hex_length _ Hid), (hex_length _ Hlast). }
      rewrite prefix_cancel in Hp. vm_compute in Hp. discriminate Hp.
Qed.

Lemma download_config_ok (config_digest config_file : string) (w w' : World) :
  download_config self config_digest w = (Ok config_file, w') ->
  exists body,
    fs w' = FS.set (image_dir self ++ "/" ++ drop 7 config_digest ++ ".json")
              (File body) (fs w).
Proof.
  unfold download_config. intros H.
  apply bind_ok in H as (hdrs & wa & Htok & H).
  apply bind_ok in H as (resp & w1 & Hget & H).
  apply bind_ok in H as ([] & w2 & Hwr & H).
  injection H as _ <-. exists (content resp).
  rewrite (write_file_ok _ _ _ _ Hwr).
  pose proof (unchanged_get_auth_token _ _ _ _ _ Htok) as H1.
  pose proof (unchanged_requests_get _ _ _ _ _ _ Hget) as H2.
  unfold fs_unchanged in *. congruence.
Qed.

(** X16.  The file [manifest.json] names as [Config] is not in the staging
    directory: the configuration blob was stored as [<digest[7:]>.json],
    the manifest names [<top layer ID>.json], and nothing writes that
    path.  Starting from an empty staging directory, named as
    [create_image_directory] names it, after the configuration download,
    the layers and [create_image_files], the manifest is in place and the
    path it names as [Config] does not exist, unless the configuration
    digest happens to be the top layer ID.  The digest is taken without
    [/] after its first seven characters, as a digest is: path names are
    compared as written, and a name with [/] could reach the same file
    through [.] or [..]. *)
Theorem manifest_config_file_is_missing (config_digest config_file : string)
    (w0 w1 w2 w3 : World) (content : Content) (last_layer_id : string) :
  image_dir self = staging_dir self ->
  contains "/" (image_dir self) = false ->
  contains "/" (drop 7 config_digest) = false ->
  (forall q, inside (image_dir self) q = true -> FS.lookup q (fs w0) = None) ->
  download_config self config_digest w0 = (Ok config_file, w1) ->
  process_layers self layers config_content w1
  = (Ok (content, last_layer_id), w2) ->
  create_image_files self content last_layer_id w2 = (Ok tt, w3) ->
  drop 7 config_digest <> last_layer_id ->
  FS.lookup (os_path_join (image_dir self) "manifest.json") (fs w3)
  = Some (File (json_dumps (json_of_content content)))
  /\ FS.lookup (os_path_join (image_dir self) (Config content)) (fs w3) = None.
Proof.
  intros Hstaging Hplain _ Hfresh Hcfg Hrun Hfiles Hdiff.
  assert (Hne : image_dir self <> "")
    by (rewrite Hstaging; unfold staging_dir; discriminate).
  assert (Hend : ends_with "/" (image_dir self) = false).
  { destruct (ends_with "/" (image_dir self)) eqn:He; [|reflexivity].
    apply ends_with_contains in He. congruence. }
  pose proof (process_layers_returns _ _ _ _ _ _ _ Hrun) as (_ & Hlast & HC & _).
  assert (Hshape : last_layer_id = "" \/ is_hexdigest last_layer_id = true)
    by (rewrite Hlast; apply last_id_shape).
  assert (Hpre : dir_prefix (image_dir self) = image_dir self ++ "/").
  { unfold dir_prefix. rewrite Hend. destruct (image_dir self); [contradiction|reflexivity]. }
  assert (Hlen : String.length last_layer_id = 0 \/ String.length last_layer_id = 64).
  { destruct Hshape as [->|Hh]; [now left | right; now apply hex_length]. }
  set (P := os_path_join (image_dir self) (Config content)).
  assert (HP : P = image_dir self ++ "/" ++ last_layer_id ++ ".json").
  { unfold P. rewrite HC.
    destruct Hshape as [->|Hh].
    - rewrite join_relative by reflexivity. now rewrite Hpre, append_assoc.
    - rewrite (proj1 (config_path_outside _ _ (or_intror Hh) Hh)).
      now rewrite Hpre, append_assoc. }
  unfold create_image_files in Hfiles.
  apply bind_ok in Hfiles as ([] & wm & Hman & Hrepo).
  apply write_file_ok in Hman. apply write_file_ok in Hrepo.
  rewrite !join_relative in Hman, Hrepo by reflexivity.
  rewrite !(join_relative _ "manifest.json") by reflexivity.
  rewrite Hpre in *.
  split.
  - rewrite Hrepo, FSFacts.lookup_set_other, Hman, FSFacts.lookup_set_same;
      [reflexivity|].
    intros H. apply append_inv_head in H. discriminate H.
  - rewrite HP, Hrepo, FSFacts.lookup_set_other, Hman, FSFacts.lookup_set_other.
    + rewrite <- HP. unfold process_layers in Hrun.
      apply bind_ok in Hrun as ([] & wp & Hpr & Hrun).
      apply bind_ok in Hrun as (r & wl & Hloop & Hrun).
      injection Hrun as _ _ <-.
      rewrite (loop_frame _ _ _ _ _ _ _ _ Hloop).
      * unfold print in Hpr. injection Hpr as <-. cbn [fs with_stdout].
        destruct (download_config_ok _ _ _ _ Hcfg) as (body & ->).
        rewrite FSFacts.lookup_set_other.
        -- apply Hfresh. rewrite HP. apply inside_child.
        -- rewrite HP. intros H. apply append_inv_head in H.
           change ("/" ++ last_layer_id ++ ".json")
             with (String "/" (last_layer_id ++ ".json")) in H.
           change ("/" ++ drop 7 config_digest ++ ".json")
             with (String "/" (drop 7 config_digest ++ ".json")) in H.
           injection H as H. apply append_inv_tail in H. now symmetry in H.
      * intros id Hid. unfold P. rewrite HC.
        apply (config_path_outside _ _ Hshape Hid).
    + intros H. rewrite append_assoc in H. apply append_inv_head in H.
      apply (f_equal String.length) in H. rewrite !length_append in H.
      cbn in H. lia.
    + intros H. rewrite append_assoc in H. apply append_inv_head in H.
      apply (f_equal String.length) in H. rewrite !length_append in H.
      cbn in H. lia.
Qed.

End LayerDirectories.

Lemma layer_directories_are_new_witness :
  match @process_layers Demo.externals Demo.puller Demo.layers
          (Sample.dumps Demo.config) (Demo.staged Demo.registry_ok) with
  | (Ok (content, last_layer_id), w') =>
      NoDup (Layers content)
      /\ Forall (fun id => FS.lookup (layer_dir_of Demo.puller id) (fs w')
                           = Some Dir)
           (@legacy_ids Demo.externals "" ["sha256:aaa"; "sha256:bbb"])
  | _ => False
  end.
Proof.
  destruct (@process_layers Demo.externals Demo.puller Demo.layers
              (Sample.dumps Demo.config) (Demo.staged Demo.registry_ok))
    as [[[content last_layer_id]|e|c] w'] eqn:Hrun.
  - destruct (@layer_directories_are_new Demo.externals demo_laws _ _ _ _ _ _ _
                Hrun) as (_ & HL & Hdirs).
    split; [exact HL|].
    eapply Forall_impl; [|exact Hdirs]. now intros id [_ H].
  - vm_compute in Hrun. discriminate Hrun.
  - vm_compute in Hrun. discriminate Hrun.
Defined.

Lemma manifest_config_file_is_missing_witness :
  exists config_file w1 content last_layer_id w2 w3,
    @download_config Demo.externals Demo.puller "sha256:ccc"
      (Demo.staged Demo.registry_ok) = (Ok config_file, w1)
    /\ @process_layers Demo.externals Demo.puller Demo.layers
         (Sample.dumps Demo.config) w1 = (Ok (content, last_layer_id), w2)
    /\ @create_image_files Demo.externals Demo.puller content last_layer_id w2
       = (Ok tt, w3)
    /\ FS.lookup "tmp_busybox_1.0/ccc.json" (fs w3)
       = Some (File (Sample.dumps Demo.config))
    /\ FS.lookup (os_path_join "tmp_busybox_1.0" (Config content)) (fs w3) = None.
Proof.
  destruct (@download_config Demo.externals Demo.puller "sha256:ccc"
              (Demo.staged Demo.registry_ok)) as [[config_file|e|c] w1] eqn:H1;
    [|vm_compute in H1; discriminate H1|vm_compute in H1; discriminate H1].
  pose proof H1 as H1'. vm_compute in H1'. injection H1' as Hcf Hw1.
  destruct (@process_layers Demo.externals Demo.puller Demo.layers
              (Sample.dumps Demo.config) w1)
    as [[[content last_layer_id]|e|c] w2] eqn:H2;
    [|rewrite <- Hw1 in H2; vm_compute in H2; discriminate H2
     |rewrite <- Hw1 in H2; vm_compute in H2; discriminate H2].
  pose proof H2 as H2'. rewrite <- Hw1 in H2'. vm_compute in H2'.
  injection H2' as Hcontent Hlast Hw2.
  destruct (@create_image_files Demo.externals Demo.puller content
              last_layer_id w2) as [[[]|e|c] w3] eqn:H3;
    [|rewrite <- Hcontent, <- Hlast, <- Hw2 in H3; vm_compute in H3;
      discriminate H3
     |rewrite <- Hcontent, <- Hlast, <- Hw2 in H3; vm_compute in H3;
      discriminate H3].
  exists config_file, w1, content, last_layer_id, w2, w3.
  split; [reflexivity|]. split; [exact H2|]. split; [exact H3|]. split.
  - rewrite <- Hcontent, <- Hlast, <- Hw2 in H3. vm_compute in H3.
    injection H3 as <-. vm_compute. reflexivity.
  - refine (proj2 (@manifest_config_file_is_missing Demo.externals demo_laws
                     Demo.puller Demo.layers (Sample.dumps Demo.config)
                     "sha256:ccc" config_file (Demo.staged Demo.registry_ok)
                     w1 w2 w3 content last_layer_id _ _ _ _ H1 H2 H3 _)).
    + reflexivity.
    + reflexivity.
    + reflexivity.
    + intros q Hq.
      change (fs (Demo.staged Demo.registry_ok))
        with [("tmp_busybox_1.0"%string, Dir)].
      cbv [FS.lookup].
      destruct (String.eqb "tmp_busybox_1.0" q) eqn:Heq; [|reflexivity].
      apply String.eqb_eq in Heq. subst q. vm_compute in Hq. discriminate Hq.
    + rewrite <- Hlast. vm_compute. discriminate.
Defined.

(** ** The archive *)

Section Archive.
Import PyStr PyStrFacts PathFacts.

Context `{E : Externals}.

Lemma prefix_contains (c : ascii) (a b : string) :
  String.prefix a b = true -> contains c a = true -> contains c b = true.
Proof.
  revert b. induction a as [|x a IH]; intros b Hp Hc; [discriminate Hc|].
  destruct b as [|y b]; [discriminate Hp|]. cbn in Hp.
  destruct (ascii_dec x y) as [->|]; [|discriminate Hp].
  cbn in *. destruct (Ascii.eqb y c); [reflexivity|]. now apply IH.
Qed.

(** A name without [/] lies in no directory. *)
Lemma plain_name_not_inside (dir name : string) :
  contains "/" name = false -> inside dir name = false.
Proof.
  intros Hname. unfold inside.
  destruct (String.prefix (dir ++ "/") name) eqn:Hp; [|reflexivity].
  apply (prefix_contains "/") in Hp; [congruence|].
  rewrite contains_append. cbn. apply orb_true_r.
Qed.

(** What a successful [create_image_tar] did. *)
Lemma create_image_tar_ok (self : Puller) (name : string) (w w' : World) :
  create_image_tar self w = (Ok name, w') ->
  name = tar_name self
  /\ tar_name self <> image_dir self
  /\ FS.lookup (image_dir self) (fs w) = Some Dir
  /\ w' = with_fs (FS.rmtree (image_dir self)
                     (FS.set (tar_name self)
                        (File (tar_pack (FS.subtree (image_dir self) (fs w))))
                        (fs w))) w.
Proof.
  unfold create_image_tar. intros H.
  apply bind_ok in H as (tree & w1 & Htree & H). injection Htree as <- <-.
  apply bind_ok in H as ([] & w2 & Hwr & H).
  apply bind_ok in H as ([] & w3 & Hrm & H).
  injection H as <- <-.
  pose proof (write_file_ok _ _ _ _ Hwr) as Hfs.
  apply rmtree_ok in Hrm as [Hdir ->].
  assert (Hne : tar_name self <> image_dir self).
  { intros Heq. rewrite Hfs, <- Heq, FSFacts.lookup_set_same in Hdir.
    discriminate Hdir. }
  split; [reflexivity|]. split; [exact Hne|]. split.
  - rewrite Hfs, FSFacts.lookup_set_other in Hdir by congruence. exact Hdir.
  - unfold write_file in Hwr. run_inv Hwr; injection Hwr as <-; reflexivity.
Qed.

(** X17.  When [create_image_tar] returns, it returns the archive name
    [<repo with / as _>_<img>.tar]; that file holds the packed content of
    the staging directory as it was, the staging directory and everything
    below it are gone, and every other path is as before.  (The archive
    name is assumed not to lie inside the staging directory, as is the case
    for a name without [/].) *)
Theorem archive_replaces_staging (self : Puller) (name : string) (w w' : World) :
  inside (image_dir self) (tar_name self) = false ->
  create_image_tar self w = (Ok name, w') ->
  name = tar_name self
  /\ FS.lookup name (fs w')
     = Some (File (tar_pack (FS.subtree (image_dir self) (fs w))))
  /\ (forall q, FS.under (image_dir self) q = true -> FS.lookup q (fs w') = None)
  /\ (forall q, FS.under (image_dir self) q = false -> q <> name ->
                FS.lookup q (fs w') = FS.lookup q (fs w)).
Proof.
  intros Hout H.
  apply create_image_tar_ok in H as (-> & Hne & Hdir & ->).
  cbn [fs with_fs].
  assert (Hunder : FS.under (image_dir self) (tar_name self) = false).
  { unfold FS.under. apply orb_false_iff. split; [|exact Hout].
    now apply String.eqb_neq. }
  split; [reflexivity|]. split; [|split].
  - now rewrite FSFacts.lookup_rmtree, Hunder, FSFacts.lookup_set_same.
  - intros q Hq. now rewrite FSFacts.lookup_rmtree, Hq.
  - intros q Hq Hname.
    now rewrite FSFacts.lookup_rmtree, Hq, FSFacts.lookup_set_other.
Qed.

(** X18.  The archive is written in the working directory, next to the
    staging directory.  When both have the same name ([repo] is
    [tmp_<img>] and the tag [<img>.tar], as for the reference
    [tmp_a/a:a.tar]), opening the archive fails on the directory and
    [create_image_tar] raises [OSError], leaving the staging directory
    behind. *)
Theorem archive_name_collision (self : Puller) (w : World) :
  tar_name self = image_dir self ->
  FS.lookup (image_dir self) (fs w) = Some Dir ->
  create_image_tar self w = (Raise OSError, w).
Proof.
  intros Heq Hdir. unfold create_image_tar, bind, write_file.
  now rewrite Heq, Hdir.
Qed.

End Archive.

Lemma archive_replaces_staging_witness :
  let w := mkWorld [("tmp_busybox_1.0/manifest.json", File "{}");
                    ("tmp_busybox_1.0", Dir); ("notes.txt", File "n")]
             Demo.registry_ok [] [] [] in
  exists w',
    @create_image_tar Demo.externals Demo.puller w = (Ok "library_busybox.tar", w')
    /\ FS.lookup "library_busybox.tar" (fs w') = Some (File "manifest.json={}")
    /\ FS.lookup "tmp_busybox_1.0/manifest.json" (fs w') = None
    /\ FS.lookup "notes.txt" (fs w') = Some (File "n").
Proof.
  intros w.
  destruct (@create_image_tar Demo.externals Demo.puller w)
    as [[name|e|c] w'] eqn:Hrun;
    [|vm_compute in Hrun; discriminate Hrun|vm_compute in Hrun; discriminate Hrun].
  destruct (@archive_replaces_staging Demo.externals Demo.puller name w w'
              eq_refl Hrun) as (Hname & Harch & Hgone & Hrest).
  exists w'. subst name. split; [reflexivity|]. split; [exact Harch|]. split.
  - apply Hgone. reflexivity.
  - rewrite Hrest; [reflexivity|reflexivity|discriminate].
Defined.

Lemma archive_name_collision_witness :
  let w := mkWorld [("tmp_a_a.tar", Dir)] Demo.registry_ok [] [] [] in
  let self := set_image_dir "tmp_a_a.tar"
                (set_repo "tmp_a" (set_img_tag "a" "a.tar"
                                     (init_puller "tmp_a/a:a.tar"))) in
  parse_image_reference (init_puller "tmp_a/a:a.tar")
  = Ok (set_repo "tmp_a" (set_img_tag "a" "a.tar" (init_puller "tmp_a/a:a.tar")))
  /\ staging_dir self = "tmp_a_a.tar"
  /\ @create_image_tar Demo.externals self w = (Raise OSError, w).
Proof.
  intros w self. split; [reflexivity|]. split; [reflexivity|].
  apply (@archive_name_collision Demo.externals self w); reflexivity.
Defined.

(** ** The requests and the archive of a host-qualified reference *)

Section HostReference.
Import PyStr PyStrFacts PathFacts.

Context `{E : Externals}.

Lemma net_extends_refl (w : World) : net_extends w w.
Proof. exists []. now rewrite app_nil_r. Qed.

Lemma net_extends_trans (a b c : World) :
  net_extends a b -> net_extends b c -> net_extends a c.
Proof.
  intros [m1 H1] [m2 H2]. exists (m1 ++ m2)%list.
  now rewrite H2, H1, app_assoc.
Qed.

Lemma net_extends_quiet {A} (m : M A) :
  keeps net_unchanged m -> keeps net_extends m.
Proof.
  intros Hm w r w' H. exists []. rewrite app_nil_r. exact (Hm w r w' H).
Qed.

Lemma net_extends_requests_get (u : string) (h : list (string * string))
    (s : bool) : keeps net_extends (requests_get u h s).
Proof. intros w r w' H. eexists. exact (requests_get_net _ _ _ _ _ _ H). Qed.

Lemma net_extends_get_auth_token (self : Puller) (content_type : string) :
  keeps net_extends (get_auth_token self content_type).
Proof. intros w r w' H. eexists. exact (get_auth_token_net _ _ _ _ _ H). Qed.

Lemma net_extends_download_with_progress (self : Puller) (u p description : string) :
  keeps net_extends (download_with_progress self u p description).
Proof.
  intros w r w' H.
  destruct (download_with_progress_net _ _ _ _ _ _ _ H) as [Hn|[h Hn]];
    eexists; exact Hn.
Qed.

Lemma net_extends_print_manifest_entries (l : list json) :
  keeps net_extends (print_manifest_entries l).
Proof.
  induction l as [|m l IH]; cbn [print_manifest_entries].
  - apply keeps_ret, net_extends_refl.
  - apply keeps_bind; [exact net_extends_trans | | intro; exact IH].
    unfold print_manifest_entry.
    repeat (apply keeps_bind; [exact net_extends_trans | | intro]);
      try (apply keeps_lift, net_extends_refl);
      apply net_extends_quiet; auto with quiet nocore.
Qed.

Lemma net_extends_handle_manifest_error (self : Puller) (response : Response) :
  keeps net_extends (handle_manifest_error self response).
Proof.
  unfold handle_manifest_error.
  apply keeps_bind; [exact net_extends_trans | | intro].
  { apply net_extends_quiet; auto with quiet nocore. }
  apply keeps_bind; [exact net_extends_trans | | intro].
  { apply net_extends_quiet; auto with quiet nocore. }
  apply keeps_bind; [exact net_extends_trans | | intro].
  { apply net_extends_get_auth_token. }
  apply keeps_bind; [exact net_extends_trans | | intro].
  { apply net_extends_requests_get. }
  apply keeps_bind; [exact net_extends_trans | | intro].
  - destruct (status_code _ =? 200)%Z; [|apply keeps_ret, net_extends_refl].
    apply keeps_bind; [exact net_extends_trans | | intro].
    { apply net_extends_quiet; auto with quiet nocore. }
    apply keeps_bind; [exact net_extends_trans | | intro].
    { apply net_extends_quiet; auto with quiet nocore. }
    apply keeps_bind; [exact net_extends_trans | | intro].
    { apply keeps_lift, net_extends_refl. }
    apply keeps_bind; [exact net_extends_trans | | intro].
    { apply keeps_lift, net_extends_refl. }
    apply net_extends_print_manifest_entries.
  - apply keeps_sys_exit, net_extends_refl.
Qed.

(** After the token, the next request of a call is the one to [u]. *)
Lemma request_after_token {B} (self : Puller) (u : string)
    (hdrs : list (string * string)) (s : bool) (k : Response -> M B)
    (w wa : World) :
  get_auth_token self manifest_v2 w = (Ok hdrs, wa) ->
  (forall resp, keeps net_extends (k resp)) ->
  exists more,
    net (snd ((h <- get_auth_token self manifest_v2 ;;
               response <- requests_get u h s ;; k response) w))
    = (net w ++ [token_request self; mkRequest u hdrs s] ++ more)%list.
Proof.
  intros Htok Hk. rewrite (bind_step _ _ _ _ _ Htok).
  pose proof (get_auth_token_net _ _ _ _ _ Htok) as Hna.
  destruct (requests_get u hdrs s wa) as [[resp|e|c] w1] eqn:Hget;
    pose proof (requests_get_net _ _ _ _ _ _ Hget) as Hn1.
  - rewrite (bind_step _ _ _ _ _ Hget).
    destruct (k resp w1) as [r w'] eqn:Hrest.
    destruct (Hk resp _ _ _ Hrest) as [more Hm]. exists more. cbn [snd].
    rewrite Hm, Hn1, Hna, <- !app_assoc. reflexivity.
  - rewrite (bind_raise _ _ _ _ _ Hget). exists []. cbn [snd].
    rewrite Hn1, Hna, <- !app_assoc. reflexivity.
  - rewrite (bind_exit _ _ _ _ _ Hget). exists []. cbn [snd].
    rewrite Hn1, Hna, <- !app_assoc. reflexivity.
Qed.

Lemma get_auth_endpoint_fields (self self' : Puller) (w w' : World) :
  get_auth_endpoint self w = (Ok self', w') ->
  registry self' = registry self /\ repo self' = repo self
  /\ img self' = img self /\ tag self' = tag self
  /\ image_dir self' = image_dir self.
Proof.
  unfold get_auth_endpoint. intros H.
  apply bind_ok in H as (resp & w1 & _ & H).
  destruct (status_code resp =? 401)%Z; [|now injection H as <- _].
  destruct (header_get _ _); [|discriminate H].
  destruct (nth_error _ 1); [|discriminate H].
  now injection H as <- _.
Qed.

Lemma create_image_directory_fields (self self' : Puller) (w w' : World) :
  create_image_directory self w = (Ok self', w') ->
  self' = set_image_dir (staging_dir self) self.
Proof.
  unfold create_image_directory. intros H.
  apply bind_ok in H as (present & w0 & _ & H).
  apply bind_ok in H as ([] & w1 & _ & H).
  apply bind_ok in H as ([] & w2 & _ & H).
  apply bind_ok in H as ([] & w3 & _ & H).
  now injection H as <- _.
Qed.

(** C9.  A two-segment reference whose first segment contains [.] or [:]
    parses to the empty repository path, not to ["library"], and the run
    goes on with that: the pullers [get_auth_endpoint] and
    [create_image_directory] hand on keep the four names; with them
    [fetch_manifest] requests the manifest at [https://host/v2//img/...]
    right after the token, [download_config] and [download_layer] request
    the blobs at [https://host/v2//img/blobs/...], [process_layers] returns
    the [RepoTags] entry ["/img:tag"], and [create_image_tar], when it
    returns, returns ["_img.tar"] and has written the archive under that
    name. *)
Theorem two_segment_host_reference (host l i t : string) :
  contains "/" host = false ->
  contains "." host || contains ":" host = true ->
  contains "/" i = false -> contains "/" t = false ->
  selects l i t ->
  let names (self : Puller) :=
    registry self = host /\ repo self = "" /\ img self = i /\ tag self = t in
  exists p,
    parse_image_reference (init_puller (host ++ "/" ++ l)) = Ok p
    /\ names p
    /\ (forall w p2 w2 p3 w3,
          get_auth_endpoint p w = (Ok p2, w2) ->
          create_image_directory p2 w2 = (Ok p3, w3) ->
          names p3)
    /\ forall self, names self ->
         (forall w hdrs wa,
            get_auth_token self manifest_v2 w = (Ok hdrs, wa) ->
            exists more,
              net (snd (fetch_manifest self w))
              = (net w
                 ++ [token_request self;
                     mkRequest ("https://" ++ host ++ "/v2//" ++ i
                                ++ "/manifests/" ++ t) hdrs false]
                 ++ more)%list)
         /\ (forall dg w hdrs wa,
               get_auth_token self manifest_v2 w = (Ok hdrs, wa) ->
               net (snd (download_config self dg w))
               = (net w
                  ++ [token_request self;
                      mkRequest ("https://" ++ host ++ "/v2//" ++ i
                                 ++ "/blobs/" ++ dg) hdrs false])%list)
         /\ (forall dg dir fallback_urls w hdrs wa,
               get_auth_token self manifest_v2 w = (Ok hdrs, wa) ->
               exists more,
                 net (snd (download_layer self dg dir fallback_urls w))
                 = (net w
                    ++ [token_request self;
                        mkRequest ("https://" ++ host ++ "/v2//" ++ i
                                   ++ "/blobs/" ++ dg) hdrs true]
                    ++ more)%list)
         /\ (forall layers config_content w content last_layer_id w',
               process_layers self layers config_content w
               = (Ok (content, last_layer_id), w') ->
               RepoTags content = ["/" ++ i ++ ":" ++ t])
         /\ (forall w name w',
               create_image_tar self w = (Ok name, w') ->
               name = "_" ++ i ++ ".tar"
               /\ FS.lookup ("_" ++ i ++ ".tar") (fs w')
                  = Some (File (tar_pack (FS.subtree (image_dir self) (fs w))))).
Proof.
  intros Hh Hdot Hi Ht Hsel names.
  eexists. split; [now apply (parse_host_only host l i t)|].
  split; [now repeat split|]. split.
  - intros w p2 w2 p3 w3 Hauth Hdir.
    apply get_auth_endpoint_fields in Hauth as (Hr & Hp & Him & Htg & _).
    apply create_image_directory_fields in Hdir. subst p3.
    unfold names. cbn [registry repo img tag set_image_dir].
    rewrite Hr, Hp, Him, Htg. now repeat split.
  - intros self (Hreg & Hrepo & Himg & Htag).
    assert (Hmu : manifest_url self
                  = "https://" ++ host ++ "/v2//" ++ i ++ "/manifests/" ++ t).
    { unfold manifest_url. now rewrite Hreg, Hrepo, Himg, Htag. }
    assert (Hbu : forall dg, blob_url self dg
                  = "https://" ++ host ++ "/v2//" ++ i ++ "/blobs/" ++ dg).
    { intros dg. unfold blob_url. now rewrite Hreg, Hrepo, Himg. }
    split; [|split; [|split; [|split]]].
    + intros w hdrs wa Htok. rewrite <- Hmu.
      apply (request_after_token self (manifest_url self) hdrs false
               (fun response =>
                  (if negb (status_code response =? 200)%Z
                   then handle_manifest_error self response else ret tt) ;;
                  response_json response) w wa Htok).
      intros resp. apply keeps_bind; [exact net_extends_trans | | intro].
      * destruct (negb _);
          [apply net_extends_handle_manifest_error
          |apply keeps_ret, net_extends_refl].
      * apply net_extends_quiet; auto with quiet nocore.
    + intros dg w hdrs wa Htok. rewrite <- Hbu. unfold download_config.
      rewrite (bind_step _ _ _ _ _ Htok).
      pose proof (get_auth_token_net _ _ _ _ _ Htok) as Hna.
      destruct (requests_get (blob_url self dg) hdrs false wa)
        as [[resp|e|c] w1] eqn:Hget;
        pose proof (requests_get_net _ _ _ _ _ _ Hget) as Hn1.
      * rewrite (bind_step _ _ _ _ _ Hget).
        destruct ((write_file (image_dir self ++ "/" ++ drop 7 dg ++ ".json")
                     (content resp) ;;
                   ret (image_dir self ++ "/" ++ drop 7 dg ++ ".json")) w1)
          as [r w'] eqn:Hrest.
        assert (Hq : net_unchanged w1 w').
        { revert Hrest. apply keeps_bind; [exact net_unchanged_trans | | intro].
          - auto with quiet nocore.
          - apply keeps_ret, net_unchanged_refl. }
        cbn [snd]. unfold net_unchanged in Hq.
        now rewrite Hq, Hn1, Hna, <- app_assoc.
      * rewrite (bind_raise _ _ _ _ _ Hget). cbn [snd].
        now rewrite Hn1, Hna, <- app_assoc.
      * rewrite (bind_exit _ _ _ _ _ Hget). cbn [snd].
        now rewrite Hn1, Hna, <- app_assoc.
    + intros dg dir fallback_urls w hdrs wa Htok. rewrite <- Hbu.
      unfold download_layer.
      set (gz := os_path_join dir "layer_gzip.tar").
      destruct (download_with_progress self (blob_url self dg) gz
                  (layer_label dg) w) as [r1 w1] eqn:Hp.
      assert (Hfirst : exists more1,
                 net w1 = (net w ++ [token_request self;
                                     mkRequest (blob_url self dg) hdrs true]
                           ++ more1)%list).
      { pose proof Hp as Hp'. unfold download_with_progress in Hp'.
        edestruct (request_after_token self (blob_url self dg) hdrs true
                     (fun response =>
                        raise_for_status response ;;
                        total_size <-
                          match header_get "content-length" (headers response) with
                          | None => ret 0%Z
                          | Some s => match py_int s with
                                      | Some n => ret n
                                      | None => raise ValueError
                                      end
                          end ;;
                        print (layer_label dg ++ " total "
                               ++ PyStr.of_Z total_size ++ " B") ;;
                        write_file gz (content response)) w wa Htok)
          as [more1 Hm]; [|rewrite Hp' in Hm; exists more1; exact Hm].
        intros resp. apply net_extends_quiet.
        apply keeps_bind; [exact net_unchanged_trans | | intro].
        { auto with quiet nocore. }
        apply keeps_bind; [exact net_unchanged_trans | | intro].
        { destruct (header_get _ _) as [s|]; [destruct (py_int s)|];
            [apply keeps_ret | apply keeps_raise | apply keeps_ret];
            apply net_unchanged_refl. }
        apply keeps_bind; [exact net_unchanged_trans | | intro];
          auto with quiet nocore. }
      destruct Hfirst as [more1 Hfirst].
      match goal with
      | |- context [snd (bind ?m ?k w)] =>
          destruct (bind m k w) as [r w'] eqn:Hall
      end.
      assert (Hext : net_extends w1 w').
      { unfold bind in Hall. unfold try_except in Hall at 1.
        rewrite Hp in Hall.
        destruct r1 as [[]|e|c].
        - refine (net_extends_quiet _ (quiet_decompress_layer dir) _ _ _ Hall).
        - destruct e;
            try (injection Hall as _ <-; apply net_extends_refl).
          destruct fallback_urls as [|u0 rest].
          + injection Hall as _ <-. apply net_extends_refl.
          + destruct (download_with_progress self u0 gz
                        (layer_label dg ++ " (fallback)") w1)
              as [[[]|e|c] w2] eqn:Hfb;
              pose proof (net_extends_download_with_progress _ _ _ _ _ _ _ Hfb)
                as H12.
            * eapply net_extends_trans; [exact H12|].
              refine (net_extends_quiet _ (quiet_decompress_layer dir) _ _ _ Hall).
            * injection Hall as _ <-. exact H12.
            * injection Hall as _ <-. exact H12.
        - injection Hall as _ <-. apply net_extends_refl. }
      destruct Hext as [more2 Hext]. exists (more1 ++ more2)%list. cbn [snd].
      rewrite Hext, Hfirst, <- !app_assoc. reflexivity.
    + intros layers cc w content last w' Hrun.
      destruct (process_layers_returns _ _ _ _ _ _ _ Hrun) as (_ & _ & _ & HR).
      rewrite HR. unfold repo_tag. now rewrite Hrepo, Himg, Htag.
    + intros w name w' Hrun.
      apply create_image_tar_ok in Hrun as (-> & Hne & Hdir & ->).
      assert (Htar : tar_name self = "_" ++ i ++ ".tar").
      { unfold tar_name. now rewrite Hrepo, Himg. }
      split; [exact Htar|]. rewrite <- Htar. cbn [fs with_fs].
      rewrite FSFacts.lookup_rmtree.
      assert (Hunder : FS.under (image_dir self) (tar_name self) = false).
      { unfold FS.under. apply orb_false_iff. split; [now apply String.eqb_neq|].
        apply plain_name_not_inside. rewrite Htar.
        cbn. rewrite contains_append, Hi. reflexivity. }
      now rewrite Hunder, FSFacts.lookup_set_same.
Qed.

End HostReference.

Lemma two_segment_host_reference_witness :
  let w := mkWorld [("tmp_img_latest/manifest.json", File "{}");
                    ("tmp_img_latest", Dir)] Demo.registry_ok [] [] [] in
  exists p,
    parse_image_reference (init_puller "host.tld/img") = Ok p
    /\ registry p = "host.tld" /\ repo p = "" /\ img p = "img"
    /\ tag p = "latest"
    /\ (exists more,
          net (snd (@fetch_manifest Demo.externals p w))
          = [token_request p;
             mkRequest "https://host.tld/v2//img/manifests/latest"
               Demo.token_headers false] ++ more)%list
    /\ exists w',
         @create_image_tar Demo.externals (set_image_dir "tmp_img_latest" p) w
         = (Ok "_img.tar", w')
         /\ FS.lookup "_img.tar" (fs w') = Some (File "manifest.json={}").
Proof.
  intros w.
  destruct (@two_segment_host_reference Demo.externals "host.tld" "img" "img"
              "latest" eq_refl eq_refl eq_refl eq_refl
              (sel_bare "img" eq_refl eq_refl))
    as (p & Hp & (Hreg & Hrepo & Himg & Htag) & _ & Hall).
  pose proof Hp as Hp'. vm_compute in Hp'. injection Hp' as Hp'.
  exists p. split; [exact Hp|]. repeat (split; [assumption|]).
  split.
  - destruct (Hall p (conj Hreg (conj Hrepo (conj Himg Htag))))
      as (Hman & _).
    apply (Hman w Demo.token_headers (sent (token_request p) w)).
    rewrite <- Hp'. vm_compute. reflexivity.
  - destruct (Hall (set_image_dir "tmp_img_latest" p)
                (conj Hreg (conj Hrepo (conj Himg Htag))))
      as (_ & _ & _ & _ & Htar).
    destruct (@create_image_tar Demo.externals
                (set_image_dir "tmp_img_latest" p) w)
      as [[name|e|c] w'] eqn:Hrun;
      [|rewrite <- Hp' in Hrun; vm_compute in Hrun; discriminate Hrun
       |rewrite <- Hp' in Hrun; vm_compute in Hrun; discriminate Hrun].
    destruct (Htar w name w' Hrun) as [Hname Hfile].
    exists w'. rewrite Hname. split; [reflexivity|].
    change ("_" ++ "img" ++ ".tar") with "_img.tar" in Hfile.
    rewrite Hfile, <- Hp'. vm_compute. reflexivity.
Defined.
